(** * KAiSurf backend: the reward ledger and its authentication gates

    A shallow embedding of the Flask backend of the repository:

    - [kaisurf_secured_app.py] with [models.py] and [config.py]
      (module [Secured]): the bearer-token decorator
      [get_user_from_auth_header], the shared-secret decorator
      [trusted_service_required] and the routes [list_posts],
      [earn_kones] and [webhook_sync];
    - [kaisurf_test.py] (modules [TestApp] and [Session]): the session
      decorator [require_auth], the read routes [get_kones_balance] and
      [get_kones_ledger] over the four tables they touch, and, over the
      whole store, [register], [login], [get_user_profile],
      [get_chrono_log] and [set_reward_rule];
    - [navigate_to_url] of the two browser front ends (module
      [Koralai]).

    Two parts are not code of the repository and follow the
    specification instead: the body of PyJWT's [jwt.decode]
    ([Jwt.decode]) and the history read of the ledger service, for
    which the secured application has no route
    ([Secured.ledger_history]).

    Conventions of the embedding.

    - A Python [int] is a [Z]; a Python [str] is a [string] (ASCII text).
    - A parsed JSON body is a value of type [json]; a JSON object is the
      association list of the [dict] built by the parser, in insertion
      order (keys distinct), a JSON float is the IEEE value it was
      parsed to ([spec_float]).
    - A table is the list of its rows in insertion order; a handler takes
      the store and returns the response with the store after the request.
    - The wall clock is an input: [now] is the reading, in microseconds,
      that the handler obtains while it serves the request.
    - An exception that no handler catches ends the request with Flask's
      generic 500 response and without a commit: the store is unchanged.
    - Integers of the store are unbounded, as Python's are; neither the
      width of an integer column nor the length of a string column is
      enforced, and the interpreter's limit on the number of digits that
      [int()] converts is not modelled. *)

From Stdlib Require Import ZArith List String Ascii Bool Lia.
From Stdlib Require Import Floats.SpecFloat.
From Stdlib Require Import Numbers.DecimalString Numbers.DecimalPos.
From Stdlib Require Import Sorting.Permutation Sorting.Sorted.
Import ListNotations.
Local Set Warnings "-register-all".
Local Open Scope string_scope.
Local Open Scope Z_scope.

(** ** Python primitives *)

Module Py.

(** A raised Python exception, by class, as far as the handlers tell
    them apart. *)
Inductive result (A : Type) : Type :=
| Ok (a : A)
| ValueError
| TypeError
| OverflowError
| AttributeError.
Arguments Ok {A} a.
Arguments ValueError {A}.
Arguments TypeError {A}.
Arguments OverflowError {A}.
Arguments AttributeError {A}.

(** [s.startswith(p)] *)
Definition startswith (s p : string) : bool := String.prefix p s.

(** [needle in s] for two strings *)
Fixpoint contains (needle s : string) : bool :=
  String.prefix needle s ||
  match s with
  | EmptyString => false
  | String _ s' => contains needle s'
  end.

(** [s.split(' ')]: cut at every single space; empty pieces are kept. *)
Fixpoint split_space_aux (cur : string) (s : string) : list string :=
  match s with
  | EmptyString => [cur]
  | String c s' =>
      if Ascii.eqb c " "%char
      then cur :: split_space_aux EmptyString s'
      else split_space_aux (cur ++ String c EmptyString) s'
  end.

Definition split_space (s : string) : list string :=
  split_space_aux EmptyString s.

(** [c.upper()] on an ASCII character *)
Definition upper_char (c : ascii) : ascii :=
  let n := nat_of_ascii c in
  if (Nat.leb 97 n && Nat.leb n 122)%bool
  then ascii_of_nat (n - 32)
  else c.

(** [s.upper()] *)
Fixpoint upper (s : string) : string :=
  match s with
  | EmptyString => EmptyString
  | String c s' => String (upper_char c) (upper s')
  end.

(** [s.replace(a, b)] for single characters [a] and [b] *)
Fixpoint replace_char (a b : ascii) (s : string) : string :=
  match s with
  | EmptyString => EmptyString
  | String c s' =>
      String (if Ascii.eqb c a then b else c) (replace_char a b s')
  end.

(** [str(n)] for an integer *)
Definition str_of_int (n : Z) : string :=
  NilZero.string_of_int (Z.to_int n).

(** *** [int(s)] for a string

    Python strips surrounding whitespace, reads an optional sign, then
    decimal digits in which single underscores may separate digits. *)

(** ASCII whitespace for [int()]: space, the controls 9 to 13 and the
    separators 28 to 31. *)
Definition is_space (c : ascii) : bool :=
  let n := nat_of_ascii c in
  (Nat.eqb n 32 || (Nat.leb 9 n && Nat.leb n 13)
   || (Nat.leb 28 n && Nat.leb n 31))%bool.

Definition digit_of (c : ascii) : option Z :=
  let n := nat_of_ascii c in
  if (Nat.leb 48 n && Nat.leb n 57)%bool
  then Some (Z.of_nat (n - 48))
  else None.

Fixpoint lstrip (s : string) : string :=
  match s with
  | String c s' => if is_space c then lstrip s' else s
  | EmptyString => EmptyString
  end.

(** [rstrip]: drop the trailing whitespace. *)
Fixpoint rstrip (s : string) : string :=
  match s with
  | EmptyString => EmptyString
  | String c s' =>
      match rstrip s' with
      | EmptyString => if is_space c then EmptyString else String c EmptyString
      | r => String c r
      end
  end.

Definition strip (s : string) : string := rstrip (lstrip s).

(** The digits after the first one: [acc] is the value read so far and
    [after_digit] tells whether the previous character was a digit (an
    underscore must stand between two digits). *)
Fixpoint int_digits (acc : Z) (after_digit : bool) (s : string) : option Z :=
  match s with
  | EmptyString => if after_digit then Some acc else None
  | String c s' =>
      match digit_of c with
      | Some d => int_digits (10 * acc + d) true s'
      | None =>
          if (Ascii.eqb c "_"%char && after_digit)%bool
          then int_digits acc false s'
          else None
      end
  end.

Definition int_unsigned (s : string) : option Z :=
  match s with
  | EmptyString => None
  | String c _ =>
      match digit_of c with
      | Some _ => int_digits 0 false s
      | None => None
      end
  end.

Definition int_of_str (s : string) : option Z :=
  match strip s with
  | String "-"%char s' => option_map Z.opp (int_unsigned s')
  | String "+"%char s' => int_unsigned s'
  | s' => int_unsigned s'
  end.

(** [s.split()]: the words of [s], cut at runs of whitespace. *)
Fixpoint split_ws_aux (cur : string) (s : string) : list string :=
  match s with
  | EmptyString =>
      match cur with EmptyString => [] | _ => [cur] end
  | String c s' =>
      if is_space c
      then match cur with
           | EmptyString => split_ws_aux EmptyString s'
           | _ => cur :: split_ws_aux EmptyString s'
           end
      else split_ws_aux (cur ++ String c EmptyString) s'
  end.

Definition split_ws (s : string) : list string :=
  split_ws_aux EmptyString s.

(** [s.startswith((p, q))] for a pair of prefixes *)
Definition startswith_any (s : string) (ps : list string) : bool :=
  existsb (fun p => startswith s p) ps.

End Py.

(** ** JSON values *)

Inductive json : Type :=
| JNull
| JBool (b : bool)
| JInt (n : Z)
| JFloat (f : spec_float)
| JStr (s : string)
| JArr (l : list json)
| JObj (d : list (string * json)).

Module Json.

(** [d.get(k)]: the value bound to [k], [None] when there is none. *)
Fixpoint get (k : string) (d : list (string * json)) : option json :=
  match d with
  | [] => None
  | (k', v) :: d' => if String.eqb k' k then Some v else get k d'
  end.

(** [k in d] for a dict *)
Definition has_key (k : string) (d : list (string * json)) : bool :=
  match get k d with Some _ => true | None => false end.

(** Python truth value of a parsed JSON value ([bool(v)]). *)
Definition truthy (v : json) : bool :=
  match v with
  | JNull => false
  | JBool b => b
  | JInt n => negb (n =? 0)
  | JFloat (S754_zero _) => false
  | JFloat _ => true
  | JStr s => negb (String.eqb s "")
  | JArr l => match l with [] => false | _ => true end
  | JObj d => match d with [] => false | _ => true end
  end.

(** Truth value of [d.get(k)], where a missing key gives [None]. *)
Definition truthy_opt (v : option json) : bool :=
  match v with Some v => truthy v | None => false end.

(** [k in data] for a string [k] and any parsed JSON value: a key of a
    dict, an element of a list, a substring of a string; a number or a
    boolean is not iterable. *)
Definition contains_str (k : string) (data : json) : Py.result bool :=
  match data with
  | JObj d => Py.Ok (has_key k d)
  | JArr l =>
      Py.Ok (existsb (fun v => match v with
                               | JStr s => String.eqb s k
                               | _ => false
                               end) l)
  | JStr s => Py.Ok (Py.contains k s)
  | JNull | JBool _ | JInt _ | JFloat _ => Py.TypeError
  end.

(** [data[k]] for a string key: only a dict can be indexed by a string. *)
Definition subscript (k : string) (data : json) : Py.result json :=
  match data with
  | JObj d => match get k d with
              | Some v => Py.Ok v
              | None => Py.TypeError  (* KeyError, not reached behind [in] *)
              end
  | _ => Py.TypeError
  end.

(** [data.get(k)]: only a dict has the method. *)
Definition dict_get (k : string) (data : json) : Py.result (option json) :=
  match data with
  | JObj d => Py.Ok (get k d)
  | _ => Py.AttributeError
  end.

(** Truncation toward zero of a finite IEEE value [(-1)^s * m * 2^e]. *)
Definition trunc_float (s : bool) (m : positive) (e : Z) : Z :=
  let a := if 0 <=? e
           then Z.pos m * 2 ^ e
           else Z.pos m / 2 ^ (- e) in
  if s then - a else a.

(** [int(v)] *)
Definition int (v : json) : Py.result Z :=
  match v with
  | JInt n => Py.Ok n
  | JBool b => Py.Ok (if b then 1 else 0)
  | JFloat S754_nan => Py.ValueError
  | JFloat (S754_infinity _) => Py.OverflowError
  | JFloat (S754_zero _) => Py.Ok 0
  | JFloat (S754_finite s m e) => Py.Ok (trunc_float s m e)
  | JStr s => match Py.int_of_str s with
              | Some n => Py.Ok n
              | None => Py.ValueError
              end
  | JNull | JArr _ | JObj _ => Py.TypeError
  end.

End Json.

(** ** PyJWT, as far as the application sees it

    [jwt.decode] is a call into the PyJWT library.  The application sees
    either the payload or an exception, and tells exceptions apart by
    class ([except ExpiredSignatureError], [except InvalidTokenError],
    [except Exception]). *)

Module Jwt.

Inductive exn : Type :=
| DecodeError              (* the token cannot be deserialised *)
| InvalidSignatureError
| InvalidAlgorithmError
| ExpiredSignatureError
| ImmatureSignatureError
| InvalidAudienceError
| InvalidKeyError          (* the configured key is refused *)
| OtherException.          (* anything that is not a PyJWT error *)

(** [isinstance(e, InvalidTokenError)], from the class hierarchy of
    [jwt.exceptions]. *)
Definition is_InvalidTokenError (e : exn) : bool :=
  match e with
  | InvalidKeyError | OtherException => false
  | _ => true
  end.

(** The outcome of [jwt.decode(token, key, algorithms=["HS256"])].  Of
    the payload the application reads [payload.get('sub')] only; PyJWT
    lets a [sub] claim through only when it is a string. *)
Inductive decoded : Type :=
| Payload (sub : option string)
| Raise (e : exn).

(** A deserialised token, in the symbolic model of the signature: a
    token verifies under exactly the key that signed it. *)
Record token : Type := {
  alg : string;
  signed_with : string;
  sub : option string;
  exp : option Z            (* seconds since the epoch *)
}.

Section Decode.

(** The compact serialisation (base64url and JSON), left abstract. *)
Variable deserialize : string -> option token.

(** Modelled from the spec: the body of [jwt.decode], which is PyJWT's
    and not part of the repository.  The spec gives the order of its
    steps: (1) structural and signature validation against the
    configured secret under the one fixed algorithm, (2) expiry check.
    [now] is in microseconds, [exp] in seconds; a token is expired
    from the instant [exp] on. *)
Definition decode (jwt key : string) (now : Z) : decoded :=
  match deserialize jwt with
  | None => Raise DecodeError
  | Some t =>
      if negb (String.eqb (alg t) "HS256") then Raise InvalidAlgorithmError
      else if negb (String.eqb (signed_with t) key)
      then Raise InvalidSignatureError
      else match exp t with
           | Some e =>
               if e * 1000000 <=? now then Raise ExpiredSignatureError
               else Payload (sub t)
           | None => Payload (sub t)
           end
  end.

End Decode.

End Jwt.

(** ** [models.py]: the four tables of the secured application *)

Module User.
Record t : Type := { auth_uid : string }.
End User.

Module KonesBalance.
Record t : Type := {
  id : Z;
  user_auth_uid : string;
  balance : Z;
  last_updated : Z
}.
End KonesBalance.

Module KonesLedger.
Record t : Type := {
  id : Z;
  user_auth_uid : string;
  amount : Z;
  description : json;
  timestamp : Z
}.
End KonesLedger.

Module Chronolog.
Record t : Type := {
  id : Z;
  user_auth_uid : string;
  event_type : string;
  payload : json;
  timestamp : Z
}.
End Chronolog.

(** ** Queries shared by the two applications *)

Module Sql.

(** The next value of an integer primary key: one more than the largest
    key of the table. *)
Definition next_id {A : Type} (key : A -> Z) (rows : list A) : Z :=
  1 + fold_right (fun r m => Z.max (key r) m) 0 rows.

(** [ORDER BY key DESC]: insertion into a list that is already in
    descending order; rows with equal keys keep their table order. *)
Fixpoint insert_desc {A : Type} (key : A -> Z) (x : A) (l : list A) : list A :=
  match l with
  | [] => [x]
  | y :: l' =>
      if key y <? key x then x :: y :: l' else y :: insert_desc key x l'
  end.

Definition order_by_desc {A : Type} (key : A -> Z) (rows : list A) : list A :=
  fold_left (fun sorted x => insert_desc key x sorted) rows [].

(** [ORDER BY key DESC ... .first()] *)
Definition first_by_desc {A : Type} (key : A -> Z) (rows : list A) : option A :=
  hd_error (order_by_desc key rows).

(** [ORDER BY key ASC]: insertion into a list that is already in
    ascending order; rows with equal keys keep their table order. *)
Fixpoint insert_asc {A : Type} (key : A -> Z) (x : A) (l : list A) : list A :=
  match l with
  | [] => [x]
  | y :: l' =>
      if key x <? key y then x :: y :: l' else y :: insert_asc key x l'
  end.

Definition order_by_asc {A : Type} (key : A -> Z) (rows : list A) : list A :=
  fold_left (fun sorted x => insert_asc key x sorted) rows [].

End Sql.

(** ** [kaisurf_secured_app.py] *)

Module Secured.

(** [app.config], as far as the decorators read it ([config.py]). *)
Record Config : Type := {
  SUPABASE_JWT_SECRET : option string;
  TRUSTED_SERVICE_API_KEY : option string
}.

(** The store behind [db]. *)
Record Db : Type := {
  users : list User.t;
  kones_balance : list KonesBalance.t;
  kones_ledger : list KonesLedger.t;
  chronolog : list Chronolog.t
}.

(** What a handler reads of [request]. *)
Record Request : Type := {
  Authorization : option string;   (* [request.headers.get('Authorization')] *)
  X_Api_Key : option string;       (* [request.headers.get('X-Api-Key')] *)
  get_json : json                  (* [request.get_json()] *)
}.

(** [jsonify(body), status], or Flask's answer to an exception that
    nothing caught. *)
Inductive Response : Type :=
| jsonify (body : list (string * json)) (status : Z)
| InternalServerError.

Definition status_code (r : Response) : Z :=
  match r with
  | jsonify _ st => st
  | InternalServerError => 500
  end.

Definition message (r : Response) : option json :=
  match r with
  | jsonify body _ => Json.get "message" body
  | InternalServerError => None
  end.

(** A view function: the request and the clock reading in, the response
    and the store after the request out. *)
Definition View : Type := Request -> Z -> Db -> Response * Db.

Definition msg (text : string) (status : Z) : Response :=
  jsonify [("message", JStr text)] status.

(** [db.session.get(User, auth_uid)] *)
Definition get_user (uid : string) (db : Db) : option User.t :=
  find (fun u => String.eqb (User.auth_uid u) uid) (users db).

(** [KonesBalance.query.filter_by(user_auth_uid=uid).first()] *)
Definition query_balance (uid : string) (db : Db) : option KonesBalance.t :=
  find (fun r => String.eqb (KonesBalance.user_auth_uid r) uid)
       (kones_balance db).

(** The row with a given primary key (the refresh of an expired object
    after [commit]). *)
Definition balance_by_id (i : Z) (db : Db) : option KonesBalance.t :=
  find (fun r => KonesBalance.id r =? i) (kones_balance db).

(** [a != b] for two values that are [None] or a string. *)
Definition differs (a b : option string) : bool :=
  match a, b with
  | None, None => false
  | Some x, Some y => negb (String.eqb x y)
  | _, _ => true
  end.

(** [not s] for a value that is [None] or a string. *)
Definition falsy (s : option string) : bool :=
  match s with
  | None => true
  | Some x => String.eqb x ""
  end.

(** *** The body of [earn_kones] after validation

    The handler reads the balance row, changes the loaded object (or a
    new one) in the session, and writes at [commit].  The two accesses to
    the store are separate definitions, so that the requests of two
    workers can be interleaved. *)

(** The session between the query and the commit. *)
Record Credit : Type := {
  credit_user : string;
  credit_amount : Z;
  credit_description : json;
  credit_now : Z;
  balance_record : option KonesBalance.t   (* what the query returned *)
}.

Definition credit_begin (uid : string) (amount : Z) (description : json)
    (now : Z) (db : Db) : Credit :=
  {| credit_user := uid;
     credit_amount := amount;
     credit_description := description;
     credit_now := now;
     balance_record := query_balance uid db |}.

(** A value that the [description] column takes: a scalar.  [None]
    violates [nullable=False], a list or a dict cannot be bound. *)
Definition storable (description : json) : bool :=
  match description with
  | JNull | JArr _ | JObj _ => false
  | _ => true
  end.

(** The flush of the balance: an INSERT of the new object with
    [0 + amount], or an UPDATE, by primary key, of the loaded row to the
    value computed from what was loaded.  Returns the key of the row. *)
Definition flush_balance (c : Credit) (rows : list KonesBalance.t)
    : list KonesBalance.t * Z :=
  match balance_record c with
  | None =>
      let i := Sql.next_id KonesBalance.id rows in
      ((rows ++ [ {| KonesBalance.id := i;
                     KonesBalance.user_auth_uid := credit_user c;
                     KonesBalance.balance := 0 + credit_amount c;
                     KonesBalance.last_updated := credit_now c |} ])%list, i)
  | Some loaded =>
      (map (fun r =>
              if KonesBalance.id r =? KonesBalance.id loaded
              then {| KonesBalance.id := KonesBalance.id r;
                      KonesBalance.user_auth_uid := KonesBalance.user_auth_uid r;
                      KonesBalance.balance :=
                        KonesBalance.balance loaded + credit_amount c;
                      KonesBalance.last_updated := credit_now c |}
              else r) rows,
       KonesBalance.id loaded)
  end.

Definition ledger_entry (c : Credit) (rows : list KonesLedger.t)
    : KonesLedger.t :=
  {| KonesLedger.id := Sql.next_id KonesLedger.id rows;
     KonesLedger.user_auth_uid := credit_user c;
     KonesLedger.amount := credit_amount c;
     KonesLedger.description := credit_description c;
     KonesLedger.timestamp := credit_now c |}.

(** [db.session.commit()] and the response built after it, which reads
    [balance_record.balance] back from the store. *)
Definition credit_commit (c : Credit) (db : Db) : Response * Db :=
  if storable (credit_description c) then
    let '(balances, i) := flush_balance c (kones_balance db) in
    let db' := {| users := users db;
                  kones_balance := balances;
                  kones_ledger :=
                    (kones_ledger db
                       ++ [ledger_entry c (kones_ledger db)])%list;
                  chronolog := chronolog db |} in
    match balance_by_id i db' with
    | Some r =>
        (jsonify [("message",
                   JStr ("Successfully added "
                         ++ Py.str_of_int (credit_amount c) ++ " Kones."));
                  ("new_balance", JInt (KonesBalance.balance r))] 200,
         db')
    | None => (InternalServerError, db')
    end
  else (InternalServerError, db).

(** [not data or 'amount' not in data or 'description' not in data] *)
Definition missing_fields (data : json) : Py.result bool :=
  if negb (Json.truthy data) then Py.Ok true
  else match Json.contains_str "amount" data with
       | Py.Ok false => Py.Ok true
       | Py.Ok true =>
           match Json.contains_str "description" data with
           | Py.Ok b => Py.Ok (negb b)
           | e => e
           end
       | e => e
       end.

(** The validation of [earn_kones]: the response of an early return, or
    the amount and the description. *)
Definition earn_validate (data : json) : Response + Z * json :=
  match missing_fields data with
  | Py.Ok true =>
      inl (msg "Missing required fields: amount and description." 400)
  | Py.Ok false =>
      match Json.subscript "amount" data with
      | Py.Ok v =>
          match Json.int v with
          | Py.Ok amount =>
              match Json.subscript "description" data with
              | Py.Ok description =>
                  if amount <=? 0
                  then inl (msg "Amount must be positive." 400)
                  else inr (amount, description)
              | _ => inl InternalServerError
              end
          | Py.ValueError => inl (msg "Amount must be an integer." 400)
          | _ => inl InternalServerError
          end
      | _ => inl InternalServerError
      end
  | _ => inl InternalServerError
  end.

Section App.

(** [jwt.decode(token, key, algorithms=["HS256"])] at a clock reading. *)
Variable jwt_decode : string -> string -> Z -> Jwt.decoded.

Variable config : Config.

(** *** Decorators *)

Definition get_user_from_auth_header (f : User.t -> View) : View :=
  fun request now db =>
    match Authorization request with
    | None => (msg "Missing or invalid Authorization header." 401, db)
    | Some auth_header =>
        if negb (Py.startswith auth_header "Bearer ")
        then (msg "Missing or invalid Authorization header." 401, db)
        else
          let jwt_token := nth 1 (Py.split_space auth_header) "" in
          match SUPABASE_JWT_SECRET config with
          | None => (msg "Server misconfiguration." 500, db)
          | Some jwt_secret =>
              if String.eqb jwt_secret ""
              then (msg "Server misconfiguration." 500, db)
              else
                match jwt_decode jwt_token jwt_secret now with
                | Jwt.Payload auth_uid =>
                    if falsy auth_uid
                    then (msg "Invalid JWT payload." 401, db)
                    else
                      match auth_uid with
                      | Some uid =>
                          match get_user uid db with
                          | None =>
                              (msg "User not found in database." 404, db)
                          | Some current_user =>
                              f current_user request now db
                          end
                      | None => (msg "Invalid JWT payload." 401, db)
                      end
                | Jwt.Raise Jwt.ExpiredSignatureError =>
                    (msg "JWT has expired." 401, db)
                | Jwt.Raise e =>
                    if Jwt.is_InvalidTokenError e
                    then (msg "Invalid format." 401, db)
                    else (msg "Invalid JWT format." 401, db)
                end
          end
    end.

Definition trusted_service_required (f : View) : View :=
  fun request now db =>
    if differs (X_Api_Key request) (TRUSTED_SERVICE_API_KEY config)
    then (msg "Invalid API Key for trusted service." 403, db)
    else f request now db.

(** *** Routes: the functions as written, before decoration *)

Definition list_posts (current_user : User.t) : View :=
  fun request now db =>
    (jsonify
       [("user", JStr (User.auth_uid current_user));
        ("message", JStr "Access granted. Listing personalized content.");
        ("posts", JArr [JObj [("title", JStr "Wave Riding Tips")];
                        JObj [("title", JStr "Newest Surfboards")]])]
       200, db).

Definition earn_kones (current_user : User.t) : View :=
  fun request now db =>
    match earn_validate (get_json request) with
    | inl response => (response, db)
    | inr (amount, description) =>
        credit_commit
          (credit_begin (User.auth_uid current_user) amount description
                        now db)
          db
    end.

Definition webhook_sync (current_user : User.t) : View :=
  fun request now db =>
    let data := get_json request in
    match Json.dict_get "event_type" data, Json.dict_get "payload" data with
    | Py.Ok event_type, Py.Ok payload =>
        if (negb (Json.truthy_opt event_type)
            || negb (Json.truthy_opt payload))%bool
        then (msg "Request must include 'event_type' and 'payload'." 400, db)
        else
          match event_type, payload with
          | Some (JStr e), Some p =>
              let log_event :=
                "WEBHOOK_" ++ Py.replace_char " " "_" (Py.upper e) in
              (jsonify [("message", JStr "Webhook event processed.");
                        ("event_type", JStr log_event)] 200,
               {| users := users db;
                  kones_balance := kones_balance db;
                  kones_ledger := kones_ledger db;
                  chronolog :=
                    (chronolog db ++
                     [ {| Chronolog.id :=
                            Sql.next_id Chronolog.id (chronolog db);
                          Chronolog.user_auth_uid :=
                            User.auth_uid current_user;
                          Chronolog.event_type := log_event;
                          Chronolog.payload := p;
                          Chronolog.timestamp := now |} ])%list |})
          | _, _ => (InternalServerError, db)
          end
    | _, _ => (InternalServerError, db)
    end.

(** *** Routes as registered with [app.route] *)

Definition GET_posts : View :=
  get_user_from_auth_header list_posts.

Definition POST_earn_kones : View :=
  trusted_service_required (get_user_from_auth_header earn_kones).

Definition POST_webhook_sync : View :=
  trusted_service_required (get_user_from_auth_header webhook_sync).

Inductive Route : Type := posts | earn | webhook.

Definition dispatch (r : Route) : View :=
  match r with
  | posts => GET_posts
  | earn => POST_earn_kones
  | webhook => POST_webhook_sync
  end.

(** A request as the server receives it, with the clock reading at
    which it is served. *)
Record Call : Type := {
  route : Route;
  request : Request;
  clock : Z
}.

(** Requests served one after the other. *)
Definition serve (calls : list Call) (db : Db) : Db :=
  fold_left (fun db c => snd (dispatch (route c) (request c) (clock c) db))
            calls db.

End App.

(** The store after [db.create_all()] and the signup of [uids]. *)
Definition fresh (uids : list string) : Db :=
  {| users := map (fun u => {| User.auth_uid := u |}) uids;
     kones_balance := [];
     kones_ledger := [];
     chronolog := [] |}.

(** *** Observations on the store *)

(** The balance of an identity: the value of its row, 0 without a row. *)
Definition balance_of (uid : string) (db : Db) : Z :=
  match query_balance uid db with
  | Some r => KonesBalance.balance r
  | None => 0
  end.

Definition balance_rows (uid : string) (db : Db) : list KonesBalance.t :=
  filter (fun r => String.eqb (KonesBalance.user_auth_uid r) uid)
         (kones_balance db).

Definition ledger_rows (uid : string) (db : Db) : list KonesLedger.t :=
  filter (fun e => String.eqb (KonesLedger.user_auth_uid e) uid)
         (kones_ledger db).

Definition ledger_sum (uid : string) (db : Db) : Z :=
  fold_right (fun e acc => KonesLedger.amount e + acc) 0 (ledger_rows uid db).

(** Modelled from the spec: the history read of the ledger service
    ([get_ledger_history(identity)]: ordered sequence of LedgerEntry,
    newest first), for which [kaisurf_secured_app.py] has no route; no
    code of the repository reads this ledger table.  The rows of the
    identity are ordered as the one history query of the repository
    orders its rows ([get_kones_ledger] of [kaisurf_test.py],
    [order_by(KonesLedger.timestamp.desc())]): by creation timestamp,
    descending. *)
Definition ledger_history (uid : string) (db : Db) : list KonesLedger.t :=
  Sql.order_by_desc KonesLedger.timestamp (ledger_rows uid db).

(** The row belongs to the identity. *)
Definition owned_by (uid : string) (r : KonesBalance.t) : bool :=
  String.eqb (KonesBalance.user_auth_uid r) uid.

(** The invariant of the ledger: row keys are distinct, an identity owns
    at most one balance row, and the balance of every identity is the
    sum of its ledger amounts. *)
Definition consistent (db : Db) : Prop :=
  NoDup (map KonesBalance.id (kones_balance db))
  /\ NoDup (map KonesBalance.user_auth_uid (kones_balance db))
  /\ forall uid, balance_of uid db = ledger_sum uid db.

(** Two workers serve one credit each for the same identity, and both
    run the balance query before either commits. *)
Definition race (uid : string)
    (amount1 : Z) (description1 : json) (now1 : Z)
    (amount2 : Z) (description2 : json) (now2 : Z)
    (db : Db) : Response * Response * Db :=
  let c1 := credit_begin uid amount1 description1 now1 db in
  let c2 := credit_begin uid amount2 description2 now2 db in
  let '(r1, db1) := credit_commit c1 db in
  let '(r2, db2) := credit_commit c2 db1 in
  (r1, r2, db2).

(** *** The refusals of the bearer gate *)

(** The token that the gate hands to the decoder, when the header has
    the form [Bearer ...]. *)
Definition bearer_token (request : Request) : option string :=
  match Authorization request with
  | Some auth_header =>
      if Py.startswith auth_header "Bearer "
      then Some (nth 1 (Py.split_space auth_header) "")
      else None
  | None => None
  end.

(** The signing secret, when the configuration has a non-empty one. *)
Definition signing_secret (config : Config) : option string :=
  match SUPABASE_JWT_SECRET config with
  | Some k => if String.eqb k "" then None else Some k
  | None => None
  end.

Inductive AuthFailure : Type :=
| BadHeader        (* no header, or not of the form [Bearer ...] *)
| NoSecret         (* no signing secret in the configuration *)
| TokenExpired     (* the decoder raised [ExpiredSignatureError] *)
| TokenInvalid     (* the decoder raised another [InvalidTokenError] *)
| DecoderError     (* the decoder raised anything else *)
| NoSubject        (* the payload has no [sub] *)
| UnknownSubject.  (* no user of the store has the [sub] *)

(** The answer reported for each refusal. *)
Definition outcome (m : AuthFailure) : Response :=
  match m with
  | BadHeader => msg "Missing or invalid Authorization header." 401
  | NoSecret => msg "Server misconfiguration." 500
  | TokenExpired => msg "JWT has expired." 401
  | TokenInvalid => msg "Invalid format." 401
  | DecoderError => msg "Invalid JWT format." 401
  | NoSubject => msg "Invalid JWT payload." 401
  | UnknownSubject => msg "User not found in database." 404
  end.

(** When the gate refuses, and why.  The checks come in the order of the
    constructors: a later refusal supposes that the earlier checks
    passed. *)
Inductive refused (jwt_decode : string -> string -> Z -> Jwt.decoded)
    (config : Config) (request : Request) (now : Z) (db : Db)
    : AuthFailure -> Prop :=
| refused_header :
    bearer_token request = None ->
    refused jwt_decode config request now db BadHeader
| refused_secret jwt :
    bearer_token request = Some jwt ->
    signing_secret config = None ->
    refused jwt_decode config request now db NoSecret
| refused_expired jwt key :
    bearer_token request = Some jwt ->
    signing_secret config = Some key ->
    jwt_decode jwt key now = Jwt.Raise Jwt.ExpiredSignatureError ->
    refused jwt_decode config request now db TokenExpired
| refused_invalid jwt key e :
    bearer_token request = Some jwt ->
    signing_secret config = Some key ->
    jwt_decode jwt key now = Jwt.Raise e ->
    e <> Jwt.ExpiredSignatureError ->
    Jwt.is_InvalidTokenError e = true ->
    refused jwt_decode config request now db TokenInvalid
| refused_decoder jwt key e :
    bearer_token request = Some jwt ->
    signing_secret config = Some key ->
    jwt_decode jwt key now = Jwt.Raise e ->
    Jwt.is_InvalidTokenError e = false ->
    refused jwt_decode config request now db DecoderError
| refused_no_subject jwt key sub :
    bearer_token request = Some jwt ->
    signing_secret config = Some key ->
    jwt_decode jwt key now = Jwt.Payload sub ->
    falsy sub = true ->
    refused jwt_decode config request now db NoSubject
| refused_unknown jwt key uid :
    bearer_token request = Some jwt ->
    signing_secret config = Some key ->
    jwt_decode jwt key now = Jwt.Payload (Some uid) ->
    uid <> "" ->
    get_user uid db = None ->
    refused jwt_decode config request now db UnknownSubject.

End Secured.

(** ** [kaisurf_test.py]: session authentication and the read routes *)

Module TestApp.

Module User.
Record t : Type := {
  id : Z;
  roaming_id : string;
  registration_date : Z
}.
End User.

Module LoginRecord.
Record t : Type := {
  id : Z;
  user_id : Z;
  login_username : string;
  login_timestamp : Z
}.
End LoginRecord.

(** Here [user_id] is the primary key of the balance table. *)
Module KonesBalance.
Record t : Type := {
  user_id : Z;
  balance : Z
}.
End KonesBalance.

Module KonesLedger.
Record t : Type := {
  id : Z;
  user_id : Z;
  transaction_type : string;
  amount : Z;
  description : option string;
  timestamp : Z
}.
End KonesLedger.

Record Db : Type := {
  users : list User.t;
  login_records : list LoginRecord.t;
  kones_balance : list KonesBalance.t;
  kones_ledger : list KonesLedger.t
}.

Record Request : Type := {
  X_Auth_Username : option string   (* [request.headers.get('X-Auth-Username')] *)
}.

(** [jsonify(body), status] *)
Record Response : Type := {
  body : json;
  status : Z
}.

Definition View : Type := Request -> Db -> Response * Db.

Definition error (text : string) (st : Z) : Response :=
  {| body := JObj [("error", JStr text)]; status := st |}.

(** [User.query.get(i)] *)
Definition get_user (i : Z) (db : Db) : option User.t :=
  find (fun u => User.id u =? i) (users db).

(** [KonesBalance.query.get(i)] *)
Definition get_balance (i : Z) (db : Db) : option KonesBalance.t :=
  find (fun r => KonesBalance.user_id r =? i) (kones_balance db).

(** The decorator stores the user in [g.user]; here the view function
    takes it as an argument. *)
Definition require_auth (f : User.t -> View) : View :=
  fun request db =>
    match X_Auth_Username request with
    | None => (error "Authentication username required." 401, db)
    | Some auth_username =>
        if String.eqb auth_username ""
        then (error "Authentication username required." 401, db)
        else
          match Sql.first_by_desc LoginRecord.login_timestamp
                  (filter (fun r => String.eqb (LoginRecord.login_username r)
                                               auth_username)
                          (login_records db)) with
          | None => (error "Invalid or expired session username." 403, db)
          | Some record =>
              match get_user (LoginRecord.user_id record) db with
              | None => (error "Authenticated user not found." 404, db)
              | Some user => f user request db
              end
          end
    end.

Definition get_kones_balance (user : User.t) : View :=
  fun request db =>
    match get_balance (User.id user) db with
    | Some balance =>
        ({| body := JObj [("user_id", JInt (User.id user));
                          ("kone_balance", JInt (KonesBalance.balance balance))];
            status := 200 |}, db)
    | None =>
        let balance := {| KonesBalance.user_id := User.id user;
                          KonesBalance.balance := 0 |} in
        ({| body := JObj [("user_id", JInt (User.id user));
                          ("kone_balance", JInt (KonesBalance.balance balance))];
            status := 200 |},
         {| users := users db;
            login_records := login_records db;
            kones_balance := (kones_balance db ++ [balance])%list;
            kones_ledger := kones_ledger db |})
    end.

(** The rows of the history query, newest first. *)
Definition ledger_entries (user : User.t) (db : Db) : list KonesLedger.t :=
  Sql.order_by_desc KonesLedger.timestamp
    (filter (fun e => KonesLedger.user_id e =? User.id user) (kones_ledger db)).

(** The timestamp is rendered by [isoformat()]; the rendering is left
    out and the clock value stands for it. *)
Definition get_kones_ledger (user : User.t) : View :=
  fun request db =>
    ({| body :=
          JArr (map (fun entry =>
                       JObj [("timestamp", JInt (KonesLedger.timestamp entry));
                             ("type", JStr (KonesLedger.transaction_type entry));
                             ("amount", JInt (KonesLedger.amount entry));
                             ("description",
                              match KonesLedger.description entry with
                              | Some d => JStr d
                              | None => JNull
                              end)])
                    (ledger_entries user db));
        status := 200 |}, db).

(** The routes as registered with [app.route]. *)
Definition GET_kones_balance : View := require_auth get_kones_balance.

Definition GET_kones_ledger : View := require_auth get_kones_ledger.

(** The balance that a read reports for a user: the value of the row, 0
    without a row. *)
Definition balance_of (i : Z) (db : Db) : Z :=
  match get_balance i db with
  | Some r => KonesBalance.balance r
  | None => 0
  end.

(** The sum of the ledger amounts of a user. *)
Definition ledger_sum (i : Z) (db : Db) : Z :=
  fold_right (fun e acc => KonesLedger.amount e + acc) 0
    (filter (fun e => KonesLedger.user_id e =? i) (kones_ledger db)).

End TestApp.

(** ** [config.py]: the configuration read from the environment *)

Module ConfigPy.

(** [os.environ]: the value of a variable, when it is set. *)
Definition Environ : Type := string -> option string.

(** [os.environ.get(name, default)] *)
Definition environ_get (environ : Environ) (name default : string) : string :=
  match environ name with
  | Some value => value
  | None => default
  end.

(** [Config]: the two settings that the decorators read.  The classes
    [DevelopmentConfig], [TestingConfig] and [ProductionConfig] inherit
    them unchanged, so [app.config] holds these values whatever
    [FLASK_ENV] selects. *)
Definition Config (environ : Environ) : Secured.Config :=
  {| Secured.SUPABASE_JWT_SECRET :=
       Some (environ_get environ "SUPABASE_JWT_SECRET" "test-jwt-secret");
     Secured.TRUSTED_SERVICE_API_KEY :=
       Some (environ_get environ "TRUSTED_SERVICE_API_KEY" "test-api-key") |}.

End ConfigPy.

(** ** [kaisurf_test.py]: registration, login and the other routes

    The store of [TestApp] with the two tables that the routes below
    write.  A handler returns [None] where the body carries a value
    whose comparison or storage is decided by the database engine (a
    number where a column holds text, and the like): such requests are
    outside the embedding. *)

Module Session.

Module ChronoLog.
Record t : Type := {
  id : Z;
  user_id : Z;
  activity_type : string;
  content : json;     (* the value of which the column holds [json.dumps] *)
  timestamp : Z
}.
End ChronoLog.

Module RewardRule.
Record t : Type := {
  id : Z;
  rule_name : string;
  kone_amount : Z;
  description : option string;
  is_active : option bool
}.
End RewardRule.

Record Store : Type := {
  tables : TestApp.Db;
  chrono_log : list ChronoLog.t;
  reward_rule : list RewardRule.t
}.

Definition with_tables (store : Store) (db : TestApp.Db) : Store :=
  {| tables := db;
     chrono_log := chrono_log store;
     reward_rule := reward_rule store |}.

Record Request : Type := {
  X_Auth_Username : option string;
  get_json : json
}.

Inductive Response : Type :=
| jsonify (body : json) (status : Z)
| InternalServerError.

Definition status_code (r : Response) : Z :=
  match r with
  | jsonify _ st => st
  | InternalServerError => 500
  end.

(** A view function: the request, the clock reading and the date of the
    day ([datetime.date.today().isoformat()]) in; the response and the
    store after the request out. *)
Definition View : Type :=
  Request -> Z -> string -> Store -> option (Response * Store).

Definition error (text : string) (st : Z) : Response :=
  jsonify (JObj [("error", JStr text)]) st.

Definition message (text : string) (st : Z) : Response :=
  jsonify (JObj [("message", JStr text)]) st.

(** [get_daily_username(roaming_id)] on the day [today] *)
Definition get_daily_username (today roaming_id : string) : option string :=
  match Py.split_ws roaming_id with
  | [w0; w1] => Some (w0 ++ "-" ++ today ++ "-" ++ w1)
  | _ => None
  end.

(** [add_chrono_log_entry(user_id, activity_type, content)]: the row is
    added to the session and written by the next commit. *)
Definition add_chrono_log_entry (user_id : Z) (activity_type : string)
    (content : json) (now : Z) (rows : list ChronoLog.t) : list ChronoLog.t :=
  (rows ++ [ {| ChronoLog.id := Sql.next_id ChronoLog.id rows;
                ChronoLog.user_id := user_id;
                ChronoLog.activity_type := activity_type;
                ChronoLog.content := content;
                ChronoLog.timestamp := now |} ])%list.

(** [User.query.filter_by(roaming_id=...).first()] *)
Definition user_by_roaming_id (roaming_id : string) (db : TestApp.Db)
    : option TestApp.User.t :=
  find (fun u => String.eqb (TestApp.User.roaming_id u) roaming_id)
       (TestApp.users db).

(** [require_auth] over the whole store: the same checks as
    [TestApp.require_auth]. *)
Definition require_auth (f : TestApp.User.t -> View) : View :=
  fun request now today store =>
    match X_Auth_Username request with
    | None => Some (error "Authentication username required." 401, store)
    | Some auth_username =>
        if String.eqb auth_username ""
        then Some (error "Authentication username required." 401, store)
        else
          match Sql.first_by_desc TestApp.LoginRecord.login_timestamp
                  (filter (fun r =>
                             String.eqb (TestApp.LoginRecord.login_username r)
                                        auth_username)
                          (TestApp.login_records (tables store))) with
          | None =>
              Some (error "Invalid or expired session username." 403, store)
          | Some record =>
              match TestApp.get_user (TestApp.LoginRecord.user_id record)
                      (tables store) with
              | None => Some (error "Authenticated user not found." 404, store)
              | Some user => f user request now today store
              end
          end
    end.

(** A view of [TestApp], which reads and writes the four tables only. *)
Definition lift (f : TestApp.User.t -> TestApp.View) : TestApp.User.t -> View :=
  fun user request now today store =>
    let '(r, db) :=
      f user {| TestApp.X_Auth_Username := X_Auth_Username request |}
        (tables store) in
    Some (jsonify (TestApp.body r) (TestApp.status r), with_tables store db).

(** *** [register] *)

Definition register : View :=
  fun request now today store =>
    match Json.dict_get "roaming_id" (get_json request) with
    | Py.Ok field =>
        (* [data.get('roaming_id', '').strip()]: only a string has [strip] *)
        match match field with
              | None => Some ""
              | Some (JStr s) => Some s
              | Some _ => None
              end with
        | None => Some (InternalServerError, store)
        | Some raw =>
            let roaming_id := Py.strip raw in
            if negb (Nat.eqb (List.length (Py.split_ws roaming_id)) 2)
            then Some (error
                         "Registration requires a 'roaming_id' of exactly two words."
                         400, store)
            else
              match user_by_roaming_id roaming_id (tables store) with
              | Some existing_user =>
                  Some (message "Registration request processed." 202, store)
              | None =>
                  let db := tables store in
                  let new_user :=
                    {| TestApp.User.id :=
                         Sql.next_id TestApp.User.id (TestApp.users db);
                       TestApp.User.roaming_id := roaming_id;
                       TestApp.User.registration_date := now |} in
                  (* first commit: the user *)
                  let db1 :=
                    {| TestApp.users := (TestApp.users db ++ [new_user])%list;
                       TestApp.login_records := TestApp.login_records db;
                       TestApp.kones_balance := TestApp.kones_balance db;
                       TestApp.kones_ledger := TestApp.kones_ledger db |} in
                  (* second commit: the balance row and the log entry; the
                     balance table has [user_id] as its primary key *)
                  match TestApp.get_balance (TestApp.User.id new_user) db1 with
                  | Some _ => Some (InternalServerError, with_tables store db1)
                  | None =>
                      Some
                        (message "Registration request processed." 202,
                         {| tables :=
                              {| TestApp.users := TestApp.users db1;
                                 TestApp.login_records :=
                                   TestApp.login_records db1;
                                 TestApp.kones_balance :=
                                   (TestApp.kones_balance db1
                                      ++ [ {| TestApp.KonesBalance.user_id :=
                                                TestApp.User.id new_user;
                                              TestApp.KonesBalance.balance := 0
                                           |} ])%list;
                                 TestApp.kones_ledger :=
                                   TestApp.kones_ledger db1 |};
                            chrono_log :=
                              add_chrono_log_entry (TestApp.User.id new_user)
                                "REGISTRATION"
                                (JObj [("status", JStr "Account created.")])
                                now (chrono_log store);
                            reward_rule := reward_rule store |})
                  end
              end
        end
    | _ => Some (InternalServerError, store)
    end.

(** *** [login] *)

(** [not data or not all(k in data for k in ['roaming_id', 'username'])] *)
Definition login_missing (data : json) : Py.result bool :=
  if negb (Json.truthy data) then Py.Ok true
  else match Json.contains_str "roaming_id" data with
       | Py.Ok false => Py.Ok true
       | Py.Ok true =>
           match Json.contains_str "username" data with
           | Py.Ok b => Py.Ok (negb b)
           | e => e
           end
       | e => e
       end.

(** [data['username'] == expected_username], where the expected name is
    a string or [None]. *)
Definition username_matches (username : json) (expected : option string) : bool :=
  match username, expected with
  | JStr s, Some e => String.eqb s e
  | JNull, None => true
  | _, _ => false
  end.

Definition login : View :=
  fun request now today store =>
    let data := get_json request in
    match login_missing data with
    | Py.Ok true =>
        Some (error "Roaming ID and username are required." 400, store)
    | Py.Ok false =>
        match Json.subscript "roaming_id" data, Json.subscript "username" data with
        | Py.Ok (JStr roaming_id), Py.Ok username =>
            match user_by_roaming_id roaming_id (tables store) with
            | None => Some (error "Invalid credentials." 401, store)
            | Some user =>
                let expected_username := get_daily_username today roaming_id in
                if username_matches username expected_username
                then
                  match expected_username with
                  | None =>
                      (* [login_username] is [None]: the column is not
                         nullable and the commit fails *)
                      Some (InternalServerError, store)
                  | Some name =>
                      let db := tables store in
                      Some
                        (jsonify (JObj [("message", JStr "Access Granted");
                                        ("auth_username", JStr name)]) 200,
                         {| tables :=
                              {| TestApp.users := TestApp.users db;
                                 TestApp.login_records :=
                                   (TestApp.login_records db
                                      ++ [ {| TestApp.LoginRecord.id :=
                                                Sql.next_id
                                                  TestApp.LoginRecord.id
                                                  (TestApp.login_records db);
                                              TestApp.LoginRecord.user_id :=
                                                TestApp.User.id user;
                                              TestApp.LoginRecord.login_username :=
                                                name;
                                              TestApp.LoginRecord.login_timestamp :=
                                                now |} ])%list;
                                 TestApp.kones_balance :=
                                   TestApp.kones_balance db;
                                 TestApp.kones_ledger :=
                                   TestApp.kones_ledger db |};
                            chrono_log :=
                              add_chrono_log_entry (TestApp.User.id user)
                                "LOGIN"
                                (JObj [("status",
                                        JStr "Successful authentication.")])
                                now (chrono_log store);
                            reward_rule := reward_rule store |})
                  end
                else Some (error "Invalid credentials." 401, store)
            end
        | Py.Ok JNull, Py.Ok _ =>
            (* [roaming_id IS NULL] finds no user *)
            Some (error "Invalid credentials." 401, store)
        | Py.Ok _, Py.Ok _ => None
        | _, _ => Some (InternalServerError, store)
        end
    | _ => Some (InternalServerError, store)
    end.

(** *** The routes behind [require_auth] *)

(** [get_user_profile]; dates are rendered by [isoformat()], for which
    the clock value stands. *)
Definition get_user_profile (user : TestApp.User.t) : View :=
  fun request now today store =>
    match Py.split_ws (TestApp.User.roaming_id user) with
    | first :: _ =>
        Some (jsonify
                (JObj [("user_id", JInt (TestApp.User.id user));
                       ("roaming_id_hint", JStr (first ++ "..."));
                       ("registered_since",
                        JInt (TestApp.User.registration_date user))]) 200,
              store)
    | [] => Some (InternalServerError, store)   (* IndexError *)
    end.

(** The rows of the activity query, oldest first. *)
Definition chrono_log_entries (user : TestApp.User.t) (store : Store)
    : list ChronoLog.t :=
  Sql.order_by_asc ChronoLog.timestamp
    (filter (fun log => ChronoLog.user_id log =? TestApp.User.id user)
            (chrono_log store)).

Definition get_chrono_log (user : TestApp.User.t) : View :=
  fun request now today store =>
    Some (jsonify
            (JArr (map (fun log =>
                          JObj [("timestamp", JInt (ChronoLog.timestamp log));
                                ("activity", JStr (ChronoLog.activity_type log));
                                ("details", ChronoLog.content log)])
                       (chrono_log_entries user store))) 200,
          store).

(** The fields of a reward rule as the columns take them: [Some None]
    stands for a missing or [null] field, [None] for a value of another
    type than the column's. *)
Definition text_field (v : option json) : option (option string) :=
  match v with
  | None | Some JNull => Some None
  | Some (JStr s) => Some (Some s)
  | Some _ => None
  end.

Definition integer_field (v : option json) : option (option Z) :=
  match v with
  | None | Some JNull => Some None
  | Some (JInt n) => Some (Some n)
  | Some _ => None
  end.

(** [data.get('is_active', True)] *)
Definition boolean_field (v : option json) : option (option bool) :=
  match v with
  | None => Some (Some true)
  | Some JNull => Some None
  | Some (JBool b) => Some (Some b)
  | Some _ => None
  end.

(** [RewardRule.query.filter_by(rule_name=...).first()] *)
Definition rule_by_name (name : string) (rules : list RewardRule.t)
    : option RewardRule.t :=
  find (fun r => String.eqb (RewardRule.rule_name r) name) rules.

(** [set_reward_rule]: the decorator checks the session only; the user
    plays no part in the body. *)
Definition set_reward_rule (user : TestApp.User.t) : View :=
  fun request now today store =>
    match get_json request with
    | JObj d =>
        match text_field (Json.get "rule_name" d),
              integer_field (Json.get "kone_amount" d),
              text_field (Json.get "description" d),
              boolean_field (Json.get "is_active" d) with
        | Some rule_name, Some kone_amount, Some description, Some is_active =>
            match rule_name, kone_amount with
            | Some name, Some amount =>
                let rules := reward_rule store in
                let rules' :=
                  match rule_by_name name rules with
                  | Some rule =>
                      map (fun r =>
                             if RewardRule.id r =? RewardRule.id rule
                             then {| RewardRule.id := RewardRule.id r;
                                     RewardRule.rule_name :=
                                       RewardRule.rule_name r;
                                     RewardRule.kone_amount := amount;
                                     RewardRule.description := description;
                                     RewardRule.is_active := is_active |}
                             else r) rules
                  | None =>
                      (rules ++ [ {| RewardRule.id :=
                                       Sql.next_id RewardRule.id rules;
                                     RewardRule.rule_name := name;
                                     RewardRule.kone_amount := amount;
                                     RewardRule.description := description;
                                     RewardRule.is_active := is_active |} ])%list
                  end in
                Some (message ("Reward rule '" ++ name ++ "' has been saved.")
                              200,
                      {| tables := tables store;
                         chrono_log := chrono_log store;
                         reward_rule := rules' |})
            | _, _ =>
                (* [rule_name] or [kone_amount] is [None]: the columns are
                   not nullable and the commit fails *)
                Some (InternalServerError, store)
            end
        | _, _, _, _ => None
        end
    | _ => Some (InternalServerError, store)   (* no [get] on the body *)
    end.

(** *** Routes as registered with [app.route] *)

Inductive Route : Type :=
| POST_register
| POST_login
| GET_user_profile
| GET_user_chronolog
| GET_kones_balance
| GET_kones_ledger
| POST_admin_rewards_set.

Definition dispatch (r : Route) : View :=
  match r with
  | POST_register => register
  | POST_login => login
  | GET_user_profile => require_auth get_user_profile
  | GET_user_chronolog => require_auth get_chrono_log
  | GET_kones_balance => require_auth (lift TestApp.get_kones_balance)
  | GET_kones_ledger => require_auth (lift TestApp.get_kones_ledger)
  | POST_admin_rewards_set => require_auth set_reward_rule
  end.

Record Call : Type := {
  route : Route;
  request : Request;
  clock : Z;
  today : string
}.

(** Requests served one after the other; [None] when one of them is
    outside the embedding. *)
Fixpoint serve (calls : list Call) (store : Store) : option Store :=
  match calls with
  | [] => Some store
  | c :: calls' =>
      match dispatch (route c) (request c) (clock c) (today c) store with
      | Some (_, store') => serve calls' store'
      | None => None
      end
  end.

(** The store after [db.create_all()]. *)
Definition empty : Store :=
  {| tables := {| TestApp.users := [];
                  TestApp.login_records := [];
                  TestApp.kones_balance := [];
                  TestApp.kones_ledger := [] |};
     chrono_log := [];
     reward_rule := [] |}.

(** *** Invariants of the store *)

(** User keys and roaming ids are distinct, every roaming id is stripped
    and has two words, every user has a balance row and every balance
    row belongs to a user, and rule keys and rule names are distinct. *)
Definition well_formed (store : Store) : Prop :=
  let db := tables store in
  NoDup (map TestApp.User.id (TestApp.users db))
  /\ NoDup (map TestApp.User.roaming_id (TestApp.users db))
  /\ (forall u, In u (TestApp.users db) ->
                List.length (Py.split_ws (TestApp.User.roaming_id u)) = 2%nat)
  /\ NoDup (map TestApp.KonesBalance.user_id (TestApp.kones_balance db))
  /\ (forall i, In i (map TestApp.KonesBalance.user_id (TestApp.kones_balance db))
                <-> In i (map TestApp.User.id (TestApp.users db)))
  /\ (forall r, In r (TestApp.login_records db) ->
                In (TestApp.LoginRecord.user_id r)
                   (map TestApp.User.id (TestApp.users db)))
  /\ NoDup (map RewardRule.id (reward_rule store))
  /\ NoDup (map RewardRule.rule_name (reward_rule store)).

End Session.

(** ** The browser shell: the address bar

    [navigate_to_url] of [koralai_alpha.py] and [Koralai_Surf_v.0.2.py]:
    the text that is handed to [QUrl]. *)

Module Koralai.

Definition navigate_to_url (raw_url : string) : string :=
  if negb (Py.startswith_any raw_url ["http://"; "https://"])
  then "http://" ++ raw_url
  else raw_url.

End Koralai.

(** ** A concrete deployment, for the examples

    The configuration is the default of [config.py]; the tokens are a
    handful of serialised tokens with the content they deserialise to. *)

Module Demo.

Definition secret : string := "test-jwt-secret".

Definition config : Secured.Config :=
  {| Secured.SUPABASE_JWT_SECRET := Some secret;
     Secured.TRUSTED_SERVICE_API_KEY := Some "test-api-key" |}.

Definition token (key : string) (sub : option string) (exp : Z) : Jwt.token :=
  {| Jwt.alg := "HS256";
     Jwt.signed_with := key;
     Jwt.sub := sub;
     Jwt.exp := Some exp |}.

(** Tokens issued for [U1], a token without subject, a token of a user
    that the store does not know, and two tokens signed with another
    key.  Expiry 2000 s is in the future of the examples, 1000 s in
    their past. *)
Definition tokens : list (string * Jwt.token) :=
  [ ("u1.live", token secret (Some "U1") 2000);
    ("u1.expired", token secret (Some "U1") 1000);
    ("u1.forged", token "attacker-key" (Some "U1") 2000);
    ("u1.expired.forged", token "attacker-key" (Some "U1") 1000);
    ("nosub.live", token secret None 2000);
    ("ghost.live", token secret (Some "U9") 2000) ].

Definition deserialize (s : string) : option Jwt.token :=
  option_map snd (find (fun kv => String.eqb (fst kv) s) tokens).

Definition jwt_decode : string -> string -> Z -> Jwt.decoded :=
  Jwt.decode deserialize.

(** A clock reading between the two expiry dates: 1500 s. *)
Definition t0 : Z := 1500000000.

Definition db0 : Secured.Db := Secured.fresh ["U1"].

Definition U1 : User.t := {| User.auth_uid := "U1" |}.

(** A request of the trusted service on behalf of [U1]. *)
Definition post (data : json) : Secured.Request :=
  {| Secured.Authorization := Some "Bearer u1.live";
     Secured.X_Api_Key := Some "test-api-key";
     Secured.get_json := data |}.

Definition credit (amount : json) (description : json) : Secured.Request :=
  post (JObj [("amount", amount); ("description", description)]).

End Demo.

(** A session of the examples: the day, a registration and a login. *)
Module DemoSession.

Definition day : string := "2025-01-01".

Definition post (data : json) : Session.Request :=
  {| Session.X_Auth_Username := None; Session.get_json := data |}.

Definition get (name : string) : Session.Request :=
  {| Session.X_Auth_Username := Some name; Session.get_json := JNull |}.

Definition register : Session.Call :=
  {| Session.route := Session.POST_register;
     Session.request := post (JObj [("roaming_id", JStr " blue  wave ")]);
     Session.clock := 100;
     Session.today := day |}.

Definition login : Session.Call :=
  {| Session.route := Session.POST_login;
     Session.request :=
       post (JObj [("roaming_id", JStr "blue  wave");
                   ("username", JStr "blue-2025-01-01-wave")]);
     Session.clock := 200;
     Session.today := day |}.

(** The store after the registration and the login. *)
Definition after_login : Session.Store :=
  Eval vm_compute in
    match Session.serve [register; login] Session.empty with
    | Some store => store
    | None => Session.empty
    end.

Definition blue_wave : TestApp.User.t :=
  {| TestApp.User.id := 1;
     TestApp.User.roaming_id := "blue  wave";
     TestApp.User.registration_date := 100 |}.

End DemoSession.

(** * Properties *)

(** ** The Python primitives on examples *)

Example int_of_str_50 : Py.int_of_str "50" = Some 50.
Proof. reflexivity. Qed.

Example int_of_str_padded : Py.int_of_str "  -1_000 " = Some (-1000).
Proof. reflexivity. Qed.

Example int_of_str_rejects :
  map Py.int_of_str ["abc"; ""; "5.0"; "_5"; "5_"; "5__0"; "+-5"; "0x10"; "- 5"]
  = [None; None; None; None; None; None; None; None; None].
Proof. reflexivity. Qed.

Example split_space_bearer :
  Py.split_space "Bearer  a b" = ["Bearer"; ""; "a"; "b"].
Proof. reflexivity. Qed.

Example str_of_int_ex : map Py.str_of_int [0; 50; -7] = ["0"; "50"; "-7"].
Proof. reflexivity. Qed.


(** The scenario of the spec: 50 then 25 for a fresh identity. *)
Example scenario_two_credits :
  let '(r1, db1) :=
    Secured.POST_earn_kones Demo.jwt_decode Demo.config
      (Demo.credit (JInt 50) (JStr "bonus")) Demo.t0 Demo.db0 in
  let '(r2, db2) :=
    Secured.POST_earn_kones Demo.jwt_decode Demo.config
      (Demo.credit (JInt 25) (JStr "daily")) (Demo.t0 + 1) db1 in
  r1 = Secured.jsonify [("message", JStr "Successfully added 50 Kones.");
                        ("new_balance", JInt 50)] 200
  /\ r2 = Secured.jsonify [("message", JStr "Successfully added 25 Kones.");
                           ("new_balance", JInt 75)] 200
  /\ map KonesLedger.amount (Secured.ledger_history "U1" db2) = [25; 50]
  /\ map KonesBalance.balance (Secured.kones_balance db2) = [75].
Proof. vm_compute. repeat split. Qed.

(** ** Lists and keys *)

Lemma find_none_iff {A : Type} (p : A -> bool) (l : list A) :
  find p l = None <-> (forall x, In x l -> p x = false).
Proof.
  split.
  - intros H x Hx. exact (find_none p l H x Hx).
  - induction l as [|y l IH]; intros H; simpl; [reflexivity|].
    rewrite (H y (or_introl eq_refl)). apply IH.
    intros x Hx. apply H. now right.
Qed.

Lemma find_snoc {A : Type} (p : A -> bool) (l : list A) (x : A) :
  find p (l ++ [x])%list =
  match find p l with
  | Some y => Some y
  | None => if p x then Some x else None
  end.
Proof.
  induction l as [|y l IH]; simpl.
  - reflexivity.
  - destruct (p y); [reflexivity | exact IH].
Qed.

Lemma filter_snoc {A : Type} (p : A -> bool) (l : list A) (x : A) :
  filter p (l ++ [x])%list =
  (filter p l ++ (if p x then [x] else []))%list.
Proof. rewrite filter_app. reflexivity. Qed.

Lemma next_id_above {A : Type} (key : A -> Z) (rows : list A) (r : A) :
  In r rows -> key r < Sql.next_id key rows.
Proof.
  unfold Sql.next_id. induction rows as [|x rows IH]; cbn [fold_right In].
  - tauto.
  - intros [-> | Hin]; [lia | specialize (IH Hin); lia].
Qed.

Lemma next_id_not_in {A : Type} (key : A -> Z) (rows : list A) :
  ~ In (Sql.next_id key rows) (map key rows).
Proof.
  intros Hin. apply in_map_iff in Hin. destruct Hin as [r [Heq Hr]].
  pose proof (next_id_above key rows r Hr). lia.
Qed.

Lemma nodup_key_inj {A : Type} (key : A -> Z) (rows : list A) (x y : A) :
  NoDup (map key rows) -> In x rows -> In y rows -> key x = key y -> x = y.
Proof.
  induction rows as [|r rows IH]; simpl; [tauto|].
  intros Hnd Hx Hy Hk. inversion Hnd as [|k ks Hnotin Hnd']; subst.
  destruct Hx as [-> | Hx], Hy as [-> | Hy].
  - reflexivity.
  - exfalso. apply Hnotin. rewrite Hk. now apply in_map.
  - exfalso. apply Hnotin. rewrite <- Hk. now apply in_map.
  - now apply IH.
Qed.

(** ** The newest row heads the history *)

Lemma insert_desc_head {A : Type} (key : A -> Z) (x : A) (l : list A) :
  (forall y, In y l -> key y < key x) ->
  Sql.insert_desc key x l = x :: l.
Proof.
  destruct l as [|y l]; simpl; [reflexivity|].
  intros H. specialize (H y (or_introl eq_refl)).
  apply Z.ltb_lt in H. now rewrite H.
Qed.

Lemma insert_desc_in {A : Type} (key : A -> Z) (x y : A) (l : list A) :
  In y (Sql.insert_desc key x l) -> y = x \/ In y l.
Proof.
  induction l as [|z l IH]; simpl.
  - intros [<- | []]. now left.
  - destruct (key z <? key x); simpl.
    + intros [<- | [<- | H]]; auto.
    + intros [<- | H]; auto. destruct (IH H); auto.
Qed.

Lemma order_by_desc_snoc {A : Type} (key : A -> Z) (rows : list A) (x : A) :
  Sql.order_by_desc key (rows ++ [x])%list =
  Sql.insert_desc key x (Sql.order_by_desc key rows).
Proof. unfold Sql.order_by_desc. now rewrite fold_left_app. Qed.

Lemma order_by_desc_in {A : Type} (key : A -> Z) (rows : list A) (y : A) :
  In y (Sql.order_by_desc key rows) -> In y rows.
Proof.
  induction rows as [|x rows IH] using rev_ind; simpl; [tauto|].
  rewrite order_by_desc_snoc. intros H.
  apply insert_desc_in in H. apply in_or_app.
  destruct H as [-> | H]; [right; now left | left; auto].
Qed.

Lemma order_by_desc_newest {A : Type} (key : A -> Z) (rows : list A) (x : A) :
  (forall y, In y rows -> key y < key x) ->
  Sql.order_by_desc key (rows ++ [x])%list = x :: Sql.order_by_desc key rows.
Proof.
  intros H. rewrite order_by_desc_snoc. apply insert_desc_head.
  intros y Hy. apply H. now apply order_by_desc_in in Hy.
Qed.

(** ** [int()] on a decimal string

    A decimal string is the string of a [Decimal.uint], a non-empty
    sequence of decimal digits; it denotes the number that the standard
    library reads from it ([Z.of_uint]). *)

Lemma rstrip_decimal (d : Decimal.uint) :
  Py.rstrip (NilEmpty.string_of_uint d) = NilEmpty.string_of_uint d.
Proof.
  induction d; cbn [NilEmpty.string_of_uint Py.rstrip];
    try reflexivity; rewrite IHd;
    destruct (NilEmpty.string_of_uint d); reflexivity.
Qed.

Lemma strip_decimal (d : Decimal.uint) :
  Py.strip (NilEmpty.string_of_uint d) = NilEmpty.string_of_uint d.
Proof.
  unfold Py.strip.
  replace (Py.lstrip (NilEmpty.string_of_uint d))
    with (NilEmpty.string_of_uint d) by (destruct d; reflexivity).
  apply rstrip_decimal.
Qed.

(** Reading the digits of [d] after the digits [a] (kept in reverse)
    gives the number written by [a] followed by [d]. *)
Lemma int_digits_decimal (d a : Decimal.uint) :
  Py.int_digits (Z.of_N (Unsigned.of_lu a)) true (NilEmpty.string_of_uint d)
  = Some (Z.of_N (Unsigned.of_lu (Decimal.revapp d a))).
Proof.
  revert a.
  induction d; intros a; cbn [NilEmpty.string_of_uint Decimal.revapp];
    try reflexivity;
    cbn [Py.int_digits];
    match goal with
    | |- context [Py.digit_of ?c] =>
        let v := eval vm_compute in (Py.digit_of c) in
        change (Py.digit_of c) with v
    end;
    cbv iota; rewrite <- IHd; f_equal; cbn [Unsigned.of_lu]; lia.
Qed.

Lemma int_unsigned_decimal (d : Decimal.uint) :
  d <> Decimal.Nil ->
  Py.int_unsigned (NilEmpty.string_of_uint d) = Some (Z.of_uint d).
Proof.
  intros Hd. unfold Z.of_uint. rewrite Unsigned.of_uint_alt.
  unfold Decimal.rev. rewrite <- int_digits_decimal.
  destruct d; try (now elim Hd); reflexivity.
Qed.

Theorem int_of_str_decimal (d : Decimal.uint) :
  d <> Decimal.Nil ->
  Py.int_of_str (NilEmpty.string_of_uint d) = Some (Z.of_uint d).
Proof.
  intros Hd. unfold Py.int_of_str. rewrite strip_decimal.
  rewrite <- (int_unsigned_decimal d Hd).
  destruct d; try (now elim Hd); reflexivity.
Qed.

(** ** The secured application *)

Module SecuredSpec.
Import Secured.

Lemma differs_spec (a b : option string) : differs a b = true <-> a <> b.
Proof.
  destruct a as [x|], b as [y|]; simpl.
  - destruct (String.eqb_spec x y) as [-> | Hne]; simpl; split.
    + discriminate.
    + intros H. now elim H.
    + intros _ [= E]. now apply Hne.
    + reflexivity.
  - split; [discriminate | reflexivity].
  - split; [discriminate | reflexivity].
  - split; [discriminate | intros H; now elim H].
Qed.

Lemma differs_false (a b : option string) : differs a b = false <-> a = b.
Proof.
  destruct a as [x|], b as [y|]; simpl.
  - destruct (String.eqb_spec x y) as [-> | Hne]; simpl; split.
    + reflexivity.
    + reflexivity.
    + discriminate.
    + intros [= E]. now elim Hne.
  - split; discriminate.
  - split; discriminate.
  - split; reflexivity.
Qed.

(** *** The flush of the balance *)

Lemma query_balance_owned uid db :
  query_balance uid db = find (owned_by uid) (kones_balance db).
Proof. reflexivity. Qed.

(** The UPDATE keeps every row's owner and key. *)
Lemma flush_update_find_owner uid f rows :
  (forall r, KonesBalance.user_auth_uid (f r) = KonesBalance.user_auth_uid r) ->
  find (owned_by uid) (map f rows) = option_map f (find (owned_by uid) rows).
Proof.
  intros Hf. induction rows as [|x rows IH]; simpl; [reflexivity|].
  unfold owned_by at 1 3. rewrite Hf.
  destruct (String.eqb (KonesBalance.user_auth_uid x) uid); [reflexivity|].
  exact IH.
Qed.

Lemma flush_balance_owner c rows loaded :
  balance_record c = Some loaded ->
  find (owned_by (credit_user c)) rows = Some loaded ->
  exists r,
    find (owned_by (credit_user c)) (fst (flush_balance c rows)) = Some r
    /\ KonesBalance.balance r = KonesBalance.balance loaded + credit_amount c
    /\ KonesBalance.id r = KonesBalance.id loaded.
Proof.
  intros Hrec Hfind. unfold flush_balance. rewrite Hrec. cbn [fst].
  rewrite (flush_update_find_owner (credit_user c)).
  - rewrite Hfind. cbn [option_map]. rewrite Z.eqb_refl.
    eexists; repeat split; reflexivity.
  - intros r. destruct (KonesBalance.id r =? KonesBalance.id loaded);
      reflexivity.
Qed.

Lemma flush_balance_by_id c rows loaded :
  balance_record c = Some loaded ->
  In loaded rows ->
  exists r,
    find (fun r => KonesBalance.id r =? KonesBalance.id loaded)
         (fst (flush_balance c rows)) = Some r
    /\ KonesBalance.balance r = KonesBalance.balance loaded + credit_amount c.
Proof.
  intros Hrec Hin. unfold flush_balance. rewrite Hrec. cbn [fst].
  induction rows as [|x rows IH]; [destruct Hin|].
  cbn [map find].
  destruct (KonesBalance.id x =? KonesBalance.id loaded) eqn:E.
  - cbn [KonesBalance.id]. rewrite E. eexists; split; reflexivity.
  - rewrite E. apply IH. destruct Hin as [-> | Hin]; [|exact Hin].
    rewrite Z.eqb_refl in E. discriminate.
Qed.

Lemma flush_balance_fresh c rows :
  balance_record c = None ->
  find (owned_by (credit_user c)) rows = None ->
  exists r,
    fst (flush_balance c rows) = (rows ++ [r])%list
    /\ snd (flush_balance c rows) = KonesBalance.id r
    /\ KonesBalance.id r = Sql.next_id KonesBalance.id rows
    /\ KonesBalance.user_auth_uid r = credit_user c
    /\ KonesBalance.balance r = credit_amount c
    /\ find (owned_by (credit_user c)) (rows ++ [r])%list = Some r
    /\ find (fun x => KonesBalance.id x =? KonesBalance.id r)
            (rows ++ [r])%list = Some r.
Proof.
  intros Hrec Hfind. unfold flush_balance. rewrite Hrec. cbn [fst snd].
  eexists. split; [reflexivity|]. cbn [KonesBalance.id
    KonesBalance.user_auth_uid KonesBalance.balance].
  repeat split.
  - rewrite find_snoc, Hfind. unfold owned_by. cbn.
    now rewrite String.eqb_refl.
  - rewrite find_snoc.
    replace (find _ rows) with (@None KonesBalance.t).
    + cbn. now rewrite Z.eqb_refl.
    + symmetry. apply find_none_iff. intros x Hx.
      pose proof (next_id_above KonesBalance.id rows x Hx).
      apply Z.eqb_neq. lia.
Qed.

(** A credit that reaches the commit with a storable description: the
    response carries the balance found before plus the amount, and the
    store is the old one with the balance flushed and one ledger row
    appended. *)
Lemma credit_commit_ok uid amount description now db :
  storable description = true ->
  let c := credit_begin uid amount description now db in
  credit_commit c db =
  (jsonify [("message",
             JStr ("Successfully added " ++ Py.str_of_int amount ++ " Kones."));
            ("new_balance", JInt (balance_of uid db + amount))] 200,
   {| users := users db;
      kones_balance := fst (flush_balance c (kones_balance db));
      kones_ledger := (kones_ledger db ++ [ledger_entry c (kones_ledger db)])%list;
      chronolog := chronolog db |}).
Proof.
  intros Hst c. unfold credit_commit.
  change (credit_description c) with description. rewrite Hst.
  destruct (flush_balance c (kones_balance db)) as [balances i] eqn:Hflush.
  cbn [fst]. unfold balance_by_id. cbn [kones_balance].
  change (credit_amount c) with amount.
  unfold balance_of.
  destruct (query_balance uid db) as [loaded|] eqn:Hq.
  - destruct (flush_balance_by_id c (kones_balance db) loaded) as [r [Hr Hb]].
    + exact Hq.
    + exact (proj1 (find_some _ _ Hq)).
    + rewrite Hflush in Hr. cbn [fst] in Hr.
      assert (i = KonesBalance.id loaded) as ->.
      { unfold flush_balance in Hflush.
        change (balance_record c) with (query_balance uid db) in Hflush.
        rewrite Hq in Hflush. now inversion Hflush. }
      rewrite Hr, Hb. reflexivity.
  - destruct (flush_balance_fresh c (kones_balance db)) as
      [r (Hrows & Hi & _ & _ & Hb & _ & Hfind)].
    + exact Hq.
    + exact Hq.
    + rewrite Hflush in Hrows, Hi. cbn [fst snd] in Hrows, Hi. subst.
      rewrite Hfind, Hb. reflexivity.
Qed.

(** After the flush the balance of the credited identity is the balance
    found before plus the amount. *)
Lemma flush_balance_credited uid amount description now db :
  let c := credit_begin uid amount description now db in
  exists r,
    find (owned_by uid) (fst (flush_balance c (kones_balance db))) = Some r
    /\ KonesBalance.balance r = balance_of uid db + amount.
Proof.
  intros c. unfold balance_of.
  destruct (query_balance uid db) as [loaded|] eqn:Hq.
  - destruct (flush_balance_owner c (kones_balance db) loaded Hq Hq)
      as [r [Hr [Hb _]]].
    exists r. split; [exact Hr | exact Hb].
  - destruct (flush_balance_fresh c (kones_balance db) Hq Hq)
      as [r (Hrows & _ & _ & _ & Hb & Hfind & _)].
    exists r. rewrite Hrows. split; [exact Hfind | rewrite Hb; reflexivity].
Qed.

(** The balance that a read finds after a committed credit. *)
Lemma credit_commit_balance_of uid amount description now db :
  storable description = true ->
  balance_of uid
    (snd (credit_commit (credit_begin uid amount description now db) db))
  = balance_of uid db + amount.
Proof.
  intros Hst. rewrite (credit_commit_ok uid amount description now db Hst).
  cbn [snd]. unfold balance_of at 1, query_balance. cbn [kones_balance].
  destruct (flush_balance_credited uid amount description now db)
    as [r [Hr Hb]].
  unfold owned_by in Hr. rewrite Hr. exact Hb.
Qed.

(** *** Validation of a credit *)

(** On a JSON object the validation reads the two fields and converts
    the amount. *)
Lemma earn_validate_object d :
  earn_validate (JObj d) =
  match Json.get "amount" d, Json.get "description" d with
  | Some v, Some description =>
      match Json.int v with
      | Py.Ok amount =>
          if amount <=? 0
          then inl (msg "Amount must be positive." 400)
          else inr (amount, description)
      | Py.ValueError => inl (msg "Amount must be an integer." 400)
      | _ => inl InternalServerError
      end
  | _, _ => inl (msg "Missing required fields: amount and description." 400)
  end.
Proof.
  unfold earn_validate, missing_fields.
  destruct d as [|kv d].
  - reflexivity.
  - cbn [Json.truthy negb Json.contains_str Json.subscript].
    unfold Json.has_key.
    destruct (Json.get "amount" (kv :: d)) as [v|]; [|reflexivity].
    destruct (Json.get "description" (kv :: d)) as [description|];
      [|reflexivity].
    cbn [negb]. destruct (Json.int v); reflexivity.
Qed.

Lemma earn_kones_object jwt_user request now db d :
  get_json request = JObj d ->
  earn_kones jwt_user request now db =
  match Json.get "amount" d, Json.get "description" d with
  | Some v, Some description =>
      match Json.int v with
      | Py.Ok amount =>
          if amount <=? 0
          then (msg "Amount must be positive." 400, db)
          else credit_commit
                 (credit_begin (User.auth_uid jwt_user) amount description
                               now db) db
      | Py.ValueError => (msg "Amount must be an integer." 400, db)
      | _ => (InternalServerError, db)
      end
  | _, _ =>
      (msg "Missing required fields: amount and description." 400, db)
  end.
Proof.
  intros Hbody. unfold earn_kones. rewrite Hbody, earn_validate_object.
  destruct (Json.get "amount" d) as [v|]; [|reflexivity].
  destruct (Json.get "description" d) as [description|]; [|reflexivity].
  destruct (Json.int v) as [amount| | | |]; try reflexivity.
  destruct (amount <=? 0); reflexivity.
Qed.

(** A credit either commits with status 200 or leaves the store alone. *)
Lemma credit_sequential uid amount description now db :
  let r := credit_commit (credit_begin uid amount description now db) db in
  (storable description = true /\ status_code (fst r) = 200)
  \/ (storable description = false /\ r = (InternalServerError, db)).
Proof.
  intros r. subst r. destruct (storable description) eqn:Hst.
  - left. split; [reflexivity|].
    rewrite (credit_commit_ok uid amount description now db Hst). reflexivity.
  - right. split; [reflexivity|]. unfold credit_commit.
    change (credit_description _) with description. now rewrite Hst.
Qed.

(** The store changes only when the response is 200. *)
Lemma earn_kones_frame jwt_user request now db :
  status_code (fst (earn_kones jwt_user request now db)) <> 200 ->
  snd (earn_kones jwt_user request now db) = db.
Proof.
  unfold earn_kones.
  destruct (earn_validate (get_json request)) as [response | [amount description]].
  - reflexivity.
  - destruct (credit_sequential (User.auth_uid jwt_user) amount description
                now db) as [[_ H] | [_ H]].
    + intros Hne. now elim Hne.
    + intros _. now rewrite H.
Qed.

(** *** The decorators pass the request through *)

Lemma get_user_from_auth_header_ext jwt_decode config (f g : User.t -> View)
    request1 request2 now db :
  Authorization request1 = Authorization request2 ->
  (forall u, f u request1 now db = g u request2 now db) ->
  get_user_from_auth_header jwt_decode config f request1 now db
  = get_user_from_auth_header jwt_decode config g request2 now db.
Proof.
  intros Hauth Hfg. unfold get_user_from_auth_header. rewrite Hauth.
  destruct (Authorization request2) as [h|]; [|reflexivity].
  destruct (negb (Py.startswith h "Bearer ")); [reflexivity|].
  destruct (SUPABASE_JWT_SECRET config) as [k|]; [|reflexivity].
  destruct (String.eqb k ""); [reflexivity|].
  destruct (jwt_decode _ k now) as [[uid|]|e]; try reflexivity.
  destruct (falsy (Some uid)); [reflexivity|].
  destruct (get_user uid db); [apply Hfg | reflexivity].
Qed.

Lemma trusted_service_required_ext config (f g : View)
    request1 request2 now db :
  X_Api_Key request1 = X_Api_Key request2 ->
  f request1 now db = g request2 now db ->
  trusted_service_required config f request1 now db
  = trusted_service_required config g request2 now db.
Proof.
  intros Hkey Hfg. unfold trusted_service_required. rewrite Hkey.
  destruct (differs _ _); [reflexivity | exact Hfg].
Qed.

(** A property of the store that the wrapped view keeps is kept by the
    decorated view. *)
Lemma get_user_from_auth_header_keeps jwt_decode config (P : Db -> Prop)
    (f : User.t -> View) request now db :
  P db ->
  (forall u, get_user (User.auth_uid u) db = Some u ->
             P (snd (f u request now db))) ->
  P (snd (get_user_from_auth_header jwt_decode config f request now db)).
Proof.
  intros HP Hf. unfold get_user_from_auth_header.
  destruct (Authorization request) as [h|]; [|exact HP].
  destruct (negb (Py.startswith h "Bearer ")); [exact HP|].
  destruct (SUPABASE_JWT_SECRET config) as [k|]; [|exact HP].
  destruct (String.eqb k ""); [exact HP|].
  destruct (jwt_decode _ k now) as [[uid|]|e]; try exact HP.
  - destruct (falsy (Some uid)); [exact HP|].
    destruct (get_user uid db) as [u|] eqn:Hu; [|exact HP].
    apply Hf. unfold get_user in *.
    destruct (find_some _ _ Hu) as [_ Heq].
    apply String.eqb_eq in Heq. now rewrite Heq.
  - destruct e; try exact HP; destruct (Jwt.is_InvalidTokenError _);
      exact HP.
Qed.

Lemma trusted_service_required_keeps config (P : Db -> Prop) (f : View)
    request now db :
  P db ->
  P (snd (f request now db)) ->
  P (snd (trusted_service_required config f request now db)).
Proof.
  intros HP Hf. unfold trusted_service_required.
  destruct (differs _ _); [exact HP | exact Hf].
Qed.

(** *** The ledger invariant *)

Lemma NoDup_snoc {A : Type} (l : list A) (x : A) :
  NoDup l -> ~ In x l -> NoDup (l ++ [x])%list.
Proof.
  intros Hl Hx. apply NoDup_app; [exact Hl | repeat constructor; tauto |].
  intros y Hy [<- | []]. now apply Hx.
Qed.

Lemma consistent_fresh uids : consistent (fresh uids).
Proof.
  repeat split; try constructor.
Qed.

Lemma ledger_sum_snoc uid (db db' : Db) (e : KonesLedger.t) :
  kones_ledger db' = (kones_ledger db ++ [e])%list ->
  ledger_sum uid db' =
  ledger_sum uid db
  + (if String.eqb (KonesLedger.user_auth_uid e) uid
     then KonesLedger.amount e else 0).
Proof.
  intros H. unfold ledger_sum, ledger_rows. rewrite H, filter_snoc.
  generalize (filter (fun e0 => String.eqb (KonesLedger.user_auth_uid e0) uid)
                     (kones_ledger db)).
  intros l. induction l as [|x l IH]; cbn [app fold_right].
  - destruct (String.eqb _ uid); cbn [fold_right]; lia.
  - rewrite IH. lia.
Qed.

Lemma owned_by_absent uid rows :
  find (owned_by uid) rows = None ->
  ~ In uid (map KonesBalance.user_auth_uid rows).
Proof.
  intros Hnone Hin. apply in_map_iff in Hin. destruct Hin as [r [Heq Hr]].
  pose proof (proj1 (find_none_iff _ _) Hnone r Hr) as H.
  unfold owned_by in H. rewrite Heq, String.eqb_refl in H. discriminate.
Qed.

(** The flush for one identity leaves the balance rows of the others. *)
Lemma flush_balance_other uid uid' amount description now db :
  uid' <> uid ->
  NoDup (map KonesBalance.id (kones_balance db)) ->
  let c := credit_begin uid amount description now db in
  find (owned_by uid') (fst (flush_balance c (kones_balance db)))
  = find (owned_by uid') (kones_balance db).
Proof.
  intros Hne Hnd c. unfold flush_balance.
  change (balance_record c) with (find (owned_by uid) (kones_balance db)).
  destruct (find (owned_by uid) (kones_balance db)) as [loaded|] eqn:Hq;
    cbn [fst].
  - rewrite flush_update_find_owner.
    2:{ intros r. destruct (KonesBalance.id r =? KonesBalance.id loaded);
          reflexivity. }
    destruct (find (owned_by uid') (kones_balance db)) as [x|] eqn:Hx;
      [|reflexivity].
    cbn [option_map]. f_equal.
    destruct (Z.eqb_spec (KonesBalance.id x) (KonesBalance.id loaded))
      as [Heq | _]; [|reflexivity].
    exfalso. apply Hne.
    destruct (find_some _ _ Hx) as [Hinx Hox].
    destruct (find_some _ _ Hq) as [Hinl Hol].
    assert (x = loaded) as ->
      by (eapply nodup_key_inj; eassumption).
    unfold owned_by in *. apply String.eqb_eq in Hox, Hol. congruence.
  - rewrite find_snoc.
    destruct (find (owned_by uid') (kones_balance db)); [reflexivity|].
    unfold owned_by at 1. cbn [KonesBalance.user_auth_uid].
    change (credit_user c) with uid.
    destruct (String.eqb_spec uid uid') as [-> | _]; [now elim Hne|].
    reflexivity.
Qed.

Lemma flush_balance_keys uid amount description now db :
  NoDup (map KonesBalance.id (kones_balance db)) ->
  NoDup (map KonesBalance.user_auth_uid (kones_balance db)) ->
  let rows := fst (flush_balance (credit_begin uid amount description now db)
                                 (kones_balance db)) in
  NoDup (map KonesBalance.id rows)
  /\ NoDup (map KonesBalance.user_auth_uid rows).
Proof.
  intros Hid Hown rows. subst rows. unfold flush_balance.
  change (balance_record _) with (find (owned_by uid) (kones_balance db)).
  destruct (find (owned_by uid) (kones_balance db)) as [loaded|] eqn:Hq;
    cbn [fst].
  - rewrite !map_map. split.
    + erewrite map_ext; [exact Hid|].
      intros r. destruct (KonesBalance.id r =? KonesBalance.id loaded);
        reflexivity.
    + erewrite map_ext; [exact Hown|].
      intros r. destruct (KonesBalance.id r =? KonesBalance.id loaded);
        reflexivity.
  - rewrite !map_app. cbn [map KonesBalance.id KonesBalance.user_auth_uid
      credit_begin credit_user]. split.
    + apply NoDup_snoc; [exact Hid | apply next_id_not_in].
    + apply NoDup_snoc; [exact Hown | now apply owned_by_absent].
Qed.

Lemma credit_keeps_consistent uid amount description now db :
  consistent db ->
  consistent
    (snd (credit_commit (credit_begin uid amount description now db) db)).
Proof.
  intros (Hid & Hown & Hsum).
  destruct (credit_sequential uid amount description now db)
    as [[Hst _] | [_ H]].
  2:{ rewrite H. now repeat split. }
  pose proof (credit_commit_balance_of uid amount description now db Hst)
    as Hbal.
  rewrite (credit_commit_ok uid amount description now db Hst) in *.
  cbn [snd] in *.
  destruct (flush_balance_keys uid amount description now db Hid Hown)
    as [Hid' Hown'].
  split; [exact Hid' | split; [exact Hown'|]].
  intros uid'.
  erewrite ledger_sum_snoc by reflexivity.
  cbn [ledger_entry KonesLedger.user_auth_uid KonesLedger.amount
       credit_begin credit_user credit_amount].
  destruct (String.eqb_spec uid uid') as [<- | Hne].
  - rewrite Hbal, Hsum. reflexivity.
  - rewrite Z.add_0_r, <- Hsum.
    unfold balance_of, query_balance. cbn [kones_balance].
    change (fun r => String.eqb (KonesBalance.user_auth_uid r) uid')
      with (owned_by uid').
    rewrite (flush_balance_other uid uid' amount description now db);
      auto.
Qed.

Lemma earn_kones_keeps_consistent jwt_user request now db :
  consistent db -> consistent (snd (earn_kones jwt_user request now db)).
Proof.
  intros H. unfold earn_kones.
  destruct (earn_validate (get_json request)) as [response | [amount description]].
  - exact H.
  - now apply credit_keeps_consistent.
Qed.

(** The webhook recorder writes the audit table only. *)
Lemma webhook_sync_tables jwt_user request now db :
  let db' := snd (webhook_sync jwt_user request now db) in
  users db' = users db
  /\ kones_balance db' = kones_balance db
  /\ kones_ledger db' = kones_ledger db.
Proof.
  unfold webhook_sync.
  destruct (Json.dict_get "event_type" (get_json request)) as [e| | | |];
    try (now repeat split).
  destruct (Json.dict_get "payload" (get_json request)) as [p| | | |];
    try (now repeat split).
  destruct (_ || _)%bool; [now repeat split|].
  destruct e as [[]|]; try (now repeat split).
  destruct p; now repeat split.
Qed.

Lemma consistent_tables db db' :
  kones_balance db' = kones_balance db ->
  kones_ledger db' = kones_ledger db ->
  consistent db -> consistent db'.
Proof.
  unfold consistent, balance_of, ledger_sum, query_balance, ledger_rows.
  intros -> ->. tauto.
Qed.

Lemma dispatch_keeps_consistent jwt_decode config r request now db :
  consistent db ->
  consistent (snd (dispatch jwt_decode config r request now db)).
Proof.
  intros H.
  destruct r; cbn [dispatch];
    unfold GET_posts, POST_earn_kones, POST_webhook_sync.
  - apply (get_user_from_auth_header_keeps _ _ consistent); [exact H|].
    intros u _. exact H.
  - apply (trusted_service_required_keeps _ consistent); [exact H|].
    apply (get_user_from_auth_header_keeps _ _ consistent); [exact H|].
    intros u _. now apply earn_kones_keeps_consistent.
  - apply (trusted_service_required_keeps _ consistent); [exact H|].
    apply (get_user_from_auth_header_keeps _ _ consistent); [exact H|].
    intros u _.
    destruct (webhook_sync_tables u request now db) as (_ & Hb & Hl).
    exact (consistent_tables _ _ Hb Hl H).
Qed.

Lemma serve_keeps_consistent jwt_decode config calls db :
  consistent db -> consistent (serve jwt_decode config calls db).
Proof.
  revert db. induction calls as [|c calls IH]; intros db H.
  - exact H.
  - cbn [serve fold_left]. apply IH. now apply dispatch_keeps_consistent.
Qed.

Lemma owned_by_none uid rows :
  ~ In uid (map KonesBalance.user_auth_uid rows) ->
  filter (owned_by uid) rows = [].
Proof.
  induction rows as [|y rows IH]; cbn [map filter In]; intros Hnotin.
  - reflexivity.
  - destruct (owned_by uid y) eqn:Hy.
    + exfalso. apply Hnotin. left. now apply String.eqb_eq in Hy.
    + apply IH. tauto.
Qed.

Lemma owned_at_most_once uid rows :
  NoDup (map KonesBalance.user_auth_uid rows) ->
  (List.length (filter (owned_by uid) rows) <= 1)%nat.
Proof.
  induction rows as [|x rows IH]; cbn [map filter]; intros Hnd.
  - cbn. lia.
  - inversion Hnd as [|k ks Hnotin Hnd']; subst.
    destruct (owned_by uid x) eqn:Hx; [|exact (IH Hnd')].
    apply String.eqb_eq in Hx. rewrite Hx in Hnotin.
    rewrite (owned_by_none uid rows Hnotin). cbn. lia.
Qed.

(** The outcome of a decorated view is an early answer without status
    200, with the store as it was, or the outcome of the wrapped view. *)
Lemma get_user_from_auth_header_result jwt_decode config
    (Q : Response * Db -> Prop) (f : User.t -> View) request now db :
  (forall text st, st <> 200 -> Q (msg text st, db)) ->
  (forall u, get_user (User.auth_uid u) db = Some u ->
             Q (f u request now db)) ->
  Q (get_user_from_auth_header jwt_decode config f request now db).
Proof.
  intros Hearly Hf. unfold get_user_from_auth_header.
  assert (H401 : forall text, Q (msg text 401, db))
    by (intros; apply Hearly; discriminate).
  assert (H500 : forall text, Q (msg text 500, db))
    by (intros; apply Hearly; discriminate).
  assert (H404 : forall text, Q (msg text 404, db))
    by (intros; apply Hearly; discriminate).
  destruct (Authorization request) as [h|]; [|apply H401].
  destruct (negb (Py.startswith h "Bearer ")); [apply H401|].
  destruct (SUPABASE_JWT_SECRET config) as [k|]; [|apply H500].
  destruct (String.eqb k ""); [apply H500|].
  destruct (jwt_decode _ k now) as [[uid|]|e].
  - destruct (falsy (Some uid)); [apply H401|].
    destruct (get_user uid db) as [u|] eqn:Hu; [|apply H404].
    apply Hf. unfold get_user in *.
    destruct (find_some _ _ Hu) as [_ Heq].
    apply String.eqb_eq in Heq. now rewrite Heq.
  - apply H401.
  - destruct e; try apply H401; destruct (Jwt.is_InvalidTokenError _);
      apply H401.
Qed.

Lemma trusted_service_required_result config (Q : Response * Db -> Prop)
    (f : View) request now db :
  (forall text st, st <> 200 -> Q (msg text st, db)) ->
  Q (f request now db) ->
  Q (trusted_service_required config f request now db).
Proof.
  intros Hearly Hf. unfold trusted_service_required.
  destruct (differs _ _); [apply Hearly; discriminate | exact Hf].
Qed.

(** *** The bearer gate, by cases *)

Lemma get_user_from_auth_header_cases jwt_decode config (f : User.t -> View)
    request now db :
  get_user_from_auth_header jwt_decode config f request now db =
  match bearer_token request with
  | None => (outcome BadHeader, db)
  | Some jwt =>
      match signing_secret config with
      | None => (outcome NoSecret, db)
      | Some key =>
          match jwt_decode jwt key now with
          | Jwt.Payload sub =>
              if falsy sub then (outcome NoSubject, db)
              else match sub with
                   | Some uid =>
                       match get_user uid db with
                       | Some current_user => f current_user request now db
                       | None => (outcome UnknownSubject, db)
                       end
                   | None => (outcome NoSubject, db)
                   end
          | Jwt.Raise e =>
              match e with
              | Jwt.ExpiredSignatureError => (outcome TokenExpired, db)
              | _ => if Jwt.is_InvalidTokenError e
                     then (outcome TokenInvalid, db)
                     else (outcome DecoderError, db)
              end
          end
      end
  end.
Proof.
  unfold get_user_from_auth_header, bearer_token, signing_secret.
  destruct (Authorization request) as [h|]; [|reflexivity].
  destruct (Py.startswith h "Bearer "); cbn [negb]; [|reflexivity].
  destruct (SUPABASE_JWT_SECRET config) as [k|]; [|reflexivity].
  destruct (String.eqb k ""); [reflexivity|].
  destruct (jwt_decode _ k now) as [sub|e]; [reflexivity|].
  destruct e; reflexivity.
Qed.

Lemma refused_outcome jwt_decode config (f : User.t -> View) request now db m :
  refused jwt_decode config request now db m ->
  get_user_from_auth_header jwt_decode config f request now db
  = (outcome m, db).
Proof.
  intros H. rewrite get_user_from_auth_header_cases.
  destruct H as [Hb | jwt Hb Hs | jwt key Hb Hs Hd | jwt key e Hb Hs Hd Hne Hi
                 | jwt key e Hb Hs Hd Hi | jwt key sub Hb Hs Hd Hf
                 | jwt key uid Hb Hs Hd Hne Hu];
    rewrite Hb; try reflexivity; rewrite Hs; try reflexivity; rewrite Hd.
  - reflexivity.
  - rewrite Hi. destruct e; try reflexivity. now elim Hne.
  - rewrite Hi. destruct e; try reflexivity. discriminate.
  - rewrite Hf. reflexivity.
  - cbn [falsy]. destruct (String.eqb_spec uid "") as [-> | _];
      [now elim Hne|]. now rewrite Hu.
Qed.

Lemma falsy_some_false uid : falsy (Some uid) = false -> uid <> "".
Proof.
  cbn. intros H ->. discriminate.
Qed.

(** The gate either refuses for one of the reasons or runs the wrapped
    view for a user of the store. *)
Lemma refused_or_passed jwt_decode config (f : User.t -> View)
    request now db :
  (exists m, refused jwt_decode config request now db m)
  \/ (exists u, get_user (User.auth_uid u) db = Some u
                /\ get_user_from_auth_header jwt_decode config f request now db
                   = f u request now db).
Proof.
  rewrite get_user_from_auth_header_cases.
  destruct (bearer_token request) as [jwt|] eqn:Hb.
  2:{ left. exists BadHeader. now constructor. }
  destruct (signing_secret config) as [key|] eqn:Hs.
  2:{ left. exists NoSecret. econstructor; eassumption. }
  destruct (jwt_decode jwt key now) as [sub|e] eqn:Hd.
  - destruct (falsy sub) eqn:Hf.
    { left. exists NoSubject. econstructor; eassumption. }
    destruct sub as [uid|]; [|discriminate].
    destruct (get_user uid db) as [u|] eqn:Hu.
    + right. exists u. split; [|reflexivity].
      unfold get_user in *. destruct (find_some _ _ Hu) as [_ Heq].
      apply String.eqb_eq in Heq. now rewrite Heq.
    + left. exists UnknownSubject.
      eapply refused_unknown; try eassumption.
      now apply falsy_some_false.
  - left. destruct (Jwt.is_InvalidTokenError e) eqn:Hi.
    + destruct e;
        try (exists TokenInvalid; eapply refused_invalid; try eassumption;
             discriminate);
        try discriminate.
      exists TokenExpired. eapply refused_expired; eassumption.
    + exists DecoderError. eapply refused_decoder; eassumption.
Qed.

End SecuredSpec.

(** ** The session application *)

Module TestAppSpec.
Import TestApp.

(** The outcome of a view behind [require_auth] is an early answer
    without status 200, with the store as it was, or the outcome of the
    wrapped view for a user of the store. *)
Lemma require_auth_result (Q : Response * Db -> Prop) (f : User.t -> View)
    request db :
  (forall text st, st <> 200 -> Q (error text st, db)) ->
  (forall u, get_user (User.id u) db = Some u -> Q (f u request db)) ->
  Q (require_auth f request db).
Proof.
  intros Hearly Hf. unfold require_auth.
  destruct (X_Auth_Username request) as [name|];
    [|apply Hearly; discriminate].
  destruct (String.eqb name ""); [apply Hearly; discriminate|].
  destruct (Sql.first_by_desc _ _) as [record|];
    [|apply Hearly; discriminate].
  destruct (get_user (LoginRecord.user_id record) db) as [u|] eqn:Hu;
    [|apply Hearly; discriminate].
  apply Hf. unfold get_user in *.
  destruct (find_some _ _ Hu) as [_ Heq].
  apply Z.eqb_eq in Heq. now rewrite Heq.
Qed.

(** The balance read writes at most one row, a zero balance for a user
    that has none. *)
Lemma get_kones_balance_rows user request db :
  let db' := snd (get_kones_balance user request db) in
  kones_ledger db' = kones_ledger db
  /\ (kones_balance db' = kones_balance db
      \/ (get_balance (User.id user) db = None
          /\ kones_balance db' =
             (kones_balance db
                ++ [ {| KonesBalance.user_id := User.id user;
                        KonesBalance.balance := 0 |} ])%list)).
Proof.
  unfold get_kones_balance.
  destruct (get_balance (User.id user) db) eqn:Hb; cbn [snd kones_ledger
    kones_balance].
  - split; [reflexivity | now left].
  - split; [reflexivity | right; now split].
Qed.

Lemma balance_of_zero_row i j db db' :
  get_balance j db = None ->
  kones_balance db' =
    (kones_balance db
       ++ [ {| KonesBalance.user_id := j; KonesBalance.balance := 0 |} ])%list ->
  balance_of i db' = balance_of i db.
Proof.
  intros _ Hrows. unfold balance_of, get_balance.
  rewrite Hrows, find_snoc.
  destruct (find _ (kones_balance db)) as [r|]; [reflexivity|].
  cbn [KonesBalance.user_id].
  destruct (j =? i); reflexivity.
Qed.

End TestAppSpec.

(** ** [ORDER BY]: the result is the rows, sorted *)

Section OrderBy.

Context {A : Type} (key : A -> Z).

Lemma insert_desc_perm (x : A) (l : list A) :
  Permutation (Sql.insert_desc key x l) (x :: l).
Proof.
  induction l as [|y l IH]; cbn [Sql.insert_desc]; [reflexivity|].
  destruct (key y <? key x); [reflexivity|].
  rewrite IH. apply perm_swap.
Qed.

Lemma order_by_desc_perm (rows : list A) :
  Permutation (Sql.order_by_desc key rows) rows.
Proof.
  induction rows as [|x rows IH] using rev_ind; [reflexivity|].
  rewrite order_by_desc_snoc, insert_desc_perm, IH.
  apply Permutation_cons_append.
Qed.

Lemma insert_desc_sorted (x : A) (l : list A) :
  StronglySorted (fun a b => key b <= key a) l ->
  StronglySorted (fun a b => key b <= key a) (Sql.insert_desc key x l).
Proof.
  induction l as [|y l IH]; cbn [Sql.insert_desc]; intros Hs.
  - repeat constructor.
  - inversion Hs as [|y' l' Hs' Hall]; subst.
    destruct (Z.ltb_spec (key y) (key x)) as [Hlt | Hge].
    + constructor; [exact Hs|]. constructor; [lia|].
      eapply Forall_impl; [|exact Hall]. cbn. intros b Hb. lia.
    + constructor; [now apply IH|].
      eapply Permutation_Forall.
      * symmetry. apply insert_desc_perm.
      * constructor; [lia | exact Hall].
Qed.

Lemma order_by_desc_sorted (rows : list A) :
  StronglySorted (fun a b => key b <= key a) (Sql.order_by_desc key rows).
Proof.
  induction rows as [|x rows IH] using rev_ind; [constructor|].
  rewrite order_by_desc_snoc. now apply insert_desc_sorted.
Qed.


Lemma order_by_asc_snoc (rows : list A) (x : A) :
  Sql.order_by_asc key (rows ++ [x])%list =
  Sql.insert_asc key x (Sql.order_by_asc key rows).
Proof. unfold Sql.order_by_asc. now rewrite fold_left_app. Qed.

Lemma insert_asc_perm (x : A) (l : list A) :
  Permutation (Sql.insert_asc key x l) (x :: l).
Proof.
  induction l as [|y l IH]; cbn [Sql.insert_asc]; [reflexivity|].
  destruct (key x <? key y); [reflexivity|].
  rewrite IH. apply perm_swap.
Qed.

Lemma order_by_asc_perm (rows : list A) :
  Permutation (Sql.order_by_asc key rows) rows.
Proof.
  induction rows as [|x rows IH] using rev_ind; [reflexivity|].
  rewrite order_by_asc_snoc, insert_asc_perm, IH.
  apply Permutation_cons_append.
Qed.

Lemma insert_asc_sorted (x : A) (l : list A) :
  StronglySorted (fun a b => key a <= key b) l ->
  StronglySorted (fun a b => key a <= key b) (Sql.insert_asc key x l).
Proof.
  induction l as [|y l IH]; cbn [Sql.insert_asc]; intros Hs.
  - repeat constructor.
  - inversion Hs as [|y' l' Hs' Hall]; subst.
    destruct (Z.ltb_spec (key x) (key y)) as [Hlt | Hge].
    + constructor; [exact Hs|]. constructor; [lia|].
      eapply Forall_impl; [|exact Hall]. cbn. intros b Hb. lia.
    + constructor; [now apply IH|].
      eapply Permutation_Forall.
      * symmetry. apply insert_asc_perm.
      * constructor; [lia | exact Hall].
Qed.

Lemma order_by_asc_sorted (rows : list A) :
  StronglySorted (fun a b => key a <= key b) (Sql.order_by_asc key rows).
Proof.
  induction rows as [|x rows IH] using rev_ind; [constructor|].
  rewrite order_by_asc_snoc. now apply insert_asc_sorted.
Qed.

End OrderBy.

(** ** [kaisurf_test.py]: the session gate and [register] *)

Module SessionSpec.
Import Session.

Lemma session_gate_result (Q : option (Response * Store) -> Prop)
    (f : TestApp.User.t -> View) request now today store :
  (forall text st, st <> 200 -> Q (Some (error text st, store))) ->
  (forall u, TestApp.get_user (TestApp.User.id u) (tables store) = Some u ->
             Q (f u request now today store)) ->
  Q (require_auth f request now today store).
Proof.
  intros Hearly Hf. unfold require_auth.
  destruct (X_Auth_Username request) as [name|];
    [|apply Hearly; discriminate].
  destruct (String.eqb name ""); [apply Hearly; discriminate|].
  destruct (Sql.first_by_desc _ _) as [record|];
    [|apply Hearly; discriminate].
  destruct (TestApp.get_user (TestApp.LoginRecord.user_id record) (tables store))
    as [u|] eqn:Hu; [|apply Hearly; discriminate].
  apply Hf. unfold TestApp.get_user in *.
  destruct (find_some _ _ Hu) as [_ Heq].
  apply Z.eqb_eq in Heq. now rewrite Heq.
Qed.

(** The text that [register] takes as roaming id. *)
Definition roaming_id_of (request : Request) : option string :=
  match get_json request with
  | JObj d =>
      match Json.get "roaming_id" d with
      | None => Some (Py.strip "")
      | Some (JStr s) => Some (Py.strip s)
      | Some _ => None
      end
  | _ => None
  end.

Lemma register_cases request now today store :
  register request now today store =
  match roaming_id_of request with
  | None => Some (InternalServerError, store)
  | Some roaming_id =>
      if negb (Nat.eqb (List.length (Py.split_ws roaming_id)) 2)
      then Some (error
                   "Registration requires a 'roaming_id' of exactly two words."
                   400, store)
      else
        match user_by_roaming_id roaming_id (tables store) with
        | Some _ => Some (message "Registration request processed." 202, store)
        | None =>
            let db := tables store in
            let new_user :=
              {| TestApp.User.id :=
                   Sql.next_id TestApp.User.id (TestApp.users db);
                 TestApp.User.roaming_id := roaming_id;
                 TestApp.User.registration_date := now |} in
            let db1 :=
              {| TestApp.users := (TestApp.users db ++ [new_user])%list;
                 TestApp.login_records := TestApp.login_records db;
                 TestApp.kones_balance := TestApp.kones_balance db;
                 TestApp.kones_ledger := TestApp.kones_ledger db |} in
            match TestApp.get_balance (TestApp.User.id new_user) db1 with
            | Some _ => Some (InternalServerError, with_tables store db1)
            | None =>
                Some
                  (message "Registration request processed." 202,
                   {| tables :=
                        {| TestApp.users := TestApp.users db1;
                           TestApp.login_records := TestApp.login_records db1;
                           TestApp.kones_balance :=
                             (TestApp.kones_balance db1
                                ++ [ {| TestApp.KonesBalance.user_id :=
                                          TestApp.User.id new_user;
                                        TestApp.KonesBalance.balance := 0 |} ])%list;
                           TestApp.kones_ledger := TestApp.kones_ledger db1 |};
                      chrono_log :=
                        add_chrono_log_entry (TestApp.User.id new_user)
                          "REGISTRATION"
                          (JObj [("status", JStr "Account created.")])
                          now (chrono_log store);
                      reward_rule := reward_rule store |})
            end
        end
  end.
Proof.
  unfold register, roaming_id_of.
  destruct (get_json request) as [| b | n | f | s | l | d]; try reflexivity.
  cbn [Json.dict_get].
  destruct (Json.get "roaming_id" d) as [[| b | n | f | s | l | d']|];
    reflexivity.
Qed.

Lemma user_by_roaming_id_new roaming_id db (u : TestApp.User.t) :
  user_by_roaming_id roaming_id db = None ->
  TestApp.User.roaming_id u = roaming_id ->
  find (fun x => String.eqb (TestApp.User.roaming_id x) roaming_id)
       (TestApp.users db ++ [u])%list = Some u.
Proof.
  intros Hnone Hu. rewrite find_snoc.
  unfold user_by_roaming_id in Hnone. rewrite Hnone, Hu, String.eqb_refl.
  reflexivity.
Qed.

(** [register] writes a balance row, with balance 0, for the user it
    creates. *)
Lemma register_new_user request now today store roaming_id :
  roaming_id_of request = Some roaming_id ->
  List.length (Py.split_ws roaming_id) = 2%nat ->
  user_by_roaming_id roaming_id (tables store) = None ->
  TestApp.get_balance (Sql.next_id TestApp.User.id (TestApp.users (tables store)))
    (tables store) = None ->
  exists store' u,
    register request now today store
    = Some (message "Registration request processed." 202, store')
    /\ TestApp.users (tables store')
       = (TestApp.users (tables store) ++ [u])%list
    /\ TestApp.User.id u
       = Sql.next_id TestApp.User.id (TestApp.users (tables store))
    /\ TestApp.User.roaming_id u = roaming_id
    /\ TestApp.kones_balance (tables store')
       = (TestApp.kones_balance (tables store)
            ++ [ {| TestApp.KonesBalance.user_id := TestApp.User.id u;
                    TestApp.KonesBalance.balance := 0 |} ])%list.
Proof.
  intros Hrid Hwords Hnew Hfree. rewrite register_cases, Hrid.
  apply Nat.eqb_eq in Hwords. rewrite Hwords. cbn [negb]. rewrite Hnew.
  cbv zeta. unfold TestApp.get_balance in *.
  cbn [TestApp.kones_balance TestApp.User.id]. rewrite Hfree.
  eexists. eexists. split; [reflexivity|]. cbn. repeat split.
Qed.

(** [register] writes no other balance row and changes none. *)
Lemma register_balance_frame request now today store r store' :
  register request now today store = Some (r, store') ->
  TestApp.kones_balance (tables store') = TestApp.kones_balance (tables store)
  \/ exists u,
       TestApp.users (tables store')
       = (TestApp.users (tables store) ++ [u])%list
       /\ TestApp.kones_balance (tables store')
          = (TestApp.kones_balance (tables store)
               ++ [ {| TestApp.KonesBalance.user_id := TestApp.User.id u;
                       TestApp.KonesBalance.balance := 0 |} ])%list.
Proof.
  rewrite register_cases.
  destruct (roaming_id_of request) as [roaming_id|];
    [|intros [= _ <-]; now left].
  destruct (negb _); [intros [= _ <-]; now left|].
  destruct (user_by_roaming_id _ _); [intros [= _ <-]; now left|].
  cbv zeta.
  destruct (TestApp.get_balance _ _); intros [= _ <-]; [now left|].
  right. eexists. split; reflexivity.
Qed.

(** The routes other than the registration and the balance read leave
    the balance table as it was. *)
Lemma other_routes_keep_balance route request now today store r store' :
  dispatch route request now today store = Some (r, store') ->
  route <> POST_register ->
  route <> GET_kones_balance ->
  TestApp.kones_balance (tables store') = TestApp.kones_balance (tables store).
Proof.
  intros H Hreg Hbal. revert r store' H.
  set (Q := fun out : option (Response * Store) =>
              forall r store', out = Some (r, store') ->
                TestApp.kones_balance (tables store')
                = TestApp.kones_balance (tables store)).
  assert (Hearly : forall text st, st <> 200 -> Q (Some (error text st, store)))
    by (intros text st _ r0 s0 [= _ <-]; reflexivity).
  change (Q (dispatch route request now today store)).
  destruct route; cbn [dispatch]; try contradiction.
  - intros r0 s0 H. unfold login in H.
    repeat match type of H with
           | context [match ?x with _ => _ end] => destruct x
           | context [if ?x then _ else _] => destruct x
           end;
      try discriminate; injection H as _ <-; reflexivity.
  - apply session_gate_result; [exact Hearly|].
    intros u _ r0 s0 H. unfold get_user_profile in H.
    destruct (Py.split_ws _); injection H as _ <-; reflexivity.
  - apply session_gate_result; [exact Hearly|].
    intros u _ r0 s0 [= _ <-]. reflexivity.
  - apply session_gate_result; [exact Hearly|].
    intros u _ r0 s0 [= _ <-]. reflexivity.
  - apply session_gate_result; [exact Hearly|].
    intros u _ r0 s0 H. unfold set_reward_rule in H.
    repeat match type of H with
           | context [match ?x with _ => _ end] => destruct x
           end;
      try discriminate; injection H as _ <-; reflexivity.
Qed.

End SessionSpec.

(** * The specification, claim by claim *)

Import Secured.

(** ** C3: validation errors of the credit *)

(** C3, as stated, fails: a request with an empty description is not a
    validation error.  The credit of 5 with description [""] is served
    with status 200 and one balance row and one ledger row are written. *)
Lemma earn_kones_accepts_empty_description :
  let r := POST_earn_kones Demo.jwt_decode Demo.config
             (Demo.credit (JInt 5) (JStr "")) Demo.t0 Demo.db0 in
  status_code (fst r) = 200
  /\ map KonesBalance.balance (kones_balance (snd r)) = [5]
  /\ map KonesLedger.description (kones_ledger (snd r)) = [JStr ""].
Proof. vm_compute. repeat split. Qed.

(** C3, amended.  For a request whose body is a JSON object and whose
    amount, when present, is a value that [int()] converts or rejects
    with [ValueError], the credit answers 400 exactly when [amount] or
    [description] is missing, the amount does not parse as an integer,
    or the parsed amount is at most 0; an empty description is not a
    validation error.  On every validation error the store is the same
    before and after. *)
Theorem earn_kones_validation_error :
  forall (current_user : User.t) (request : Request) (now : Z) (db : Db)
         (d : list (string * json)),
    get_json request = JObj d ->
    (forall v, Json.get "amount" d = Some v ->
               Json.int v = Py.ValueError \/ exists n, Json.int v = Py.Ok n) ->
    let r := earn_kones current_user request now db in
    (status_code (fst r) = 400 <->
       (Json.get "amount" d = None
        \/ Json.get "description" d = None
        \/ exists v, Json.get "amount" d = Some v
                     /\ (Json.int v = Py.ValueError
                         \/ exists n, Json.int v = Py.Ok n /\ n <= 0)))
    /\ (status_code (fst r) = 400 -> snd r = db).
Proof.
  intros current_user request now db d Hbody Htyped r.
  split.
  2:{ intros H. apply SecuredSpec.earn_kones_frame. fold r. lia. }
  subst r. rewrite (SecuredSpec.earn_kones_object _ _ _ _ d Hbody).
  destruct (Json.get "amount" d) as [v|] eqn:Ha.
  2:{ split; [intros _; now left | reflexivity]. }
  destruct (Json.get "description" d) as [description|] eqn:Hd.
  2:{ split; [intros _; right; now left | reflexivity]. }
  destruct (Htyped v eq_refl) as [Hv | [n Hv]]; rewrite Hv.
  - split; [intros _ | reflexivity].
    right; right. exists v. split; [reflexivity | now left].
  - destruct (Z.leb_spec n 0) as [Hle | Hgt].
    + split; [intros _ | reflexivity].
      right; right. exists v. split; [reflexivity|].
      right. exists n. split; [exact Hv | exact Hle].
    + destruct (SecuredSpec.credit_sequential (User.auth_uid current_user)
                  n description now db) as [[_ H] | [_ H]].
      * split.
        -- intros H400. rewrite H in H400. discriminate.
        -- intros [Hn | [Hn | [v' [[= <-] [Hv' | [n' [Hv' Hle]]]]]]];
             try discriminate; rewrite Hv in Hv'; [discriminate|].
           injection Hv' as <-. lia.
      * rewrite H. cbn [fst status_code]. split; [discriminate|].
        intros [Hn | [Hn | [v' [[= <-] [Hv' | [n' [Hv' Hle]]]]]]];
          try discriminate; rewrite Hv in Hv'; [discriminate|].
        injection Hv' as <-. lia.
Qed.

Lemma earn_kones_validation_error_witness :
  let r := earn_kones Demo.U1 (Demo.credit (JInt 0) (JStr "x")) Demo.t0
             Demo.db0 in
  status_code (fst r) = 400 /\ snd r = Demo.db0.
Proof.
  destruct (earn_kones_validation_error Demo.U1
              (Demo.credit (JInt 0) (JStr "x")) Demo.t0 Demo.db0
              [("amount", JInt 0); ("description", JStr "x")] eq_refl)
    as [Hiff Hframe].
  - intros v [= <-]. right. exists 0. reflexivity.
  - cbv zeta.
    assert (status_code
              (fst (earn_kones Demo.U1 (Demo.credit (JInt 0) (JStr "x"))
                      Demo.t0 Demo.db0)) = 400) as H400.
    { apply Hiff. right; right. exists (JInt 0).
      split; [reflexivity|]. right. exists 0. split; [reflexivity | lia]. }
    split; [exact H400 | exact (Hframe H400)].
Defined.

(** ** C10: an amount given as a decimal string *)

(** C10.  When the amount of the body is a decimal string, the credit
    route answers and acts as on the same request with the number that
    the string denotes in place of the string; and when that number is
    positive and the description can be stored, the credit is accepted
    and the balance grows by that number. *)
Theorem earn_kones_decimal_string :
  forall (jwt_decode : string -> string -> Z -> Jwt.decoded) (config : Config)
         (auth key : option string) (rest : list (string * json))
         (now : Z) (db : Db) (d : Decimal.uint),
    d <> Decimal.Nil ->
    let body amount := JObj (("amount", amount) :: rest) in
    let request amount :=
      {| Authorization := auth; X_Api_Key := key;
         get_json := body amount |} in
    let text := JStr (NilEmpty.string_of_uint d) in
    let number := JInt (Z.of_uint d) in
    POST_earn_kones jwt_decode config (request text) now db
    = POST_earn_kones jwt_decode config (request number) now db
    /\ (forall (current_user : User.t) (description : json),
          Json.get "description" rest = Some description ->
          storable description = true ->
          0 < Z.of_uint d ->
          let r := earn_kones current_user (request text) now db in
          fst r = jsonify
                    [("message",
                      JStr ("Successfully added "
                            ++ Py.str_of_int (Z.of_uint d) ++ " Kones."));
                     ("new_balance",
                      JInt (balance_of (User.auth_uid current_user) db
                            + Z.of_uint d))] 200
          /\ balance_of (User.auth_uid current_user) (snd r)
             = balance_of (User.auth_uid current_user) db + Z.of_uint d).
Proof.
  intros jwt_decode config auth key rest now db d Hd body request text number.
  assert (Hint : Json.int text = Py.Ok (Z.of_uint d)).
  { subst text. cbn [Json.int]. now rewrite (int_of_str_decimal d Hd). }
  assert (Hsame : forall u, earn_kones u (request text) now db
                            = earn_kones u (request number) now db).
  { intros u.
    rewrite (SecuredSpec.earn_kones_object u (request text) now db
               (("amount", text) :: rest) eq_refl).
    rewrite (SecuredSpec.earn_kones_object u (request number) now db
               (("amount", number) :: rest) eq_refl).
    cbn [Json.get String.eqb Ascii.eqb Bool.eqb]. rewrite Hint.
    reflexivity. }
  split.
  - unfold POST_earn_kones.
    apply SecuredSpec.trusted_service_required_ext; [reflexivity|].
    apply SecuredSpec.get_user_from_auth_header_ext; [reflexivity|].
    exact Hsame.
  - intros current_user description Hdesc Hst Hpos r. subst r.
    rewrite (SecuredSpec.earn_kones_object current_user (request text) now db
               (("amount", text) :: rest) eq_refl).
    cbn [Json.get String.eqb Ascii.eqb Bool.eqb]. rewrite Hint, Hdesc.
    destruct (Z.leb_spec (Z.of_uint d) 0) as [Hle | _]; [lia|].
    split.
    + now rewrite (SecuredSpec.credit_commit_ok _ _ _ now db Hst).
    + exact (SecuredSpec.credit_commit_balance_of _ _ _ now db Hst).
Qed.

Lemma earn_kones_decimal_string_witness :
  POST_earn_kones Demo.jwt_decode Demo.config
    (Demo.credit (JStr "50") (JStr "bonus")) Demo.t0 Demo.db0
  = POST_earn_kones Demo.jwt_decode Demo.config
      (Demo.credit (JInt 50) (JStr "bonus")) Demo.t0 Demo.db0.
Proof.
  refine (proj1 (earn_kones_decimal_string Demo.jwt_decode Demo.config
                   (Some "Bearer u1.live") (Some "test-api-key")
                   [("description", JStr "bonus")] Demo.t0 Demo.db0
                   (Decimal.D5 (Decimal.D0 Decimal.Nil)) _)).
  discriminate.
Defined.

(** ** C2: a successful credit *)




(** ** C1: the balance is the sum of the ledger *)

(** C1.  Start from the store of a new deployment with any identities
    signed up and serve any sequence of requests (credits, webhook
    recordings, reads; successful or not).  Then every identity owns at
    most one balance row, and its balance (the value of that row, 0
    without a row) is the sum of the amounts of its ledger rows.  The
    reads of the session application keep the same equation: where it
    holds for every user before a balance read or a history read, it
    holds for every user after it. *)
Theorem balance_is_ledger_sum :
  (forall (jwt_decode : string -> string -> Z -> Jwt.decoded) (config : Config)
          (uids : list string) (calls : list Call) (uid : string),
      let db := serve jwt_decode config calls (fresh uids) in
      balance_of uid db = ledger_sum uid db
      /\ (List.length (balance_rows uid db) <= 1)%nat)
  /\ (forall (request : TestApp.Request) (db : TestApp.Db),
        (forall i, TestApp.balance_of i db = TestApp.ledger_sum i db) ->
        (forall i,
            TestApp.balance_of i (snd (TestApp.GET_kones_balance request db))
            = TestApp.ledger_sum i (snd (TestApp.GET_kones_balance request db)))
        /\ (forall i,
              TestApp.balance_of i (snd (TestApp.GET_kones_ledger request db))
              = TestApp.ledger_sum i
                  (snd (TestApp.GET_kones_ledger request db)))).
Proof.
  split.
  - intros jwt_decode config uids calls uid db.
    destruct (SecuredSpec.serve_keeps_consistent jwt_decode config calls
                (fresh uids) (SecuredSpec.consistent_fresh uids))
      as (_ & Hown & Hsum).
    split; [apply Hsum|].
    exact (SecuredSpec.owned_at_most_once uid _ Hown).
  - intros request db Hinv. split.
    + unfold TestApp.GET_kones_balance.
      apply (TestAppSpec.require_auth_result
               (fun r => forall i, TestApp.balance_of i (snd r)
                                   = TestApp.ledger_sum i (snd r))).
      * intros text st _. exact Hinv.
      * intros u _ i.
        destruct (TestAppSpec.get_kones_balance_rows u request db)
          as [Hledger [Hsame | [Hnone Hrows]]].
        -- unfold TestApp.balance_of, TestApp.get_balance, TestApp.ledger_sum.
           rewrite Hsame, Hledger. apply Hinv.
        -- rewrite (TestAppSpec.balance_of_zero_row i _ db _ Hnone Hrows).
           unfold TestApp.ledger_sum. rewrite Hledger. apply Hinv.
    + unfold TestApp.GET_kones_ledger.
      apply (TestAppSpec.require_auth_result
               (fun r => forall i, TestApp.balance_of i (snd r)
                                   = TestApp.ledger_sum i (snd r))).
      * intros text st _. exact Hinv.
      * intros u _. exact Hinv.
Qed.

(** ** C8: who writes the balance rows *)

(** C8, as stated, fails: a balance row is created without a credit.
    The session application has no credit route; the registration of a
    user writes the user's balance row, with balance 0.  After the one
    request [POST /register] on the empty store the balance table holds
    a row and the ledger holds none. *)
Lemma register_creates_balance_row :
  exists store : Session.Store,
    Session.serve [DemoSession.register] Session.empty = Some store
    /\ TestApp.kones_balance (Session.tables Session.empty) = []
    /\ TestApp.kones_balance (Session.tables store)
       = [ {| TestApp.KonesBalance.user_id := 1;
              TestApp.KonesBalance.balance := 0 |} ]
    /\ TestApp.kones_ledger (Session.tables store) = [].
Proof. eexists. split; [vm_compute; reflexivity|]. repeat split. Qed.

(** The branch of the balance read for a user without a balance row: the
    read answers 0 and leaves a new row in the balance table.  No
    request of the application leads to such a store, since every
    registration writes the row. *)
Example balance_read_creates_row :
  let db :=
    {| TestApp.users :=
         [ {| TestApp.User.id := 1;
              TestApp.User.roaming_id := "blue wave";
              TestApp.User.registration_date := 100 |} ];
       TestApp.login_records :=
         [ {| TestApp.LoginRecord.id := 1;
              TestApp.LoginRecord.user_id := 1;
              TestApp.LoginRecord.login_username := "blue-2025-01-01-wave";
              TestApp.LoginRecord.login_timestamp := 200 |} ];
       TestApp.kones_balance := [];
       TestApp.kones_ledger := [] |} in
  let r := TestApp.GET_kones_balance
             {| TestApp.X_Auth_Username := Some "blue-2025-01-01-wave" |} db in
  TestApp.status (fst r) = 200
  /\ TestApp.kones_balance db = []
  /\ TestApp.kones_balance (snd r)
     = [ {| TestApp.KonesBalance.user_id := 1;
            TestApp.KonesBalance.balance := 0 |} ].
Proof. vm_compute. repeat split. Qed.

(** C8, amended.  In the secured application the balance table is
    written by a successful credit only: the read route, the webhook
    recorder and every request that does not end with status 200
    (failed authentication included) leave it as it was, and a
    successful credit appends one row for the identity when the
    identity has none and appends no row otherwise.  The session
    application has no credit, and its balance rows are written by the
    registration and by the balance read only, each appending a row
    with balance 0 and changing no existing row:
    - the history read leaves the store as it was;
    - the balance read leaves the store as it was when the user has a
      balance row, and appends the row of the user with balance 0 when
      the user has none; it changes no reported balance; behind the
      session gate it is a refusal with the store as it was or this
      read for a user of the store;
    - the registration of a new two-word roaming id answers 202 and
      appends the new user and the balance row of that user with
      balance 0; every registration either leaves the balance table as
      it was or appends such a row together with its user;
    - every other route leaves the balance table as it was. *)
Theorem balance_rows_writers :
  (forall (jwt_decode : string -> string -> Z -> Jwt.decoded)
          (config : Config) (request : Request) (now : Z) (db : Db),
      kones_balance (snd (GET_posts jwt_decode config request now db))
      = kones_balance db
      /\ kones_balance (snd (POST_webhook_sync jwt_decode config request now db))
         = kones_balance db
      /\ (status_code (fst (POST_earn_kones jwt_decode config request now db))
            <> 200 ->
          snd (POST_earn_kones jwt_decode config request now db) = db))
  /\ (forall (current_user : User.t) (request : Request) (now : Z) (db : Db),
        let uid := User.auth_uid current_user in
        let r := earn_kones current_user request now db in
        status_code (fst r) = 200 ->
        match query_balance uid db with
        | None =>
            exists row,
              kones_balance (snd r) = (kones_balance db ++ [row])%list
              /\ KonesBalance.user_auth_uid row = uid
        | Some _ =>
            map KonesBalance.user_auth_uid (kones_balance (snd r))
            = map KonesBalance.user_auth_uid (kones_balance db)
        end)
  /\ (forall (request : TestApp.Request) (db : TestApp.Db),
        snd (TestApp.GET_kones_ledger request db) = db)
  /\ (forall (user : TestApp.User.t) (request : TestApp.Request)
             (db : TestApp.Db),
        let db' := snd (TestApp.get_kones_balance user request db) in
        (forall i, TestApp.balance_of i db' = TestApp.balance_of i db)
        /\ match TestApp.get_balance (TestApp.User.id user) db with
           | Some _ => db' = db
           | None =>
               db' = {| TestApp.users := TestApp.users db;
                        TestApp.login_records := TestApp.login_records db;
                        TestApp.kones_balance :=
                          (TestApp.kones_balance db
                             ++ [ {| TestApp.KonesBalance.user_id :=
                                       TestApp.User.id user;
                                     TestApp.KonesBalance.balance := 0 |} ])%list;
                        TestApp.kones_ledger := TestApp.kones_ledger db |}
           end)
  /\ (forall (request : TestApp.Request) (db : TestApp.Db),
        (TestApp.status (fst (TestApp.GET_kones_balance request db)) <> 200
         /\ snd (TestApp.GET_kones_balance request db) = db)
        \/ exists user,
             In user (TestApp.users db)
             /\ TestApp.GET_kones_balance request db
                = TestApp.get_kones_balance user request db)
  /\ (forall (request : Session.Request) (now : Z) (today : string)
             (store : Session.Store) (roaming_id : string),
        SessionSpec.roaming_id_of request = Some roaming_id ->
        List.length (Py.split_ws roaming_id) = 2%nat ->
        Session.user_by_roaming_id roaming_id (Session.tables store) = None ->
        TestApp.get_balance
          (Sql.next_id TestApp.User.id (TestApp.users (Session.tables store)))
          (Session.tables store) = None ->
        exists store' u,
          Session.register request now today store
          = Some (Session.message "Registration request processed." 202,
                  store')
          /\ TestApp.users (Session.tables store')
             = (TestApp.users (Session.tables store) ++ [u])%list
          /\ TestApp.User.roaming_id u = roaming_id
          /\ TestApp.kones_balance (Session.tables store')
             = (TestApp.kones_balance (Session.tables store)
                  ++ [ {| TestApp.KonesBalance.user_id := TestApp.User.id u;
                          TestApp.KonesBalance.balance := 0 |} ])%list)
  /\ (forall (request : Session.Request) (now : Z) (today : string)
             (store store' : Session.Store) (r : Session.Response),
        Session.register request now today store = Some (r, store') ->
        TestApp.kones_balance (Session.tables store')
        = TestApp.kones_balance (Session.tables store)
        \/ exists u,
             TestApp.users (Session.tables store')
             = (TestApp.users (Session.tables store) ++ [u])%list
             /\ TestApp.kones_balance (Session.tables store')
                = (TestApp.kones_balance (Session.tables store)
                     ++ [ {| TestApp.KonesBalance.user_id := TestApp.User.id u;
                             TestApp.KonesBalance.balance := 0 |} ])%list)
  /\ (forall (route : Session.Route) (request : Session.Request) (now : Z)
             (today : string) (store store' : Session.Store)
             (r : Session.Response),
        Session.dispatch route request now today store = Some (r, store') ->
        route <> Session.POST_register ->
        route <> Session.GET_kones_balance ->
        TestApp.kones_balance (Session.tables store')
        = TestApp.kones_balance (Session.tables store)).
Proof.
  split; [|split; [|split; [|split; [|split; [|split; [|split]]]]]].
  - intros jwt_decode config request now db. split; [|split].
    + unfold GET_posts.
      apply (SecuredSpec.get_user_from_auth_header_keeps _ _
               (fun db' => kones_balance db' = kones_balance db));
        reflexivity.
    + unfold POST_webhook_sync.
      apply (SecuredSpec.trusted_service_required_keeps _
               (fun db' => kones_balance db' = kones_balance db));
        [reflexivity|].
      apply (SecuredSpec.get_user_from_auth_header_keeps _ _
               (fun db' => kones_balance db' = kones_balance db));
        [reflexivity|].
      intros u _. apply SecuredSpec.webhook_sync_tables.
    + unfold POST_earn_kones.
      apply (SecuredSpec.trusted_service_required_result config
               (fun r => status_code (fst r) <> 200 -> snd r = db));
        [reflexivity|].
      apply (SecuredSpec.get_user_from_auth_header_result jwt_decode config
               (fun r => status_code (fst r) <> 200 -> snd r = db));
        [reflexivity|].
      intros u _. apply SecuredSpec.earn_kones_frame.
  - intros current_user request now db uid r H200. subst r.
    unfold earn_kones in *.
    destruct (earn_validate (get_json request))
      as [response | [amount description]] eqn:Hv.
    + exfalso. unfold earn_validate in Hv. cbn [fst] in H200.
      repeat match type of Hv with
             | context [match ?x with _ => _ end] => destruct x
             end;
        try discriminate; injection Hv as <-; discriminate.
    + fold uid in H200 |- *.
      destruct (SecuredSpec.credit_sequential uid amount description now db)
        as [[Hst _] | [_ H]].
      2:{ rewrite H in H200. discriminate. }
      rewrite (SecuredSpec.credit_commit_ok uid amount description now db Hst).
      cbn [snd kones_balance]. unfold flush_balance.
      change (balance_record _) with (query_balance uid db).
      destruct (query_balance uid db) as [loaded|]; cbn [fst].
      * rewrite map_map. apply map_ext. intros x.
        destruct (KonesBalance.id x =? KonesBalance.id loaded); reflexivity.
      * eexists. split; reflexivity.
  - intros request db. unfold TestApp.GET_kones_ledger.
    apply (TestAppSpec.require_auth_result (fun r => snd r = db));
      reflexivity.
  - intros user request db db'. subst db'. split.
    + intros i.
      destruct (TestAppSpec.get_kones_balance_rows user request db)
        as [_ [Hsame | [Hnone Hrows]]].
      * unfold TestApp.balance_of, TestApp.get_balance. now rewrite Hsame.
      * exact (TestAppSpec.balance_of_zero_row i _ db _ Hnone Hrows).
    + unfold TestApp.get_kones_balance.
      destruct (TestApp.get_balance (TestApp.User.id user) db); reflexivity.
  - intros request db. unfold TestApp.GET_kones_balance.
    apply (TestAppSpec.require_auth_result
             (fun out =>
                (TestApp.status (fst out) <> 200 /\ snd out = db)
                \/ exists user,
                     In user (TestApp.users db)
                     /\ out = TestApp.get_kones_balance user request db)).
    + intros text st Hst. left. split; [exact Hst | reflexivity].
    + intros u Hu. right. exists u. split; [|reflexivity].
      unfold TestApp.get_user in Hu. exact (proj1 (find_some _ _ Hu)).
  - intros request now today store roaming_id Hrid Hwords Hnew Hfree.
    destruct (SessionSpec.register_new_user request now today store
                roaming_id Hrid Hwords Hnew Hfree)
      as (store' & u & Hr & Hu & _ & Hname & Hb).
    exists store', u. repeat split; assumption.
  - intros request now today store store' r.
    apply SessionSpec.register_balance_frame.
  - intros route request now today store store' r.
    apply SessionSpec.other_routes_keep_balance.
Qed.

(** ** C9: the webhook recorder *)

(** C9, as stated, fails: with both fields present the recorder may
    still refuse.  The body carries [event_type] and an empty [payload]
    object; the answer is the validation error and no audit row is
    stored. *)
Lemma webhook_rejects_empty_payload :
  let data := JObj [("event_type", JStr "purchase"); ("payload", JObj [])] in
  let r := POST_webhook_sync Demo.jwt_decode Demo.config (Demo.post data)
             Demo.t0 Demo.db0 in
  Json.dict_get "event_type" data = Py.Ok (Some (JStr "purchase"))
  /\ Json.dict_get "payload" data = Py.Ok (Some (JObj []))
  /\ fst r = msg "Request must include 'event_type' and 'payload'." 400
  /\ chronolog (snd r) = [].
Proof. vm_compute. repeat split. Qed.

(** C9, amended.  On a JSON object the recorder answers the validation
    error, and stores nothing, whenever [event_type] or [payload] is
    missing or has a false truth value (empty string, empty object, 0,
    [null], ...).  When [event_type] is a non-empty string and [payload]
    is present with a true truth value, it appends exactly one audit row
    for the caller, whose tag is ["WEBHOOK_"] followed by the event type
    in upper case with every space replaced by an underscore, and leaves
    the balance and ledger tables as they were. *)
Theorem webhook_sync_records :
  forall (current_user : User.t) (request : Request) (now : Z) (db : Db)
         (d : list (string * json)),
    get_json request = JObj d ->
    let r := webhook_sync current_user request now db in
    (Json.get "event_type" d = None \/ Json.get "payload" d = None ->
     r = (msg "Request must include 'event_type' and 'payload'." 400, db))
    /\ (Json.truthy_opt (Json.get "event_type" d) = false
        \/ Json.truthy_opt (Json.get "payload" d) = false ->
        r = (msg "Request must include 'event_type' and 'payload'." 400, db))
    /\ (forall (e : string) (p : json),
          Json.get "event_type" d = Some (JStr e) ->
          e <> "" ->
          Json.get "payload" d = Some p ->
          Json.truthy p = true ->
          exists entry : Chronolog.t,
            r = (jsonify [("message", JStr "Webhook event processed.");
                          ("event_type", JStr (Chronolog.event_type entry))]
                         200,
                 {| users := users db;
                    kones_balance := kones_balance db;
                    kones_ledger := kones_ledger db;
                    chronolog := (chronolog db ++ [entry])%list |})
            /\ Chronolog.event_type entry
               = "WEBHOOK_" ++ Py.replace_char " " "_" (Py.upper e)
            /\ Chronolog.user_auth_uid entry = User.auth_uid current_user
            /\ Chronolog.payload entry = p
            /\ Chronolog.timestamp entry = now).
Proof.
  intros current_user request now db d Hbody r. subst r.
  unfold webhook_sync. rewrite Hbody. cbn [Json.dict_get].
  assert (Hfalsy :
            Json.truthy_opt (Json.get "event_type" d) = false
            \/ Json.truthy_opt (Json.get "payload" d) = false ->
            (negb (Json.truthy_opt (Json.get "event_type" d))
             || negb (Json.truthy_opt (Json.get "payload" d)))%bool = true).
  { intros [H | H]; rewrite H; cbn; [reflexivity | apply orb_true_r]. }
  split; [|split].
  - intros Hmiss. rewrite Hfalsy; [reflexivity|].
    destruct Hmiss as [H | H]; rewrite H; [now left | now right].
  - intros H. now rewrite (Hfalsy H).
  - intros e p He Hne Hp Htruthy. rewrite He, Hp.
    cbn [Json.truthy_opt Json.truthy]. rewrite Htruthy.
    destruct (String.eqb_spec e "") as [-> | _]; [now elim Hne|].
    cbn [negb orb].
    exists {| Chronolog.id := Sql.next_id Chronolog.id (chronolog db);
              Chronolog.user_auth_uid := User.auth_uid current_user;
              Chronolog.event_type :=
                "WEBHOOK_" ++ Py.replace_char " " "_" (Py.upper e);
              Chronolog.payload := p;
              Chronolog.timestamp := now |}.
    repeat split.
Qed.

Lemma webhook_sync_records_witness :
  let data := JObj [("event_type", JStr "purchase complete");
                    ("payload", JObj [("order_id", JStr "AX123")])] in
  map Chronolog.event_type
      (chronolog (snd (webhook_sync Demo.U1 (Demo.post data) Demo.t0 Demo.db0)))
  = ["WEBHOOK_PURCHASE_COMPLETE"].
Proof.
  destruct (webhook_sync_records Demo.U1
              (Demo.post (JObj [("event_type", JStr "purchase complete");
                                ("payload", JObj [("order_id", JStr "AX123")])]))
              Demo.t0 Demo.db0
              [("event_type", JStr "purchase complete");
               ("payload", JObj [("order_id", JStr "AX123")])] eq_refl)
    as (_ & _ & Hstore).
  destruct (Hstore "purchase complete" (JObj [("order_id", JStr "AX123")])
              eq_refl) as [entry (Hr & Htag & _)].
  - discriminate.
  - reflexivity.
  - reflexivity.
  - cbv zeta. rewrite Hr. cbn [snd chronolog Demo.db0 fresh app map].
    rewrite Htag. reflexivity.
Defined.

(** ** C7: the shared-secret gate *)

(** C7.  Whenever the key of the request differs from the configured
    one (by one character, entirely, or by being absent) the gate
    answers 403 with one fixed message and does not run the view; so two
    requests with wrong keys get the same answer, whatever the keys. *)
Theorem shared_secret_single_outcome :
  forall (config : Config) (f : View) (request1 request2 : Request)
         (now1 now2 : Z) (db1 db2 : Db),
    X_Api_Key request1 <> TRUSTED_SERVICE_API_KEY config ->
    X_Api_Key request2 <> TRUSTED_SERVICE_API_KEY config ->
    trusted_service_required config f request1 now1 db1
    = (msg "Invalid API Key for trusted service." 403, db1)
    /\ fst (trusted_service_required config f request1 now1 db1)
       = fst (trusted_service_required config f request2 now2 db2).
Proof.
  intros config f request1 request2 now1 now2 db1 db2 H1 H2.
  unfold trusted_service_required.
  apply SecuredSpec.differs_spec in H1, H2. rewrite H1, H2.
  split; reflexivity.
Qed.

Lemma shared_secret_single_outcome_witness :
  fst (POST_earn_kones Demo.jwt_decode Demo.config
         {| Authorization := Some "Bearer u1.live";
            X_Api_Key := Some "test-api-kez";
            get_json := JObj [("amount", JInt 50); ("description", JStr "x")] |}
         Demo.t0 Demo.db0)
  = fst (POST_earn_kones Demo.jwt_decode Demo.config
           {| Authorization := None;
              X_Api_Key := None;
              get_json := JNull |}
           Demo.t0 Demo.db0).
Proof.
  unfold POST_earn_kones.
  refine (proj2 (shared_secret_single_outcome Demo.config _ _ _ Demo.t0 Demo.t0
                   Demo.db0 Demo.db0 _ _)); discriminate.
Defined.

(** ** C5: expired tokens *)

(** C5, as stated, fails: an expired token whose signature is not valid
    is not reported as expired.  The token expired at 1000 s, the
    request is served at 1500 s, and the signature was made with another
    key: the answer is the one of an invalid token. *)
Lemma expired_forged_token_not_reported_expired :
  let request := {| Authorization := Some "Bearer u1.expired.forged";
                    X_Api_Key := None;
                    get_json := JNull |} in
  let r := GET_posts Demo.jwt_decode Demo.config request Demo.t0 Demo.db0 in
  (exists t, Demo.deserialize "u1.expired.forged" = Some t
             /\ Jwt.exp t = Some 1000
             /\ 1000 * 1000000 < Demo.t0
             /\ Jwt.signed_with t <> Demo.secret)
  /\ fst r = msg "Invalid format." 401
  /\ fst r <> msg "JWT has expired." 401.
Proof.
  cbv zeta. split; [|split].
  - eexists. split; [reflexivity|]. repeat split. discriminate.
  - reflexivity.
  - discriminate.
Qed.

(** C5, amended.  A bearer token under the fixed algorithm whose [exp]
    is not later than the clock is refused with the expiry answer when
    its signature is valid for the configured secret; when its signature
    is not valid it is refused with the answer of an invalid token. *)
Theorem expired_token_outcome :
  forall (deserialize : string -> option Jwt.token) (config : Config)
         (f : User.t -> View) (request : Request) (now : Z) (db : Db)
         (jwt key : string) (t : Jwt.token) (e : Z),
    bearer_token request = Some jwt ->
    signing_secret config = Some key ->
    deserialize jwt = Some t ->
    Jwt.alg t = "HS256" ->
    Jwt.exp t = Some e ->
    e * 1000000 <= now ->
    let r := get_user_from_auth_header (Jwt.decode deserialize) config f
               request now db in
    (Jwt.signed_with t = key -> r = (msg "JWT has expired." 401, db))
    /\ (Jwt.signed_with t <> key -> r = (msg "Invalid format." 401, db)).
Proof.
  intros deserialize config f request now db jwt key t e
         Hb Hs Ht Halg Hexp Hpast r.
  subst r. rewrite SecuredSpec.get_user_from_auth_header_cases, Hb, Hs.
  unfold Jwt.decode. rewrite Ht, Halg.
  rewrite String.eqb_refl. cbn [negb]. split.
  - intros ->. rewrite String.eqb_refl. cbn [negb]. rewrite Hexp.
    apply Z.leb_le in Hpast. now rewrite Hpast.
  - intros Hne. apply String.eqb_neq in Hne. rewrite Hne. reflexivity.
Qed.

Lemma expired_token_outcome_witness :
  GET_posts Demo.jwt_decode Demo.config
    {| Authorization := Some "Bearer u1.expired";
       X_Api_Key := None;
       get_json := JNull |} Demo.t0 Demo.db0
  = (msg "JWT has expired." 401, Demo.db0).
Proof.
  refine (proj1 (expired_token_outcome Demo.deserialize Demo.config list_posts
                   {| Authorization := Some "Bearer u1.expired";
                      X_Api_Key := None;
                      get_json := JNull |}
                   Demo.t0 Demo.db0 "u1.expired" Demo.secret
                   (Demo.token Demo.secret (Some "U1") 1000) 1000
                   eq_refl eq_refl eq_refl eq_refl eq_refl _) eq_refl).
  discriminate.
Defined.

(** ** C6: the refusals of the bearer gate *)

(** C6, as stated, fails: a malformed credential and an invalid
    signature are not told apart.  One token cannot be deserialised, the
    other is well formed and signed with another key; the answers are
    the same. *)
Lemma malformed_and_forged_same_outcome :
  let malformed := {| Authorization := Some "Bearer not-a-token";
                      X_Api_Key := None;
                      get_json := JNull |} in
  let forged := {| Authorization := Some "Bearer u1.forged";
                   X_Api_Key := None;
                   get_json := JNull |} in
  Demo.jwt_decode "not-a-token" Demo.secret Demo.t0
  = Jwt.Raise Jwt.DecodeError
  /\ Demo.jwt_decode "u1.forged" Demo.secret Demo.t0
     = Jwt.Raise Jwt.InvalidSignatureError
  /\ fst (GET_posts Demo.jwt_decode Demo.config malformed Demo.t0 Demo.db0)
     = msg "Invalid format." 401
  /\ fst (GET_posts Demo.jwt_decode Demo.config forged Demo.t0 Demo.db0)
     = msg "Invalid format." 401.
Proof. vm_compute. repeat split. Qed.

(** C6, amended.  The bearer gate refuses for one of seven reasons:
    header missing or not of the form [Bearer ...], signing secret
    absent, token expired, token otherwise invalid (a token that cannot
    be deserialised and a token with an invalid signature alike),
    any other error of the decoder, subject missing, subject unknown to
    the store.  Each reason has its own answer (status and message),
    different from the answer of every other reason; the absent secret
    is the only one answered with 500, all others are answered with a
    4xx status; and a request that is not refused for one of these
    reasons reaches the view with a user of the store. *)
Theorem auth_failure_outcomes :
  (forall (jwt_decode : string -> string -> Z -> Jwt.decoded)
          (config : Config) (f : User.t -> View) (request : Request)
          (now : Z) (db : Db) (m : AuthFailure),
      refused jwt_decode config request now db m ->
      get_user_from_auth_header jwt_decode config f request now db
      = (outcome m, db))
  /\ (forall m1 m2 : AuthFailure, outcome m1 = outcome m2 -> m1 = m2)
  /\ (forall m : AuthFailure, status_code (outcome m) = 500 <-> m = NoSecret)
  /\ (forall m : AuthFailure,
        m <> NoSecret -> 400 <= status_code (outcome m) < 500)
  /\ (forall (jwt_decode : string -> string -> Z -> Jwt.decoded)
             (config : Config) (f : User.t -> View) (request : Request)
             (now : Z) (db : Db),
        (exists m, refused jwt_decode config request now db m)
        \/ (exists u,
              get_user (User.auth_uid u) db = Some u
              /\ get_user_from_auth_header jwt_decode config f request now db
                 = f u request now db)).
Proof.
  split; [|split; [|split; [|split]]].
  - intros. now apply SecuredSpec.refused_outcome.
  - intros m1 m2 H. destruct m1, m2; try reflexivity; discriminate H.
  - intros m. split.
    + destruct m; cbn; intros H; try reflexivity; discriminate H.
    + intros ->. reflexivity.
  - intros m Hm. destruct m; cbn; try lia. now elim Hm.
  - intros. apply SecuredSpec.refused_or_passed.
Qed.

Lemma auth_failure_outcomes_witness :
  GET_posts Demo.jwt_decode Demo.config
    {| Authorization := Some "Bearer ghost.live";
       X_Api_Key := None;
       get_json := JNull |} Demo.t0 Demo.db0
  = (msg "User not found in database." 404, Demo.db0).
Proof.
  refine (proj1 auth_failure_outcomes Demo.jwt_decode Demo.config list_posts
            {| Authorization := Some "Bearer ghost.live";
               X_Api_Key := None;
               get_json := JNull |} Demo.t0 Demo.db0 UnknownSubject _).
  apply (refused_unknown _ _ _ _ _ "ghost.live" Demo.secret "U9");
    try reflexivity.
  discriminate.
Defined.

(** ** C4: two concurrent first credits *)

(** C4 is not met by the code.  Two workers credit 50 and 25 to [U1],
    which has no balance row, and both run the balance query before
    either commits.  Both credits are answered with status 200; the
    store then holds two balance rows for [U1], one with 50 and one with
    25, none with 75, and two ledger rows.  Served one after the other,
    the same credits leave one row with 75. *)
Theorem race_duplicates_balance_row :
  let '(r1, r2, db) :=
    race "U1" 50 (JStr "bonus") Demo.t0 25 (JStr "daily") (Demo.t0 + 1)
         Demo.db0 in
  status_code r1 = 200
  /\ status_code r2 = 200
  /\ map KonesBalance.balance (balance_rows "U1" db) = [50; 25]
  /\ map KonesLedger.amount (ledger_rows "U1" db) = [50; 25]
  /\ balance_of "U1" db <> ledger_sum "U1" db
  /\ map KonesBalance.balance
       (balance_rows "U1"
          (serve Demo.jwt_decode Demo.config
             [ {| route := earn;
                  request := Demo.credit (JInt 50) (JStr "bonus");
                  clock := Demo.t0 |};
               {| route := earn;
                  request := Demo.credit (JInt 25) (JStr "daily");
                  clock := Demo.t0 + 1 |} ]
             Demo.db0))
     = [75].
Proof. vm_compute. repeat split. discriminate. Qed.

(** * Further properties of the code *)

(** ** The order of the two gates *)

(** X1.  On the two trusted routes the shared-secret check comes before
    the bearer check: a request that the bearer gate would refuse is
    answered 403 when its key is wrong, and with the answer of the
    bearer refusal when its key is right. *)
Theorem trusted_gate_precedes_bearer_gate :
  forall (jwt_decode : string -> string -> Z -> Jwt.decoded) (config : Config)
         (request : Request) (now : Z) (db : Db) (m : AuthFailure),
    refused jwt_decode config request now db m ->
    (X_Api_Key request <> TRUSTED_SERVICE_API_KEY config ->
     POST_earn_kones jwt_decode config request now db
     = (msg "Invalid API Key for trusted service." 403, db)
     /\ POST_webhook_sync jwt_decode config request now db
        = (msg "Invalid API Key for trusted service." 403, db))
    /\ (X_Api_Key request = TRUSTED_SERVICE_API_KEY config ->
        POST_earn_kones jwt_decode config request now db = (outcome m, db)
        /\ POST_webhook_sync jwt_decode config request now db
           = (outcome m, db)).
Proof.
  intros jwt_decode config request now db m Hm.
  unfold POST_earn_kones, POST_webhook_sync, trusted_service_required.
  split; intros Hkey.
  - apply SecuredSpec.differs_spec in Hkey. rewrite Hkey. now split.
  - apply SecuredSpec.differs_false in Hkey. rewrite Hkey.
    split; now apply SecuredSpec.refused_outcome.
Qed.

Lemma trusted_gate_precedes_bearer_gate_witness :
  POST_earn_kones Demo.jwt_decode Demo.config
    {| Authorization := None; X_Api_Key := None;
       get_json := JObj [] |} Demo.t0 Demo.db0
  = (msg "Invalid API Key for trusted service." 403, Demo.db0)
  /\ POST_earn_kones Demo.jwt_decode Demo.config
       {| Authorization := None; X_Api_Key := Some "test-api-key";
          get_json := JObj [("amount", JInt 100); ("description", JStr "test")] |}
       Demo.t0 Demo.db0
     = (msg "Missing or invalid Authorization header." 401, Demo.db0).
Proof.
  split.
  - refine (proj1 (proj1 (trusted_gate_precedes_bearer_gate Demo.jwt_decode
                            Demo.config
                            {| Authorization := None; X_Api_Key := None;
                               get_json := JObj [] |}
                            Demo.t0 Demo.db0 BadHeader _) _)).
    + now apply refused_header.
    + discriminate.
  - refine (proj1 (proj2 (trusted_gate_precedes_bearer_gate Demo.jwt_decode
                            Demo.config
                            {| Authorization := None;
                               X_Api_Key := Some "test-api-key";
                               get_json := JObj [("amount", JInt 100);
                                                 ("description", JStr "test")] |}
                            Demo.t0 Demo.db0 BadHeader _) _)).
    + now apply refused_header.
    + reflexivity.
Defined.

(** ** The read route of the secured application *)

(** X2.  [GET /posts] never writes the store, and for a token that the
    decoder accepts with a subject known to the store it answers 200
    and names that subject. *)
Theorem list_posts_read_only :
  forall (jwt_decode : string -> string -> Z -> Jwt.decoded) (config : Config)
         (request : Request) (now : Z) (db : Db),
    snd (GET_posts jwt_decode config request now db) = db
    /\ (forall (jwt key uid : string) (u : User.t),
          bearer_token request = Some jwt ->
          signing_secret config = Some key ->
          jwt_decode jwt key now = Jwt.Payload (Some uid) ->
          uid <> "" ->
          get_user uid db = Some u ->
          status_code (fst (GET_posts jwt_decode config request now db)) = 200
          /\ Json.get "user"
               (match fst (GET_posts jwt_decode config request now db) with
                | jsonify body _ => body
                | InternalServerError => []
                end) = Some (JStr uid)).
Proof.
  intros jwt_decode config request now db. split.
  - unfold GET_posts.
    apply (SecuredSpec.get_user_from_auth_header_keeps _ _ (fun db' => db' = db));
      reflexivity.
  - intros jwt key uid u Hb Hs Hd Hne Hu. unfold GET_posts.
    rewrite SecuredSpec.get_user_from_auth_header_cases, Hb, Hs, Hd.
    cbn [falsy]. destruct (String.eqb_spec uid "") as [-> | _];
      [now elim Hne|]. rewrite Hu. cbn.
    split; [reflexivity|].
    unfold get_user in Hu. destruct (find_some _ _ Hu) as [_ Heq].
    apply String.eqb_eq in Heq. now rewrite Heq.
Qed.

(** ** The tables only grow *)

(** [db'] has the users of [db], and its ledger and audit tables are
    those of [db] with rows appended. *)
Definition extends (db db' : Db) : Prop :=
  users db' = users db
  /\ (exists l, kones_ledger db' = (kones_ledger db ++ l)%list)
  /\ (exists c, chronolog db' = (chronolog db ++ c)%list).

Lemma extends_refl db : extends db db.
Proof.
  repeat split; exists []; now rewrite app_nil_r.
Qed.

Lemma extends_trans db1 db2 db3 :
  extends db1 db2 -> extends db2 db3 -> extends db1 db3.
Proof.
  intros (Hu & [l Hl] & [c Hc]) (Hu' & [l' Hl'] & [c' Hc']).
  repeat split.
  - congruence.
  - exists (l ++ l')%list. rewrite Hl', Hl. now rewrite app_assoc.
  - exists (c ++ c')%list. rewrite Hc', Hc. now rewrite app_assoc.
Qed.

Lemma dispatch_extends jwt_decode config r request now db :
  extends db (snd (dispatch jwt_decode config r request now db)).
Proof.
  destruct r; cbn [dispatch];
    unfold GET_posts, POST_earn_kones, POST_webhook_sync.
  - apply (SecuredSpec.get_user_from_auth_header_keeps _ _ (extends db));
      [apply extends_refl|]. intros u _. apply extends_refl.
  - apply (SecuredSpec.trusted_service_required_keeps _ (extends db));
      [apply extends_refl|].
    apply (SecuredSpec.get_user_from_auth_header_keeps _ _ (extends db));
      [apply extends_refl|]. intros u _.
    unfold earn_kones.
    destruct (earn_validate (get_json request)) as [resp | [amount description]];
      [apply extends_refl|].
    destruct (SecuredSpec.credit_sequential (User.auth_uid u) amount
                description now db) as [[Hst _] | [_ H]].
    + rewrite (SecuredSpec.credit_commit_ok _ _ _ now db Hst). cbn [snd].
      repeat split; cbn.
      * eexists. reflexivity.
      * exists []. now rewrite app_nil_r.
    + rewrite H. apply extends_refl.
  - apply (SecuredSpec.trusted_service_required_keeps _ (extends db));
      [apply extends_refl|].
    apply (SecuredSpec.get_user_from_auth_header_keeps _ _ (extends db));
      [apply extends_refl|]. intros u _.
    unfold webhook_sync.
    destruct (Json.dict_get "event_type" (get_json request)) as [e| | | |];
      try apply extends_refl.
    destruct (Json.dict_get "payload" (get_json request)) as [p| | | |];
      try apply extends_refl.
    destruct (_ || _)%bool; [apply extends_refl|].
    destruct e as [[]|]; try apply extends_refl.
    destruct p; try apply extends_refl.
    repeat split; cbn.
    + exists []. now rewrite app_nil_r.
    + eexists. reflexivity.
Qed.

(** X3.  Whatever requests are served, no user is added or removed and
    no ledger row and no audit row is changed or removed: the ledger and
    the audit table after the requests are the tables before them with
    rows appended. *)
Theorem tables_append_only :
  forall (jwt_decode : string -> string -> Z -> Jwt.decoded) (config : Config)
         (calls : list Call) (db : Db),
    let db' := serve jwt_decode config calls db in
    users db' = users db
    /\ (exists l, kones_ledger db' = (kones_ledger db ++ l)%list)
    /\ (exists c, chronolog db' = (chronolog db ++ c)%list).
Proof.
  intros jwt_decode config calls. induction calls as [|c calls IH]; intros db.
  - apply extends_refl.
  - cbn [serve fold_left].
    eapply extends_trans; [apply dispatch_extends | apply IH].
Qed.

(** ** When a credit is accepted *)

Lemma earn_validate_refusal data response :
  earn_validate data = inl response -> status_code response <> 200.
Proof.
  unfold earn_validate. intros H.
  repeat match type of H with
         | context [match ?x with _ => _ end] => destruct x
         end;
    try discriminate; injection H as <-; discriminate.
Qed.

Lemma earn_validate_accepts data amount description :
  earn_validate data = inr (amount, description) <->
  exists d v,
    data = JObj d
    /\ Json.get "amount" d = Some v
    /\ Json.int v = Py.Ok amount
    /\ 0 < amount
    /\ Json.get "description" d = Some description.
Proof.
  split.
  - intros H.
    destruct data as [| b | n | f | s | l | d];
      try (exfalso; unfold earn_validate, missing_fields in H;
           cbn [Json.contains_str Json.subscript] in H;
           repeat match type of H with
                  | context [match ?x with _ => _ end] => destruct x
                  | context [if ?x then _ else _] => destruct x
                  end; discriminate).
    rewrite SecuredSpec.earn_validate_object in H.
    destruct (Json.get "amount" d) as [v|] eqn:Ha; [|discriminate].
    destruct (Json.get "description" d) as [desc|] eqn:Hd; [|discriminate].
    destruct (Json.int v) as [n| | | |] eqn:Hv; try discriminate.
    destruct (Z.leb_spec n 0) as [Hle | Hpos]; [discriminate|].
    injection H as <- <-. exists d, v.
    split; [reflexivity|]. split; [exact Ha|]. split; [exact Hv|].
    split; [exact Hpos | exact Hd].
  - intros (d & v & -> & Ha & Hv & Hpos & Hd).
    rewrite SecuredSpec.earn_validate_object, Ha, Hd, Hv.
    destruct (Z.leb_spec amount 0); [lia | reflexivity].
Qed.

(** X4.  The credit is accepted (status 200) exactly when the body is a
    JSON object whose [amount] is converted by [int()] to a positive
    number and whose [description] is present and can be stored; then
    the balance of the identity grows by that number.  Any other answer
    leaves the store as it was. *)
Theorem earn_kones_accepts_exactly :
  forall (current_user : User.t) (request : Request) (now : Z) (db : Db),
    let uid := User.auth_uid current_user in
    let r := earn_kones current_user request now db in
    (status_code (fst r) = 200 <->
       exists d v n description,
         get_json request = JObj d
         /\ Json.get "amount" d = Some v
         /\ Json.int v = Py.Ok n
         /\ 0 < n
         /\ Json.get "description" d = Some description
         /\ storable description = true)
    /\ (forall d v n,
          status_code (fst r) = 200 ->
          get_json request = JObj d ->
          Json.get "amount" d = Some v ->
          Json.int v = Py.Ok n ->
          balance_of uid (snd r) = balance_of uid db + n)
    /\ (status_code (fst r) <> 200 -> snd r = db).
Proof.
  intros current_user request now db uid r. subst r.
  split; [|split].
  - unfold earn_kones.
    destruct (earn_validate (get_json request))
      as [response | [amount description]] eqn:Hv.
    + split.
      * intros H200. now apply earn_validate_refusal in Hv.
      * intros (d & v & n & description & Hb & Ha & Hi & Hpos & Hd & _).
        assert (earn_validate (get_json request) = inr (n, description))
          as Hacc by (apply earn_validate_accepts; exists d, v; auto).
        rewrite Hacc in Hv. discriminate.
    + apply earn_validate_accepts in Hv.
      destruct Hv as (d & v & Hb & Ha & Hi & Hpos & Hd).
      destruct (SecuredSpec.credit_sequential (User.auth_uid current_user)
                  amount description now db) as [[Hst H200] | [Hst H]].
      * split; [|intros _; exact H200].
        intros _. exists d, v, amount, description. auto 10.
      * rewrite H. split; [discriminate|].
        intros (d' & v' & n & description' & Hb' & Ha' & Hi' & _ & Hd' & Hst').
        rewrite Hb in Hb'. injection Hb' as <-.
        rewrite Hd in Hd'. injection Hd' as <-. congruence.
  - intros d v n H200 Hb Ha Hi.
    rewrite (SecuredSpec.earn_kones_object current_user request now db d Hb)
      in H200 |- *.
    rewrite Ha, Hi in H200 |- *.
    destruct (Json.get "description" d) as [description|];
      [|discriminate H200].
    destruct (Z.leb_spec n 0) as [Hle | Hpos]; [discriminate H200|].
    destruct (SecuredSpec.credit_sequential (User.auth_uid current_user)
                n description now db) as [[Hst _] | [_ Hfail]].
    + exact (SecuredSpec.credit_commit_balance_of _ _ _ now db Hst).
    + rewrite Hfail in H200. discriminate.
  - apply SecuredSpec.earn_kones_frame.
Qed.

(** ** When a webhook event is recorded *)

(** X5.  The recorder answers 200 exactly when the body is a JSON object
    whose [event_type] is a non-empty string and whose [payload] is
    present with a true truth value; any other answer (400, or 500 for a
    body without [get] or an event type without [upper]) leaves the
    store as it was. *)
Theorem webhook_sync_accepts_exactly :
  forall (current_user : User.t) (request : Request) (now : Z) (db : Db),
    let r := webhook_sync current_user request now db in
    (status_code (fst r) = 200 <->
       exists d e p,
         get_json request = JObj d
         /\ Json.get "event_type" d = Some (JStr e)
         /\ e <> ""
         /\ Json.get "payload" d = Some p
         /\ Json.truthy p = true)
    /\ (status_code (fst r) <> 200 -> snd r = db).
Proof.
  intros current_user request now db r. subst r. unfold webhook_sync.
  destruct (get_json request) as [| b | n | f | s | l | d] eqn:Hb;
    cbn [Json.dict_get];
    try (split; [split; [discriminate | intros (d & e & p & H & _);
                                        discriminate]
                | reflexivity]).
  destruct (Json.get "event_type" d) as [ev|] eqn:He.
  2:{ cbn. split; [|reflexivity].
      split; [discriminate | intros (d' & e & p & [= <-] & H & _)].
      rewrite He in H. discriminate. }
  destruct (Json.get "payload" d) as [p|] eqn:Hp.
  2:{ cbn [Json.truthy_opt negb]. rewrite orb_true_r. split; [|reflexivity].
      split; [discriminate | intros (d' & e & p & [= <-] & _ & _ & H & _)].
      rewrite Hp in H. discriminate. }
  cbn [Json.truthy_opt].
  destruct (Json.truthy ev) eqn:Hte; cbn [negb orb].
  2:{ split; [|reflexivity].
      split; [discriminate|].
      intros (d' & e & p' & [= <-] & He' & Hne & _).
      rewrite He in He'. injection He' as ->. cbn in Hte.
      destruct (String.eqb_spec e ""); [contradiction | discriminate]. }
  destruct (Json.truthy p) eqn:Htp; cbn [negb].
  2:{ split; [|reflexivity].
      split; [discriminate|].
      intros (d' & e & p' & [= <-] & _ & _ & Hp' & Ht).
      rewrite Hp in Hp'. injection Hp' as <-. congruence. }
  destruct ev as [| b | n | f | e | l | d'];
    try (split; [split; [discriminate|] | reflexivity];
         intros (d'' & e' & p' & [= <-] & He' & _);
         rewrite He in He'; discriminate).
  split; [|intros H; now elim H].
  split; [intros _ | reflexivity].
  exists d, e, p. repeat split; auto.
  intros ->. discriminate.
Qed.

(** ** What the rows of a deployment look like *)

(** The users are the identities signed up, every ledger row has a
    positive amount and a known owner, every balance row has a positive
    balance and a known owner, and the keys of the ledger are distinct. *)
Definition sound (uids : list string) (db : Db) : Prop :=
  users db = users (fresh uids)
  /\ (forall e, In e (kones_ledger db) ->
                0 < KonesLedger.amount e
                /\ In (KonesLedger.user_auth_uid e) uids)
  /\ (forall r, In r (kones_balance db) ->
                0 < KonesBalance.balance r
                /\ In (KonesBalance.user_auth_uid r) uids)
  /\ NoDup (map KonesLedger.id (kones_ledger db)).

Lemma sound_fresh uids : sound uids (fresh uids).
Proof.
  split; [reflexivity|]. split; [intros e []|]. split; [intros r []|].
  constructor.
Qed.

Lemma sound_credit uids uid amount description now db :
  sound uids db -> In uid uids -> 0 < amount ->
  sound uids
    (snd (credit_commit (credit_begin uid amount description now db) db)).
Proof.
  intros (Hu & Hl & Hb & Hnd) Hin Hpos.
  destruct (SecuredSpec.credit_sequential uid amount description now db)
    as [[Hst _] | [_ H]].
  2:{ rewrite H. cbn [snd]. unfold sound. auto. }
  rewrite (SecuredSpec.credit_commit_ok uid amount description now db Hst).
  cbn [snd]. split; [exact Hu|]. cbn [kones_ledger kones_balance].
  split; [|split].
  - intros e He. apply in_app_or in He. destruct He as [He | [<- | []]].
    + now apply Hl.
    + cbn. now split.
  - intros r Hr. unfold flush_balance in Hr.
    change (balance_record _) with (query_balance uid db) in Hr.
    destruct (query_balance uid db) as [loaded|] eqn:Hq; cbn [fst] in Hr.
    + apply in_map_iff in Hr. destruct Hr as [x [<- Hx]].
      destruct (KonesBalance.id x =? KonesBalance.id loaded).
      * cbn. destruct (Hb x Hx) as [_ Hown].
        destruct (Hb loaded (proj1 (find_some _ _ Hq))) as [Hposl _].
        split; [lia | exact Hown].
      * now apply Hb.
    + apply in_app_or in Hr. destruct Hr as [Hr | [<- | []]].
      * now apply Hb.
      * cbn. split; [lia | exact Hin].
  - rewrite map_app. cbn [map ledger_entry KonesLedger.id].
    apply SecuredSpec.NoDup_snoc; [exact Hnd | apply next_id_not_in].
Qed.

Lemma sound_user uids db u :
  sound uids db -> get_user (User.auth_uid u) db = Some u ->
  In (User.auth_uid u) uids.
Proof.
  intros (Hu & _) Hget. unfold get_user in Hget.
  destruct (find_some _ _ Hget) as [Hin _]. rewrite Hu in Hin.
  cbn [fresh users] in Hin. apply in_map_iff in Hin.
  destruct Hin as [x [<- Hx]]. exact Hx.
Qed.

Lemma sound_tables uids db db' :
  users db' = users db ->
  kones_balance db' = kones_balance db ->
  kones_ledger db' = kones_ledger db ->
  sound uids db -> sound uids db'.
Proof.
  unfold sound. intros -> -> ->. tauto.
Qed.

Lemma dispatch_sound jwt_decode config uids r request now db :
  sound uids db ->
  sound uids (snd (dispatch jwt_decode config r request now db)).
Proof.
  intros H.
  destruct r; cbn [dispatch];
    unfold GET_posts, POST_earn_kones, POST_webhook_sync.
  - apply (SecuredSpec.get_user_from_auth_header_keeps _ _ (sound uids));
      [exact H|]. intros u _. exact H.
  - apply (SecuredSpec.trusted_service_required_keeps _ (sound uids));
      [exact H|].
    apply (SecuredSpec.get_user_from_auth_header_keeps _ _ (sound uids));
      [exact H|]. intros u Hu. unfold earn_kones.
    destruct (earn_validate (get_json request))
      as [response | [amount description]] eqn:Hv; [exact H|].
    apply earn_validate_accepts in Hv.
    destruct Hv as (d & v & _ & _ & _ & Hpos & _).
    apply sound_credit; [exact H | now apply (sound_user uids db u) | exact Hpos].
  - apply (SecuredSpec.trusted_service_required_keeps _ (sound uids));
      [exact H|].
    apply (SecuredSpec.get_user_from_auth_header_keeps _ _ (sound uids));
      [exact H|]. intros u _.
    destruct (SecuredSpec.webhook_sync_tables u request now db)
      as (Hu & Hb & Hl).
    exact (sound_tables uids _ _ Hu Hb Hl H).
Qed.

(** X6.  In a deployment that started from an empty store, after any
    requests: every ledger row has a positive amount (the routes cannot
    debit) and belongs to a signed-up identity, every balance row has a
    positive balance and belongs to a signed-up identity, and no two
    ledger rows share a key. *)
Theorem deployment_rows_sound :
  forall (jwt_decode : string -> string -> Z -> Jwt.decoded) (config : Config)
         (uids : list string) (calls : list Call),
    let db := serve jwt_decode config calls (fresh uids) in
    (forall e, In e (kones_ledger db) ->
               0 < KonesLedger.amount e
               /\ In (KonesLedger.user_auth_uid e) uids)
    /\ (forall r, In r (kones_balance db) ->
                  0 < KonesBalance.balance r
                  /\ In (KonesBalance.user_auth_uid r) uids)
    /\ NoDup (map KonesLedger.id (kones_ledger db)).
Proof.
  intros jwt_decode config uids calls db.
  assert (H : sound uids db).
  { subst db. generalize (sound_fresh uids). generalize (fresh uids).
    induction calls as [|c calls IH]; intros db0 H0; [exact H0|].
    cbn [serve fold_left]. apply IH. now apply dispatch_sound. }
  destruct H as (_ & Hl & Hb & Hnd). auto.
Qed.

(** ** Balances do not decrease *)

Lemma credit_balance_monotone uid uid' amount description now db :
  consistent db -> 0 < amount ->
  balance_of uid' db
  <= balance_of uid'
       (snd (credit_commit (credit_begin uid amount description now db) db)).
Proof.
  intros (Hid & _ & _) Hpos.
  destruct (SecuredSpec.credit_sequential uid amount description now db)
    as [[Hst _] | [_ H]].
  2:{ rewrite H. cbn [snd]. lia. }
  destruct (String.eqb_spec uid uid') as [<- | Hne].
  - rewrite (SecuredSpec.credit_commit_balance_of uid amount description now db
               Hst). lia.
  - rewrite (SecuredSpec.credit_commit_ok uid amount description now db Hst).
    cbn [snd]. unfold balance_of at 2, query_balance. cbn [kones_balance].
    change (fun r => String.eqb (KonesBalance.user_auth_uid r) uid')
      with (owned_by uid').
    rewrite (SecuredSpec.flush_balance_other uid uid' amount description now db);
      auto.
    unfold balance_of, query_balance. fold (owned_by uid'). lia.
Qed.

Lemma dispatch_balance_monotone jwt_decode config r request now db uid :
  consistent db ->
  balance_of uid db
  <= balance_of uid (snd (dispatch jwt_decode config r request now db)).
Proof.
  intros H.
  set (P := fun db' => balance_of uid db <= balance_of uid db').
  assert (HP : P db) by (unfold P; lia).
  destruct r; cbn [dispatch];
    unfold GET_posts, POST_earn_kones, POST_webhook_sync.
  - apply (SecuredSpec.get_user_from_auth_header_keeps _ _ P); [exact HP|].
    intros u _. exact HP.
  - apply (SecuredSpec.trusted_service_required_keeps _ P); [exact HP|].
    apply (SecuredSpec.get_user_from_auth_header_keeps _ _ P); [exact HP|].
    intros u _. unfold earn_kones.
    destruct (earn_validate (get_json request))
      as [response | [amount description]] eqn:Hv; [exact HP|].
    apply earn_validate_accepts in Hv.
    destruct Hv as (d & v & _ & _ & _ & Hpos & _).
    now apply credit_balance_monotone.
  - apply (SecuredSpec.trusted_service_required_keeps _ P); [exact HP|].
    apply (SecuredSpec.get_user_from_auth_header_keeps _ _ P); [exact HP|].
    intros u _.
    destruct (SecuredSpec.webhook_sync_tables u request now db)
      as (_ & Hb & _).
    unfold P, balance_of, query_balance. rewrite Hb. lia.
Qed.

(** X7.  In a store that satisfies the ledger invariant no sequence of
    requests lowers the balance of an identity. *)
Theorem balance_never_decreases :
  forall (jwt_decode : string -> string -> Z -> Jwt.decoded) (config : Config)
         (calls : list Call) (db : Db) (uid : string),
    consistent db ->
    balance_of uid db <= balance_of uid (serve jwt_decode config calls db).
Proof.
  intros jwt_decode config calls. induction calls as [|c calls IH];
    intros db uid H.
  - cbn. lia.
  - cbn [serve fold_left].
    pose proof (dispatch_balance_monotone jwt_decode config (route c)
                  (request c) (clock c) db uid H) as H1.
    pose proof (SecuredSpec.dispatch_keeps_consistent jwt_decode config
                  (route c) (request c) (clock c) db H) as H2.
    specialize (IH _ uid H2). unfold serve in IH. lia.
Qed.

Lemma balance_never_decreases_witness :
  balance_of "U1" Demo.db0
  <= balance_of "U1"
       (serve Demo.jwt_decode Demo.config
          [ {| route := earn;
               request := Demo.credit (JInt 50) (JStr "bonus");
               clock := Demo.t0 |} ] Demo.db0).
Proof.
  apply (balance_never_decreases Demo.jwt_decode Demo.config _ Demo.db0 "U1").
  repeat split; try constructor.
Defined.

(** ** The race on an existing balance row *)

Lemma find_by_id_updated (loaded : KonesBalance.t) f rows :
  (forall r, KonesBalance.id (f r) = KonesBalance.id r) ->
  (exists x, In x rows /\ KonesBalance.id x = KonesBalance.id loaded) ->
  exists x,
    In x rows
    /\ find (fun r => KonesBalance.id r =? KonesBalance.id loaded) (map f rows)
       = Some (f x).
Proof.
  intros Hf. induction rows as [|y rows IH]; intros [x [Hin Hid]].
  - destruct Hin.
  - cbn [map find]. rewrite Hf.
    destruct (Z.eqb_spec (KonesBalance.id y) (KonesBalance.id loaded))
      as [Heq | Hne].
    + exists y. split; [now left | reflexivity].
    + destruct Hin as [-> | Hin]; [contradiction|].
      destruct IH as [z [Hz Hfind]]; [now exists x|].
      exists z. split; [now right | exact Hfind].
Qed.

(** X8.  When two workers credit an identity that has a balance row and
    both run the balance query before either commits, both requests are
    answered 200 and both ledger rows are written, but the balance row
    ends with the balance found by the queries plus the second amount
    only: the first credit is lost from the balance. *)
Theorem race_loses_update :
  forall (uid : string) (a1 : Z) (d1 : json) (t1 : Z)
         (a2 : Z) (d2 : json) (t2 : Z) (db : Db) (loaded : KonesBalance.t),
    query_balance uid db = Some loaded ->
    storable d1 = true ->
    storable d2 = true ->
    status_code (fst (fst (race uid a1 d1 t1 a2 d2 t2 db))) = 200
    /\ status_code (snd (fst (race uid a1 d1 t1 a2 d2 t2 db))) = 200
    /\ balance_of uid (snd (race uid a1 d1 t1 a2 d2 t2 db))
       = balance_of uid db + a2
    /\ ledger_sum uid (snd (race uid a1 d1 t1 a2 d2 t2 db))
       = ledger_sum uid db + a1 + a2.
Proof.
  intros uid a1 d1 t1 a2 d2 t2 db loaded Hq Hst1 Hst2.
  unfold race.
  rewrite (SecuredSpec.credit_commit_ok uid a1 d1 t1 db Hst1).
  set (c1 := credit_begin uid a1 d1 t1 db).
  set (c2 := credit_begin uid a2 d2 t2 db).
  set (db1 := {| users := users db;
                 kones_balance := fst (flush_balance c1 (kones_balance db));
                 kones_ledger := (kones_ledger db
                                    ++ [ledger_entry c1 (kones_ledger db)])%list;
                 chronolog := chronolog db |}).
  set (upd := fun (a now : Z) (r : KonesBalance.t) =>
                if KonesBalance.id r =? KonesBalance.id loaded
                then {| KonesBalance.id := KonesBalance.id r;
                        KonesBalance.user_auth_uid := KonesBalance.user_auth_uid r;
                        KonesBalance.balance := KonesBalance.balance loaded + a;
                        KonesBalance.last_updated := now |}
                else r).
  assert (Hupd_id : forall a now r,
             KonesBalance.id (upd a now r) = KonesBalance.id r).
  { intros a now r. unfold upd.
    destruct (KonesBalance.id r =? KonesBalance.id loaded); reflexivity. }
  assert (Hupd_own : forall a now r,
             KonesBalance.user_auth_uid (upd a now r)
             = KonesBalance.user_auth_uid r).
  { intros a now r. unfold upd.
    destruct (KonesBalance.id r =? KonesBalance.id loaded); reflexivity. }
  assert (Hrows1 : kones_balance db1 = map (upd a1 t1) (kones_balance db)).
  { subst db1. cbn [kones_balance]. unfold flush_balance.
    change (balance_record c1) with (query_balance uid db). now rewrite Hq. }
  assert (Hflush2 : flush_balance c2 (kones_balance db1)
                    = (map (upd a2 t2) (kones_balance db1),
                       KonesBalance.id loaded)).
  { unfold flush_balance.
    change (balance_record c2) with (query_balance uid db). now rewrite Hq. }
  unfold credit_commit.
  change (credit_description c2) with d2. rewrite Hst2, Hflush2.
  cbn [fst snd]. unfold balance_by_id. cbn [kones_balance].
  destruct (find_by_id_updated loaded (upd a2 t2) (kones_balance db1)
              (Hupd_id a2 t2)) as [x [Hx Hfind]].
  { rewrite Hrows1. exists (upd a1 t1 loaded). split.
    - apply in_map. exact (proj1 (find_some _ _ Hq)).
    - apply Hupd_id. }
  rewrite Hfind. cbn [fst snd status_code].
  split; [reflexivity|]. split; [reflexivity|]. split.
  - unfold balance_of at 1, query_balance. cbn [kones_balance].
    fold (owned_by uid).
    rewrite (SecuredSpec.flush_update_find_owner uid (upd a2 t2))
      by apply Hupd_own.
    rewrite Hrows1.
    rewrite (SecuredSpec.flush_update_find_owner uid (upd a1 t1))
      by apply Hupd_own.
    change (find (owned_by uid) (kones_balance db)) with (query_balance uid db).
    rewrite Hq. cbn [option_map]. unfold upd at 1.
    rewrite Hupd_id, Z.eqb_refl. cbn [KonesBalance.balance].
    unfold balance_of. now rewrite Hq.
  - erewrite SecuredSpec.ledger_sum_snoc by reflexivity.
    erewrite (SecuredSpec.ledger_sum_snoc uid db db1) by reflexivity.
    cbn [ledger_entry KonesLedger.user_auth_uid KonesLedger.amount].
    change (credit_user c1) with uid. change (credit_user c2) with uid.
    rewrite String.eqb_refl. reflexivity.
Qed.

Lemma race_loses_update_witness :
  let db :=
    {| users := [Demo.U1];
       kones_balance :=
         [ {| KonesBalance.id := 1; KonesBalance.user_auth_uid := "U1";
              KonesBalance.balance := 100; KonesBalance.last_updated := 0 |} ];
       kones_ledger :=
         [ {| KonesLedger.id := 1; KonesLedger.user_auth_uid := "U1";
              KonesLedger.amount := 100; KonesLedger.description := JStr "first";
              KonesLedger.timestamp := 0 |} ];
       chronolog := [] |} in
  let out := race "U1" 50 (JStr "bonus") Demo.t0 25 (JStr "daily")
                  (Demo.t0 + 1) db in
  balance_of "U1" (snd out) = 125 /\ ledger_sum "U1" (snd out) = 175.
Proof.
  cbv zeta.
  destruct (race_loses_update "U1" 50 (JStr "bonus") Demo.t0 25 (JStr "daily")
              (Demo.t0 + 1)
              {| users := [Demo.U1];
                 kones_balance :=
                   [ {| KonesBalance.id := 1;
                        KonesBalance.user_auth_uid := "U1";
                        KonesBalance.balance := 100;
                        KonesBalance.last_updated := 0 |} ];
                 kones_ledger :=
                   [ {| KonesLedger.id := 1;
                        KonesLedger.user_auth_uid := "U1";
                        KonesLedger.amount := 100;
                        KonesLedger.description := JStr "first";
                        KonesLedger.timestamp := 0 |} ];
                 chronolog := [] |}
              {| KonesBalance.id := 1; KonesBalance.user_auth_uid := "U1";
                 KonesBalance.balance := 100; KonesBalance.last_updated := 0 |}
              eq_refl eq_refl eq_refl) as (_ & _ & Hb & Hl).
  split; [exact Hb | exact Hl].
Defined.

(** ** [int()] and [str()] *)

Lemma rstrip_cons_nonempty c s :
  Py.rstrip s <> EmptyString ->
  Py.rstrip (String c s) = String c (Py.rstrip s).
Proof.
  intros H. cbn [Py.rstrip]. destruct (Py.rstrip s); [now elim H | reflexivity].
Qed.

Lemma decimal_nonempty (d : Decimal.uint) :
  d <> Decimal.Nil -> NilEmpty.string_of_uint d <> EmptyString.
Proof.
  destruct d; intros H; try discriminate. now elim H.
Qed.

(** X9.  [int(str(n)) == n] for every integer: the decimal text that
    [str] writes (with its sign) is read back by [int] as the same
    number. *)
Theorem int_of_str_str_of_int :
  forall n : Z, Py.int_of_str (Py.str_of_int n) = Some n.
Proof.
  intros n. unfold Py.str_of_int, Z.to_int.
  destruct n as [|p|p].
  - reflexivity.
  - cbn [NilZero.string_of_int].
    pose proof (Unsigned.to_uint_nonnil p) as Hnil.
    assert (Hs : NilZero.string_of_uint (Pos.to_uint p)
                 = NilEmpty.string_of_uint (Pos.to_uint p)).
    { unfold NilZero.string_of_uint.
      destruct (Pos.to_uint p); try reflexivity. now elim Hnil. }
    rewrite Hs, (int_of_str_decimal _ Hnil). unfold Z.of_uint.
    now rewrite Unsigned.of_to.
  - cbn [NilZero.string_of_int].
    pose proof (Unsigned.to_uint_nonnil p) as Hnil.
    assert (Hs : NilZero.string_of_uint (Pos.to_uint p)
                 = NilEmpty.string_of_uint (Pos.to_uint p)).
    { unfold NilZero.string_of_uint.
      destruct (Pos.to_uint p); try reflexivity. now elim Hnil. }
    rewrite Hs. unfold Py.int_of_str, Py.strip.
    change (Py.lstrip (String "-" (NilEmpty.string_of_uint (Pos.to_uint p))))
      with (String "-" (NilEmpty.string_of_uint (Pos.to_uint p))).
    rewrite rstrip_cons_nonempty
      by (rewrite rstrip_decimal; now apply decimal_nonempty).
    rewrite rstrip_decimal, (int_unsigned_decimal _ Hnil).
    unfold Z.of_uint. rewrite Unsigned.of_to. reflexivity.
Qed.

(** ** Amounts that are not JSON integers *)

(** X10.  Whatever JSON value the amount is, if [int()] converts it to
    [n] (a string with sign, padding or underscores, a boolean, a
    number with a fraction), the credit route answers and acts as on
    the same request with the integer [n] as amount. *)
Theorem earn_kones_converts_amount :
  forall (jwt_decode : string -> string -> Z -> Jwt.decoded) (config : Config)
         (auth key : option string) (rest : list (string * json))
         (now : Z) (db : Db) (v : json) (n : Z),
    Json.int v = Py.Ok n ->
    POST_earn_kones jwt_decode config
      {| Authorization := auth; X_Api_Key := key;
         get_json := JObj (("amount", v) :: rest) |} now db
    = POST_earn_kones jwt_decode config
        {| Authorization := auth; X_Api_Key := key;
           get_json := JObj (("amount", JInt n) :: rest) |} now db.
Proof.
  intros jwt_decode config auth key rest now db v n Hv.
  unfold POST_earn_kones.
  apply SecuredSpec.trusted_service_required_ext; [reflexivity|].
  apply SecuredSpec.get_user_from_auth_header_ext; [reflexivity|].
  intros u.
  rewrite (SecuredSpec.earn_kones_object u
             {| Authorization := auth; X_Api_Key := key;
                get_json := JObj (("amount", v) :: rest) |} now db
             (("amount", v) :: rest) eq_refl).
  rewrite (SecuredSpec.earn_kones_object u
             {| Authorization := auth; X_Api_Key := key;
                get_json := JObj (("amount", JInt n) :: rest) |} now db
             (("amount", JInt n) :: rest) eq_refl).
  cbn [Json.get String.eqb Ascii.eqb Bool.eqb]. rewrite Hv. reflexivity.
Qed.

Lemma earn_kones_converts_amount_witness :
  POST_earn_kones Demo.jwt_decode Demo.config
    (Demo.credit (JStr " +1_000 ") (JStr "bonus")) Demo.t0 Demo.db0
  = POST_earn_kones Demo.jwt_decode Demo.config
      (Demo.credit (JInt 1000) (JStr "bonus")) Demo.t0 Demo.db0.
Proof.
  exact (earn_kones_converts_amount Demo.jwt_decode Demo.config
           (Some "Bearer u1.live") (Some "test-api-key")
           [("description", JStr "bonus")] Demo.t0 Demo.db0
           (JStr " +1_000 ") 1000 eq_refl).
Defined.

(** X11.  A finite number with a fraction is truncated toward zero by
    [int()]: for [m * 2^e] with [e < 0] the result [t] satisfies
    [t * 2^(-e) <= m < (t + 1) * 2^(-e)], the negative number gives the
    opposite, and for [e >= 0] the value is exact.  So an amount whose
    absolute value is below 1 is refused as not positive, with the
    store unchanged. *)
Theorem fractional_amount_truncated :
  forall (m : positive) (e : Z),
    Json.trunc_float true m e = - Json.trunc_float false m e
    /\ (0 <= e -> Json.trunc_float false m e = Z.pos m * 2 ^ e)
    /\ (e < 0 ->
        Json.trunc_float false m e * 2 ^ (- e) <= Z.pos m
        /\ Z.pos m < (Json.trunc_float false m e + 1) * 2 ^ (- e))
    /\ (e < 0 -> Z.pos m < 2 ^ (- e) ->
        forall (s : bool) (current_user : User.t) (auth key : option string)
               (rest : list (string * json)) (description : json)
               (now : Z) (db : Db),
          Json.get "description" rest = Some description ->
          earn_kones current_user
            {| Authorization := auth; X_Api_Key := key;
               get_json :=
                 JObj (("amount", JFloat (S754_finite s m e)) :: rest) |}
            now db
          = (msg "Amount must be positive." 400, db)).
Proof.
  intros m e.
  assert (Hneg : Json.trunc_float true m e = - Json.trunc_float false m e)
    by reflexivity.
  assert (Hbound : e < 0 ->
                   Json.trunc_float false m e * 2 ^ (- e) <= Z.pos m
                   /\ Z.pos m < (Json.trunc_float false m e + 1) * 2 ^ (- e)).
  { intros He. unfold Json.trunc_float.
    destruct (Z.leb_spec 0 e) as [Hle | _]; [lia|].
    assert (Hp : 0 < 2 ^ (- e)) by (apply Z.pow_pos_nonneg; lia).
    pose proof (Z.div_mod (Z.pos m) (2 ^ (- e))) as Hdm.
    pose proof (Z.mod_pos_bound (Z.pos m) (2 ^ (- e)) Hp) as Hmod.
    specialize (Hdm ltac:(lia)). nia. }
  split; [exact Hneg|]. split; [|split; [exact Hbound|]].
  - intros He. unfold Json.trunc_float.
    destruct (Z.leb_spec 0 e); [reflexivity | lia].
  - intros He Hsmall s current_user auth key rest description now db Hd.
    rewrite (SecuredSpec.earn_kones_object current_user
               {| Authorization := auth; X_Api_Key := key;
                  get_json :=
                    JObj (("amount", JFloat (S754_finite s m e)) :: rest) |}
               now db
               (("amount", JFloat (S754_finite s m e)) :: rest) eq_refl).
    cbn [Json.get String.eqb Ascii.eqb Bool.eqb Json.int]. rewrite Hd.
    assert (Hzero : Json.trunc_float false m e = 0).
    { destruct (Hbound He) as [H1 H2].
      assert (Hp : 0 < 2 ^ (- e)) by (apply Z.pow_pos_nonneg; lia).
      assert (0 <= Json.trunc_float false m e).
      { unfold Json.trunc_float. destruct (Z.leb_spec 0 e); [lia|].
        apply Z.div_pos; lia. }
      nia. }
    assert (Ht : Json.trunc_float s m e = 0).
    { destruct s; [rewrite Hneg|]; rewrite Hzero; reflexivity. }
    rewrite Ht. reflexivity.
Qed.

Lemma fractional_amount_truncated_witness :
  Json.trunc_float false 5 (-1) = 2
  /\ earn_kones Demo.U1
       (Demo.credit (JFloat (S754_finite false 1 (-1))) (JStr "half"))
       Demo.t0 Demo.db0
     = (msg "Amount must be positive." 400, Demo.db0).
Proof.
  destruct (fractional_amount_truncated 1 (-1)) as (_ & _ & _ & Hsmall).
  destruct (fractional_amount_truncated 5 (-1)) as (_ & _ & Hb & _).
  split.
  - specialize (Hb eq_refl). cbn in Hb |- *. reflexivity.
  - exact (Hsmall eq_refl eq_refl false Demo.U1 (Some "Bearer u1.live")
             (Some "test-api-key") [("description", JStr "half")]
             (JStr "half") Demo.t0 Demo.db0 eq_refl).
Defined.

(** ** The audit tag *)

(** A character that a tag may hold: neither a space nor a lower-case
    ASCII letter. *)
Definition tag_char (c : ascii) : bool :=
  let n := nat_of_ascii c in
  (negb (Ascii.eqb c " "%char) && negb (Nat.leb 97 n && Nat.leb n 122))%bool.

Lemma normalised_char (c : ascii) :
  let c' := if Ascii.eqb (Py.upper_char c) " "%char
            then "_"%char else Py.upper_char c in
  tag_char c' = true
  /\ (tag_char c = true -> c' = c).
Proof.
  destruct c as [[] [] [] [] [] [] [] []]; vm_compute; split;
    try reflexivity; discriminate.
Qed.

Lemma normalised_string (e : string) :
  forallb tag_char
    (list_ascii_of_string (Py.replace_char " " "_" (Py.upper e))) = true.
Proof.
  induction e as [|c e IH]; cbn [Py.upper Py.replace_char list_ascii_of_string
    forallb]; [reflexivity|].
  rewrite IH. now rewrite (proj1 (normalised_char c)).
Qed.

Lemma normalised_fixed (body : string) :
  forallb tag_char (list_ascii_of_string body) = true ->
  Py.replace_char " " "_" (Py.upper body) = body.
Proof.
  induction body as [|c body IH]; cbn [Py.upper Py.replace_char
    list_ascii_of_string forallb]; [reflexivity|].
  intros H. apply andb_true_iff in H. destruct H as [Hc Hrest].
  rewrite (IH Hrest). f_equal. exact (proj2 (normalised_char c) Hc).
Qed.

(** X12.  Every audit row that the recorder writes carries a tag in
    normal form: ["WEBHOOK_"] followed by the event type of the request
    in upper case with every space replaced by an underscore, so that
    the text after the prefix has no space and no lower-case ASCII
    letter, and normalising it again gives the same text. *)
Theorem webhook_tag_normal_form :
  forall (current_user : User.t) (request : Request) (now : Z) (db : Db)
         (row : Chronolog.t),
    In row (chronolog (snd (webhook_sync current_user request now db))) ->
    ~ In row (chronolog db) ->
    exists e body : string,
      Json.dict_get "event_type" (get_json request) = Py.Ok (Some (JStr e))
      /\ Chronolog.event_type row = "WEBHOOK_" ++ body
      /\ body = Py.replace_char " " "_" (Py.upper e)
      /\ forallb tag_char (list_ascii_of_string body) = true
      /\ Py.replace_char " " "_" (Py.upper body) = body.
Proof.
  intros current_user request now db row Hin Hnew.
  unfold webhook_sync in Hin.
  destruct (Json.dict_get "event_type" (get_json request)) as [ev| | | |];
    try contradiction.
  destruct (Json.dict_get "payload" (get_json request)) as [p| | | |];
    try contradiction.
  destruct (_ || _)%bool; [contradiction|].
  destruct ev as [[| | | | e | |]|]; try contradiction.
  destruct p as [p|]; [|contradiction].
  cbn [snd chronolog] in Hin. apply in_app_or in Hin.
  destruct Hin as [Hin | [<- | []]]; [contradiction|].
  pose proof (normalised_string e) as Hchars.
  exists e, (Py.replace_char " " "_" (Py.upper e)).
  split; [reflexivity|]. split; [reflexivity|]. split; [reflexivity|].
  split; [exact Hchars | now apply normalised_fixed].
Qed.

Lemma webhook_tag_normal_form_witness :
  exists e body : string,
    e = "purchase complete" /\ body = "PURCHASE_COMPLETE"
    /\ forallb tag_char (list_ascii_of_string body) = true.
Proof.
  destruct (webhook_tag_normal_form Demo.U1
              (Demo.post (JObj [("event_type", JStr "purchase complete");
                                ("payload", JObj [("order_id", JStr "AX123")])]))
              Demo.t0 Demo.db0
              {| Chronolog.id := 1;
                 Chronolog.user_auth_uid := "U1";
                 Chronolog.event_type := "WEBHOOK_PURCHASE_COMPLETE";
                 Chronolog.payload := JObj [("order_id", JStr "AX123")];
                 Chronolog.timestamp := Demo.t0 |})
    as (e & body & He & Htag & _ & Hchars & _).
  - left. reflexivity.
  - intros [].
  - exists e, body. injection He as <-. injection Htag as <-.
    split; [reflexivity|]. split; [reflexivity | exact Hchars].
Defined.

(** ** The configuration of [config.py] *)

(** X13.  With the configuration of [config.py] a request without the
    [X-Api-Key] header never passes the shared-secret gate, whatever the
    environment holds: a key is always configured, the default one when
    the variable is not set. *)
Theorem missing_api_key_always_refused :
  forall (environ : ConfigPy.Environ) (f : View) (request : Request)
         (now : Z) (db : Db),
    X_Api_Key request = None ->
    trusted_service_required (ConfigPy.Config environ) f request now db
    = (msg "Invalid API Key for trusted service." 403, db).
Proof.
  intros environ f request now db Hkey.
  unfold trusted_service_required. rewrite Hkey. reflexivity.
Qed.

Lemma missing_api_key_always_refused_witness :
  POST_earn_kones Demo.jwt_decode (ConfigPy.Config (fun _ => None))
    {| Authorization := Some "Bearer u1.live"; X_Api_Key := None;
       get_json := JObj [] |} Demo.t0 Demo.db0
  = (msg "Invalid API Key for trusted service." 403, Demo.db0).
Proof.
  unfold POST_earn_kones.
  exact (missing_api_key_always_refused (fun _ => None) _
           {| Authorization := Some "Bearer u1.live"; X_Api_Key := None;
              get_json := JObj [] |} Demo.t0 Demo.db0 eq_refl).
Defined.

(** X14.  With the configuration of [config.py] the bearer gate lacks a
    signing secret, and answers 500 to a well-formed header, exactly
    when the variable [SUPABASE_JWT_SECRET] is set to the empty string;
    when the variable is not set the secret is the default
    ["test-jwt-secret"], and the key of the trusted service is
    ["test-api-key"] when its variable is not set. *)
Theorem signing_secret_of_environment :
  forall environ : ConfigPy.Environ,
    (signing_secret (ConfigPy.Config environ) = None
     <-> environ "SUPABASE_JWT_SECRET" = Some "")
    /\ (environ "SUPABASE_JWT_SECRET" = None ->
        signing_secret (ConfigPy.Config environ) = Some "test-jwt-secret")
    /\ (environ "TRUSTED_SERVICE_API_KEY" = None ->
        TRUSTED_SERVICE_API_KEY (ConfigPy.Config environ)
        = Some "test-api-key")
    /\ (forall (jwt_decode : string -> string -> Z -> Jwt.decoded)
               (f : User.t -> View) (request : Request) (now : Z) (db : Db)
               (jwt : string),
          bearer_token request = Some jwt ->
          environ "SUPABASE_JWT_SECRET" = Some "" ->
          get_user_from_auth_header jwt_decode (ConfigPy.Config environ) f
            request now db
          = (msg "Server misconfiguration." 500, db)).
Proof.
  intros environ.
  unfold signing_secret, ConfigPy.Config, ConfigPy.environ_get.
  cbn [SUPABASE_JWT_SECRET TRUSTED_SERVICE_API_KEY].
  split; [|split; [|split]].
  - destruct (environ "SUPABASE_JWT_SECRET") as [v|].
    + destruct (String.eqb_spec v "") as [-> | Hne]; split;
        try reflexivity; try discriminate.
      intros [= ->]. now elim Hne.
    + cbn. split; discriminate.
  - intros ->. reflexivity.
  - intros ->. reflexivity.
  - intros jwt_decode f request now db jwt Hb Henv.
    rewrite SecuredSpec.get_user_from_auth_header_cases, Hb.
    unfold signing_secret. cbn [SUPABASE_JWT_SECRET]. rewrite Henv.
    reflexivity.
Qed.

(** ** The history views are sorted and complete *)

(** X15.  [get_kones_ledger] answers 200 with one item for each ledger
    row of the user and for no other row, each row once, the items
    ordered by the timestamp of their rows, newest first (every item is
    at least as new as all items after it); each item carries the
    timestamp, type, amount and description of its row, and the store
    is left as it was. *)
Theorem ledger_history_sorted_complete :
  forall (user : TestApp.User.t) (request : TestApp.Request) (db : TestApp.Db),
    exists entries : list TestApp.KonesLedger.t,
      TestApp.get_kones_ledger user request db
      = ({| TestApp.body :=
              JArr (map (fun entry =>
                           JObj [("timestamp",
                                  JInt (TestApp.KonesLedger.timestamp entry));
                                 ("type",
                                  JStr (TestApp.KonesLedger.transaction_type
                                          entry));
                                 ("amount",
                                  JInt (TestApp.KonesLedger.amount entry));
                                 ("description",
                                  match TestApp.KonesLedger.description entry with
                                  | Some d => JStr d
                                  | None => JNull
                                  end)])
                        entries);
            TestApp.status := 200 |}, db)
      /\ Permutation entries
           (filter (fun e => TestApp.KonesLedger.user_id e =? TestApp.User.id user)
                   (TestApp.kones_ledger db))
      /\ StronglySorted
           (fun a b => TestApp.KonesLedger.timestamp b
                       <= TestApp.KonesLedger.timestamp a)
           entries.
Proof.
  intros user request db. exists (TestApp.ledger_entries user db).
  split; [reflexivity|]. unfold TestApp.ledger_entries.
  split; [apply order_by_desc_perm | apply order_by_desc_sorted].
Qed.

(** X16.  [get_chrono_log] answers 200 with one item for each activity
    row of the user and for no other row, each row once, the items
    ordered by the timestamp of their rows, oldest first; each item
    carries the timestamp, activity type and content of its row, and
    the store is left as it was. *)
Theorem chrono_log_sorted_complete :
  forall (user : TestApp.User.t) (request : Session.Request) (now : Z)
         (today : string) (store : Session.Store),
    exists entries : list Session.ChronoLog.t,
      Session.get_chrono_log user request now today store
      = Some (Session.jsonify
                (JArr (map (fun log =>
                              JObj [("timestamp",
                                     JInt (Session.ChronoLog.timestamp log));
                                    ("activity",
                                     JStr (Session.ChronoLog.activity_type log));
                                    ("details", Session.ChronoLog.content log)])
                           entries)) 200,
              store)
      /\ Permutation entries
           (filter (fun log =>
                      Session.ChronoLog.user_id log =? TestApp.User.id user)
                   (Session.chrono_log store))
      /\ StronglySorted
           (fun a b => Session.ChronoLog.timestamp a
                       <= Session.ChronoLog.timestamp b)
           entries.
Proof.
  intros user request now today store.
  exists (Session.chrono_log_entries user store).
  split; [reflexivity|]. unfold Session.chrono_log_entries.
  split; [apply order_by_asc_perm | apply order_by_asc_sorted].
Qed.

(** ** Registration and login *)

(** X17.  [register] always answers, and a request that it served
    once changes nothing when it is served again, at any later time: a
    roaming id is registered at most once. *)
Theorem register_idempotent :
  forall (request : Session.Request) (now1 now2 : Z) (today1 today2 : string)
         (store : Session.Store),
    (exists r1 store1,
        Session.register request now1 today1 store = Some (r1, store1))
    /\ (forall r1 store1,
          Session.register request now1 today1 store = Some (r1, store1) ->
          exists r2,
            Session.register request now2 today2 store1 = Some (r2, store1)).
Proof.
  intros request now1 now2 today1 today2 store.
  split.
  - rewrite SessionSpec.register_cases.
    destruct (SessionSpec.roaming_id_of request) as [roaming_id|];
      [|do 2 eexists; reflexivity].
    destruct (negb _); [do 2 eexists; reflexivity|].
    destruct (Session.user_by_roaming_id _ _); [do 2 eexists; reflexivity|].
    cbv zeta. destruct (TestApp.get_balance _ _); do 2 eexists; reflexivity.
  - intros r1 store1 H. rewrite SessionSpec.register_cases in H.
    rewrite SessionSpec.register_cases.
    destruct (SessionSpec.roaming_id_of request) as [roaming_id|].
    2:{ injection H as _ <-. eexists. reflexivity. }
    destruct (negb (Nat.eqb (List.length (Py.split_ws roaming_id)) 2)) eqn:Hw.
    { injection H as _ <-. eexists. reflexivity. }
    destruct (Session.user_by_roaming_id roaming_id (Session.tables store))
      as [existing|] eqn:Hu.
    { injection H as _ <-. rewrite Hu. eexists. reflexivity. }
    cbv zeta in H.
    destruct (TestApp.get_balance _ _) in H; injection H as _ <-;
      unfold Session.user_by_roaming_id at 1;
      cbn [Session.tables Session.with_tables TestApp.users];
      rewrite (SessionSpec.user_by_roaming_id_new roaming_id
                 (Session.tables store)
                 {| TestApp.User.id :=
                      Sql.next_id TestApp.User.id
                        (TestApp.users (Session.tables store));
                    TestApp.User.roaming_id := roaming_id;
                    TestApp.User.registration_date := now1 |} Hu eq_refl);
      eexists; reflexivity.
Qed.

(** ** The invariant of the session store *)

Module SessionInv.
Import Session.

Lemma well_formed_empty : well_formed empty.
Proof.
  unfold well_formed, empty. cbn.
  repeat split; try constructor; try tauto; intros ? [].
Qed.

Lemma well_formed_same store store' :
  tables store' = tables store ->
  reward_rule store' = reward_rule store ->
  well_formed store -> well_formed store'.
Proof.
  unfold well_formed. intros -> ->. tauto.
Qed.

Lemma not_in_map_find {A : Type} (key : A -> string) (k : string) (l : list A) :
  find (fun x => String.eqb (key x) k) l = None -> ~ In k (map key l).
Proof.
  intros Hnone Hin. apply in_map_iff in Hin. destruct Hin as [x [Hk Hx]].
  pose proof (proj1 (find_none_iff _ _) Hnone x Hx) as H. cbn in H.
  rewrite Hk, String.eqb_refl in H. discriminate.
Qed.

Lemma balance_row_found i db :
  In i (map TestApp.KonesBalance.user_id (TestApp.kones_balance db)) ->
  TestApp.get_balance i db <> None.
Proof.
  intros Hin Hnone. apply in_map_iff in Hin. destruct Hin as [r [Hi Hr]].
  unfold TestApp.get_balance in Hnone.
  pose proof (proj1 (find_none_iff _ _) Hnone r Hr) as H. cbn in H.
  rewrite Hi, Z.eqb_refl in H. discriminate.
Qed.

Lemma balance_row_absent i db :
  ~ In i (map TestApp.KonesBalance.user_id (TestApp.kones_balance db)) ->
  TestApp.get_balance i db = None.
Proof.
  intros Hnot. unfold TestApp.get_balance. apply find_none_iff.
  intros r Hr. apply Z.eqb_neq. intros Heq. apply Hnot.
  rewrite <- Heq. now apply in_map.
Qed.

(** In a well-formed store the second commit of a registration finds no
    balance row for the new user. *)
Lemma register_no_conflict store :
  well_formed store ->
  ~ In (Sql.next_id TestApp.User.id (TestApp.users (tables store)))
       (map TestApp.KonesBalance.user_id (TestApp.kones_balance (tables store))).
Proof.
  intros (_ & _ & _ & _ & Hbal & _) Hin. apply Hbal in Hin.
  exact (next_id_not_in _ _ Hin).
Qed.

Lemma register_well_formed request now today store r store' :
  well_formed store ->
  register request now today store = Some (r, store') ->
  well_formed store'
  /\ (r = InternalServerError -> SessionSpec.roaming_id_of request = None).
Proof.
  intros Hwf H. rewrite SessionSpec.register_cases in H.
  destruct (SessionSpec.roaming_id_of request) as [roaming_id|].
  2:{ injection H as <- <-. now split. }
  destruct (negb (Nat.eqb (List.length (Py.split_ws roaming_id)) 2)) eqn:Hw.
  { injection H as <- <-. split; [exact Hwf | discriminate]. }
  destruct (user_by_roaming_id roaming_id (tables store)) as [existing|] eqn:Hu.
  { injection H as <- <-. split; [exact Hwf | discriminate]. }
  cbv zeta in H.
  pose proof (register_no_conflict store Hwf) as Hfresh.
  rewrite (balance_row_absent _
             {| TestApp.users := _; TestApp.login_records := _;
                TestApp.kones_balance := TestApp.kones_balance (tables store);
                TestApp.kones_ledger := _ |} Hfresh) in H.
  injection H as <- <-. split; [|discriminate].
  destruct Hwf as (Hid & Hrid & Hwords & Hbid & Hbal & Hrec & Hrule & Hname).
  unfold well_formed.
  cbn [tables reward_rule TestApp.users TestApp.kones_balance
       TestApp.login_records].
  rewrite !map_app. cbn [map TestApp.User.id TestApp.User.roaming_id
                         TestApp.KonesBalance.user_id].
  split; [apply SecuredSpec.NoDup_snoc; [exact Hid | apply next_id_not_in]|].
  split; [apply SecuredSpec.NoDup_snoc;
          [exact Hrid | now apply not_in_map_find]|].
  split.
  { intros u Hin. apply in_app_or in Hin. destruct Hin as [Hin | [<- | []]].
    - now apply Hwords.
    - cbn. apply negb_false_iff in Hw. now apply Nat.eqb_eq in Hw. }
  split; [apply SecuredSpec.NoDup_snoc; [exact Hbid | exact Hfresh]|].
  split.
  { intros i. rewrite !in_app_iff. rewrite Hbal. tauto. }
  split; [|split; assumption].
  intros rec Hin. apply in_or_app. left. now apply Hrec.
Qed.

Lemma login_well_formed request now today store r store' :
  well_formed store ->
  login request now today store = Some (r, store') ->
  well_formed store'.
Proof.
  intros Hwf H. unfold login in H.
  destruct (login_missing (get_json request)) as [[|]| | | |];
    try (injection H as _ <-; exact Hwf).
  destruct (Json.subscript "roaming_id" (get_json request))
    as [[| b | n | f | rid | l | d]| | | |];
    destruct (Json.subscript "username" (get_json request))
      as [username| | | |];
    try discriminate; try (injection H as _ <-; exact Hwf).
  destruct (user_by_roaming_id rid (tables store)) as [user|] eqn:Hu;
    [|injection H as _ <-; exact Hwf].
  destruct (username_matches username (get_daily_username today rid));
    [|injection H as _ <-; exact Hwf].
  destruct (get_daily_username today rid) as [name|];
    [|injection H as _ <-; exact Hwf].
  injection H as _ <-.
  destruct Hwf as (Hid & Hrid & Hwords & Hbid & Hbal & Hrec & Hrule & Hname).
  unfold well_formed.
  cbn [tables reward_rule TestApp.users TestApp.kones_balance
       TestApp.login_records].
  repeat (split; [assumption|]). split; [|split; assumption].
  intros rec Hin. apply in_app_or in Hin. destruct Hin as [Hin | [<- | []]].
  - now apply Hrec.
  - cbn. apply in_map. unfold user_by_roaming_id in Hu.
    exact (proj1 (find_some _ _ Hu)).
Qed.

Lemma set_reward_rule_well_formed user request now today store r store' :
  well_formed store ->
  set_reward_rule user request now today store = Some (r, store') ->
  well_formed store'.
Proof.
  intros Hwf H. unfold set_reward_rule in H.
  destruct (get_json request) as [| b | n | f | s | l | d];
    try (injection H as _ <-; exact Hwf).
  destruct (text_field (Json.get "rule_name" d)) as [rule_name|];
    [|discriminate].
  destruct (integer_field (Json.get "kone_amount" d)) as [kone_amount|];
    [|discriminate].
  destruct (text_field (Json.get "description" d)) as [description|];
    [|discriminate].
  destruct (boolean_field (Json.get "is_active" d)) as [is_active|];
    [|discriminate].
  destruct rule_name as [name|]; [|injection H as _ <-; exact Hwf].
  destruct kone_amount as [amount|]; [|injection H as _ <-; exact Hwf].
  injection H as _ <-.
  destruct Hwf as (Hid & Hrid & Hwords & Hbid & Hbal & Hrec & Hrule & Hname).
  unfold well_formed. cbn [tables reward_rule].
  repeat (split; [assumption|]).
  destruct (rule_by_name name (reward_rule store)) as [rule|] eqn:Hfind.
  - rewrite !map_map. split.
    + erewrite map_ext; [exact Hrule|]. intros x.
      destruct (RewardRule.id x =? RewardRule.id rule); reflexivity.
    + erewrite map_ext; [exact Hname|]. intros x.
      destruct (RewardRule.id x =? RewardRule.id rule); reflexivity.
  - rewrite !map_app. cbn [map RewardRule.id RewardRule.rule_name]. split.
    + apply SecuredSpec.NoDup_snoc; [exact Hrule | apply next_id_not_in].
    + apply SecuredSpec.NoDup_snoc; [exact Hname|].
      now apply not_in_map_find.
Qed.

(** In a well-formed store the balance read finds the row of the user
    and writes nothing. *)
Lemma balance_read_pure user request store :
  well_formed store ->
  TestApp.get_user (TestApp.User.id user) (tables store) = Some user ->
  exists row,
    TestApp.get_balance (TestApp.User.id user) (tables store) = Some row
    /\ TestApp.get_kones_balance user request (tables store)
       = ({| TestApp.body :=
               JObj [("user_id", JInt (TestApp.User.id user));
                     ("kone_balance", JInt (TestApp.KonesBalance.balance row))];
             TestApp.status := 200 |}, tables store).
Proof.
  intros (_ & _ & _ & _ & Hbal & _) Hu.
  assert (Hin : In (TestApp.User.id user)
                   (map TestApp.User.id (TestApp.users (tables store)))).
  { apply in_map. unfold TestApp.get_user in Hu.
    exact (proj1 (find_some _ _ Hu)). }
  apply Hbal in Hin. apply balance_row_found in Hin.
  unfold TestApp.get_kones_balance.
  destruct (TestApp.get_balance (TestApp.User.id user) (tables store))
    as [row|]; [|now elim Hin].
  exists row. split; reflexivity.
Qed.

Lemma with_tables_same store : with_tables store (tables store) = store.
Proof. destruct store; reflexivity. Qed.

Lemma dispatch_well_formed route request now today store r store' :
  well_formed store ->
  dispatch route request now today store = Some (r, store') ->
  well_formed store'.
Proof.
  intros Hwf.
  set (Q := fun out : option (Response * Store) =>
              forall r store', out = Some (r, store') -> well_formed store').
  assert (Hearly : forall text st, st <> 200 -> Q (Some (error text st, store))).
  { intros text st _ r0 s0 [= _ <-]. exact Hwf. }
  revert r store'. change (Q (dispatch route request now today store)).
  destruct route; cbn [dispatch].
  - intros r0 s0 H. exact (proj1 (register_well_formed _ _ _ _ _ _ Hwf H)).
  - intros r0 s0 H. exact (login_well_formed _ _ _ _ _ _ Hwf H).
  - apply SessionSpec.session_gate_result; [exact Hearly|].
    intros u _ r0 s0 H. unfold get_user_profile in H.
    destruct (Py.split_ws _); injection H as _ <-; exact Hwf.
  - apply SessionSpec.session_gate_result; [exact Hearly|].
    intros u _ r0 s0 [= _ <-]. exact Hwf.
  - apply SessionSpec.session_gate_result; [exact Hearly|].
    intros u Hu r0 s0 H. unfold lift in H.
    destruct (balance_read_pure u
                {| TestApp.X_Auth_Username := X_Auth_Username request |}
                store Hwf Hu) as [row [_ Hread]].
    rewrite Hread in H. injection H as _ <-.
    now rewrite with_tables_same.
  - apply SessionSpec.session_gate_result; [exact Hearly|].
    intros u _ r0 s0 H. unfold lift in H. cbn in H.
    injection H as _ <-. now rewrite with_tables_same.
  - apply SessionSpec.session_gate_result; [exact Hearly|].
    intros u _ r0 s0 H.
    exact (set_reward_rule_well_formed _ _ _ _ _ _ _ Hwf H).
Qed.

Lemma serve_well_formed calls store store' :
  well_formed store -> serve calls store = Some store' -> well_formed store'.
Proof.
  revert store. induction calls as [|c calls IH]; intros store Hwf H.
  - injection H as <-. exact Hwf.
  - cbn [serve] in H.
    destruct (dispatch (route c) (request c) (clock c) (today c) store)
      as [[r s1]|] eqn:Hd; [|discriminate].
    apply (IH s1); [|exact H].
    exact (dispatch_well_formed _ _ _ _ _ _ _ Hwf Hd).
Qed.

End SessionInv.

(** X18.  Every store that the session application reaches from the
    empty store is well formed: user keys and roaming ids are distinct,
    every roaming id has exactly two words, every user has exactly one
    balance row and every balance row belongs to a user, every login
    record belongs to a user, and rule keys and rule names are
    distinct. *)
Theorem session_store_well_formed :
  forall (calls : list Session.Call) (store : Session.Store),
    Session.serve calls Session.empty = Some store ->
    Session.well_formed store.
Proof.
  intros calls store H.
  exact (SessionInv.serve_well_formed calls Session.empty store
           SessionInv.well_formed_empty H).
Qed.

Lemma session_store_well_formed_witness :
  exists store,
    Session.serve [DemoSession.register; DemoSession.login] Session.empty
    = Some store
    /\ Session.well_formed store
    /\ map TestApp.User.roaming_id (TestApp.users (Session.tables store))
       = ["blue  wave"]
    /\ map TestApp.LoginRecord.login_username
         (TestApp.login_records (Session.tables store))
       = ["blue-2025-01-01-wave"].
Proof.
  eexists. split; [reflexivity|]. split.
  - apply (session_store_well_formed
             [DemoSession.register; DemoSession.login]). reflexivity.
  - split; reflexivity.
Defined.

(** X19.  In a well-formed store [register] never fails on a roaming id
    given as a string: it answers 400, leaving the store as it was, when
    the stripped id does not have exactly two words, and otherwise 202
    with one fixed message, the same whether the id was registered
    before or is registered now; an id registered before leaves the
    store as it was. *)
Theorem register_answers :
  forall (request : Session.Request) (now : Z) (today : string)
         (store : Session.Store) (roaming_id : string),
    Session.well_formed store ->
    SessionSpec.roaming_id_of request = Some roaming_id ->
    exists store',
      Session.register request now today store
      = Some (if Nat.eqb (List.length (Py.split_ws roaming_id)) 2
              then Session.message "Registration request processed." 202
              else Session.error
                     "Registration requires a 'roaming_id' of exactly two words."
                     400,
              store')
      /\ (List.length (Py.split_ws roaming_id) <> 2%nat -> store' = store)
      /\ (Session.user_by_roaming_id roaming_id (Session.tables store) <> None ->
          store' = store)
      /\ (List.length (Py.split_ws roaming_id) = 2%nat ->
          Session.user_by_roaming_id roaming_id (Session.tables store')
          <> None).
Proof.
  intros request now today store roaming_id Hwf Hrid.
  rewrite SessionSpec.register_cases, Hrid.
  destruct (Nat.eqb_spec (List.length (Py.split_ws roaming_id)) 2)
    as [Hw | Hw]; cbn [negb].
  2:{ exists store. split; [reflexivity|]. split; [reflexivity|].
      split; [reflexivity | intros H; now elim Hw]. }
  destruct (Session.user_by_roaming_id roaming_id (Session.tables store))
    as [existing|] eqn:Hu.
  { exists store. split; [reflexivity|]. split; [reflexivity|].
    split; [reflexivity|]. intros _. now rewrite Hu. }
  cbv zeta.
  pose proof (SessionInv.register_no_conflict store Hwf) as Hfresh.
  rewrite (SessionInv.balance_row_absent _
             {| TestApp.users := _; TestApp.login_records := _;
                TestApp.kones_balance :=
                  TestApp.kones_balance (Session.tables store);
                TestApp.kones_ledger := _ |} Hfresh).
  eexists. split; [reflexivity|].
  split; [intros H; now elim H|]. split; [intros H; now elim H|].
  intros _. unfold Session.user_by_roaming_id.
  cbn [Session.tables TestApp.users].
  rewrite (SessionSpec.user_by_roaming_id_new roaming_id
             (Session.tables store)
             {| TestApp.User.id :=
                  Sql.next_id TestApp.User.id
                    (TestApp.users (Session.tables store));
                TestApp.User.roaming_id := roaming_id;
                TestApp.User.registration_date := now |} Hu eq_refl).
  discriminate.
Qed.

Lemma register_answers_witness :
  exists store',
    Session.register (DemoSession.post (JObj [("roaming_id", JStr "solo")]))
      100 DemoSession.day Session.empty
    = Some (Session.error
              "Registration requires a 'roaming_id' of exactly two words." 400,
            store')
    /\ store' = Session.empty.
Proof.
  destruct (register_answers
              (DemoSession.post (JObj [("roaming_id", JStr "solo")]))
              100 DemoSession.day Session.empty "solo"
              SessionInv.well_formed_empty eq_refl)
    as [store' (Hr & Hsame & _)].
  exists store'. split; [exact Hr|]. apply Hsame. discriminate.
Defined.

(** X20.  In a well-formed store the four read routes of the session
    application are pure reads: the profile, the activity log, the
    balance and the ledger history never answer 500 and leave the store
    as it was; in particular the balance read creates no row. *)
Theorem read_routes_pure :
  forall (route : Session.Route) (request : Session.Request) (now : Z)
         (today : string) (store : Session.Store),
    Session.well_formed store ->
    route = Session.GET_user_profile \/ route = Session.GET_user_chronolog
    \/ route = Session.GET_kones_balance \/ route = Session.GET_kones_ledger ->
    exists body st,
      Session.dispatch route request now today store
      = Some (Session.jsonify body st, store).
Proof.
  intros route request now today store Hwf Hroute.
  set (Q := fun out : option (Session.Response * Session.Store) =>
              exists body st, out = Some (Session.jsonify body st, store)).
  assert (Hearly : forall text st,
             st <> 200 -> Q (Some (Session.error text st, store))).
  { intros text st _. unfold Q, Session.error. eauto. }
  change (Q (Session.dispatch route request now today store)).
  destruct Hroute as [-> | [-> | [-> | ->]]]; cbn [Session.dispatch];
    apply SessionSpec.session_gate_result; try exact Hearly; intros u Hu.
  - unfold Session.get_user_profile.
    destruct Hwf as (_ & _ & Hwords & _).
    assert (Hin : In u (TestApp.users (Session.tables store)))
      by (unfold TestApp.get_user in Hu; exact (proj1 (find_some _ _ Hu))).
    specialize (Hwords u Hin).
    destruct (Py.split_ws (TestApp.User.roaming_id u)); [discriminate|].
    unfold Q. eauto.
  - unfold Q, Session.get_chrono_log. eauto.
  - unfold Session.lift.
    destruct (SessionInv.balance_read_pure u
                {| TestApp.X_Auth_Username := Session.X_Auth_Username request |}
                store Hwf Hu) as [row [_ Hread]].
    rewrite Hread, SessionInv.with_tables_same. unfold Q. eauto.
  - unfold Session.lift. cbn. rewrite SessionInv.with_tables_same.
    unfold Q. eauto.
Qed.

Lemma read_routes_pure_witness :
  exists store body,
    Session.serve [DemoSession.register; DemoSession.login] Session.empty
    = Some store
    /\ Session.dispatch Session.GET_kones_balance
         (DemoSession.get "blue-2025-01-01-wave") 300 DemoSession.day store
       = Some (Session.jsonify body 200, store).
Proof.
  eexists.
  destruct (read_routes_pure Session.GET_kones_balance
              (DemoSession.get "blue-2025-01-01-wave") 300 DemoSession.day
              _ (SessionInv.serve_well_formed
                   [DemoSession.register; DemoSession.login] Session.empty _
                   SessionInv.well_formed_empty eq_refl))
    as [body [st H]].
  - right; right; left; reflexivity.
  - exists body. split; [reflexivity|].
    rewrite H. vm_compute in H. injection H as _ <-. reflexivity.
Defined.

(** X21.  On a body with a string [roaming_id] and a [username],
    [login] answers 200 exactly when a user has that roaming id and the
    username is the name of the day, the two words of the id around the
    date; it then returns that name and appends one login record for
    the user with that name and the clock reading.  Any other answer
    leaves the store as it was. *)
Theorem login_accepts_exactly :
  forall (request : Session.Request) (now : Z) (today : string)
         (store : Session.Store) (d : list (string * json))
         (roaming_id : string) (username : json),
    Session.get_json request = JObj d ->
    Json.get "roaming_id" d = Some (JStr roaming_id) ->
    Json.get "username" d = Some username ->
    exists r store',
      Session.login request now today store = Some (r, store')
      /\ (Session.status_code r = 200 <->
            exists user w0 w1,
              Session.user_by_roaming_id roaming_id (Session.tables store)
              = Some user
              /\ Py.split_ws roaming_id = [w0; w1]
              /\ username = JStr (w0 ++ "-" ++ today ++ "-" ++ w1))
      /\ (Session.status_code r <> 200 -> store' = store)
      /\ (Session.status_code r = 200 ->
            exists user name record,
              Session.user_by_roaming_id roaming_id (Session.tables store)
              = Some user
              /\ username = JStr name
              /\ r = Session.jsonify
                       (JObj [("message", JStr "Access Granted");
                              ("auth_username", JStr name)]) 200
              /\ TestApp.login_records (Session.tables store')
                 = (TestApp.login_records (Session.tables store) ++ [record])%list
              /\ TestApp.LoginRecord.user_id record = TestApp.User.id user
              /\ TestApp.LoginRecord.login_username record = name
              /\ TestApp.LoginRecord.login_timestamp record = now
              /\ TestApp.users (Session.tables store')
                 = TestApp.users (Session.tables store)).
Proof.
  intros request now today store d roaming_id username Hbody Hrid Hname.
  unfold Session.login, Session.login_missing. rewrite Hbody.
  assert (Htruthy : Json.truthy (JObj d) = true)
    by (destruct d; [discriminate Hrid | reflexivity]).
  rewrite Htruthy. cbn [negb Json.contains_str Json.subscript].
  unfold Json.has_key. rewrite Hrid, Hname. cbn [negb].
  destruct (Session.user_by_roaming_id roaming_id (Session.tables store))
    as [user|] eqn:Hu.
  2:{ do 2 eexists. split; [reflexivity|]. cbn.
      split; [|split; [reflexivity | discriminate]].
      split; [discriminate | intros (u & w0 & w1 & H & _); discriminate]. }
  unfold Session.get_daily_username.
  destruct (Py.split_ws roaming_id) as [|w0 [|w1 [|w2 ws]]] eqn:Hw.
  - destruct username; do 2 eexists; (split; [reflexivity|]); cbn;
      (split; [|split; [reflexivity | discriminate]]);
      (split; [discriminate | intros (u & q0 & q1 & _ & H & _); discriminate]).
  - destruct username; do 2 eexists; (split; [reflexivity|]); cbn;
      (split; [|split; [reflexivity | discriminate]]);
      (split; [discriminate | intros (u & q0 & q1 & _ & H & _); discriminate]).
  - cbn [Session.username_matches].
    destruct username as [| b | n | f | s | l | d'];
      try (do 2 eexists; split; [reflexivity|]; cbn;
           split; [|split; [reflexivity | discriminate]];
           split; [discriminate
                  | intros (u & q0 & q1 & _ & _ & H); discriminate]).
    cbn [Session.username_matches].
    destruct (String.eqb_spec s (w0 ++ "-" ++ today ++ "-" ++ w1))
      as [-> | Hne].
    + do 2 eexists. split; [reflexivity|]. cbn [Session.status_code].
      split; [|split; [intros H; now elim H|]].
      * split; [intros _ | reflexivity]. exists user, w0, w1. auto.
      * intros _. exists user, (w0 ++ "-" ++ today ++ "-" ++ w1).
        eexists. split; [reflexivity|]. split; [reflexivity|].
        split; [reflexivity|]. cbn. repeat split.
    + do 2 eexists. split; [reflexivity|]. cbn.
      split; [|split; [reflexivity | discriminate]].
      split; [discriminate|].
      intros (u & q0 & q1 & _ & [= <- <-] & [= ->]). now elim Hne.
  - destruct username; do 2 eexists; (split; [reflexivity|]); cbn;
      (split; [|split; [reflexivity | discriminate]]);
      (split; [discriminate | intros (u & q0 & q1 & _ & H & _); discriminate]).
Qed.

Lemma login_accepts_exactly_witness :
  exists store0 r store',
    Session.serve [DemoSession.register] Session.empty = Some store0
    /\ Session.login (Session.request DemoSession.login) 200 DemoSession.day
         store0 = Some (r, store')
    /\ Session.status_code r = 200.
Proof.
  eexists.
  destruct (login_accepts_exactly (Session.request DemoSession.login) 200
              DemoSession.day
              {| Session.tables :=
                   {| TestApp.users :=
                        [ {| TestApp.User.id := 1;
                             TestApp.User.roaming_id := "blue  wave";
                             TestApp.User.registration_date := 100 |} ];
                      TestApp.login_records := [];
                      TestApp.kones_balance :=
                        [ {| TestApp.KonesBalance.user_id := 1;
                             TestApp.KonesBalance.balance := 0 |} ];
                      TestApp.kones_ledger := [] |};
                 Session.chrono_log :=
                   [ {| Session.ChronoLog.id := 1;
                        Session.ChronoLog.user_id := 1;
                        Session.ChronoLog.activity_type := "REGISTRATION";
                        Session.ChronoLog.content :=
                          JObj [("status", JStr "Account created.")];
                        Session.ChronoLog.timestamp := 100 |} ];
                 Session.reward_rule := [] |}
              [("roaming_id", JStr "blue  wave");
               ("username", JStr "blue-2025-01-01-wave")]
              "blue  wave" (JStr "blue-2025-01-01-wave")
              eq_refl eq_refl eq_refl) as (r & store' & Hlogin & Hiff & _).
  exists r, store'. split; [reflexivity|]. split; [exact Hlogin|].
  apply Hiff. eexists. exists "blue", "wave".
  split; [reflexivity|]. split; reflexivity.
Defined.

(** ** Sessions *)

Module SessionAuth.
Import Session.

Lemma append_nonempty (a b : string) (c : ascii) :
  (a ++ String c b)%string <> EmptyString.
Proof. destruct a; discriminate. Qed.

Lemma find_app_some {A : Type} (p : A -> bool) (l l' : list A) (x : A) :
  find p l = Some x -> find p (l ++ l')%list = Some x.
Proof.
  induction l as [|y l IH]; cbn [find app]; [discriminate|].
  destruct (p y); [trivial | exact IH].
Qed.

Lemma get_user_of_member (u : TestApp.User.t) db :
  In u (TestApp.users db) ->
  exists u', TestApp.get_user (TestApp.User.id u) db = Some u'
             /\ TestApp.User.id u' = TestApp.User.id u.
Proof.
  intros Hin. unfold TestApp.get_user.
  destruct (find _ (TestApp.users db)) as [u'|] eqn:Hf.
  - exists u'. split; [reflexivity|].
    destruct (find_some _ _ Hf) as [_ Heq]. now apply Z.eqb_eq in Heq.
  - pose proof (proj1 (find_none_iff _ _) Hf u Hin) as H. cbn in H.
    rewrite Z.eqb_refl in H. discriminate.
Qed.

(** The login records of a session name. *)
Definition records_of (name : string) (db : TestApp.Db)
    : list TestApp.LoginRecord.t :=
  filter (fun r => String.eqb (TestApp.LoginRecord.login_username r) name)
         (TestApp.login_records db).

(** [require_auth] resolves the name to a user of the store. *)
Definition resolves (name : string) (store : Store) (user : TestApp.User.t)
    : Prop :=
  name <> ""
  /\ exists record,
       Sql.first_by_desc TestApp.LoginRecord.login_timestamp
         (records_of name (tables store)) = Some record
       /\ TestApp.get_user (TestApp.LoginRecord.user_id record) (tables store)
          = Some user.

Lemma resolves_require_auth name store user (f : TestApp.User.t -> View)
    request now today :
  resolves name store user ->
  X_Auth_Username request = Some name ->
  require_auth f request now today store = f user request now today store.
Proof.
  intros (Hne & record & Hrec & Hu) Hname. unfold require_auth.
  rewrite Hname. destruct (String.eqb_spec name ""); [contradiction|].
  unfold records_of in Hrec. rewrite Hrec, Hu. reflexivity.
Qed.

(** The shape of the store after a successful login. *)
Lemma login_success request now today store r store' :
  login request now today store = Some (r, store') ->
  status_code r = 200 ->
  exists roaming_id user name record,
    Json.subscript "roaming_id" (get_json request) = Py.Ok (JStr roaming_id)
    /\ user_by_roaming_id roaming_id (tables store) = Some user
    /\ get_daily_username today roaming_id = Some name
    /\ r = jsonify (JObj [("message", JStr "Access Granted");
                          ("auth_username", JStr name)]) 200
    /\ TestApp.users (tables store') = TestApp.users (tables store)
    /\ TestApp.login_records (tables store')
       = (TestApp.login_records (tables store) ++ [record])%list
    /\ TestApp.LoginRecord.user_id record = TestApp.User.id user
    /\ TestApp.LoginRecord.login_username record = name
    /\ TestApp.LoginRecord.login_timestamp record = now.
Proof.
  intros H H200. unfold login in H.
  destruct (login_missing (get_json request)) as [[|]| | | |];
    try (injection H as <- _; discriminate H200).
  destruct (Json.subscript "roaming_id" (get_json request))
    as [[| b | n | f | rid | l | d]| | | |] eqn:Hsub;
    destruct (Json.subscript "username" (get_json request))
      as [username| | | |];
    try discriminate; try (injection H as <- _; discriminate H200).
  destruct (user_by_roaming_id rid (tables store)) as [user|] eqn:Hu;
    [|injection H as <- _; discriminate H200].
  destruct (username_matches username (get_daily_username today rid));
    [|injection H as <- _; discriminate H200].
  destruct (get_daily_username today rid) as [name|] eqn:Hname;
    [|injection H as <- _; discriminate H200].
  injection H as <- <-.
  exists rid, user, name. eexists.
  split; [reflexivity|].
  split; [exact Hu|]. split; [exact Hname|]. split; [reflexivity|].
  cbn. repeat split.
Qed.

Lemma daily_username_nonempty today roaming_id name :
  get_daily_username today roaming_id = Some name -> name <> "".
Proof.
  unfold get_daily_username.
  destruct (Py.split_ws roaming_id) as [|w0 [|w1 [|w2 ws]]]; try discriminate.
  intros [= <-]. apply append_nonempty.
Qed.

End SessionAuth.

(** X22.  After a successful login every route behind [require_auth]
    serves the returned name as the user who logged in (a user of the
    store with the key of the user who has the roaming id of the
    request), on any later day, provided the clock reading of the login
    is later than the login records written before. *)
Theorem login_then_authenticated :
  forall (request : Session.Request) (now : Z) (today : string)
         (store store' : Session.Store) (r : Session.Response),
    Session.login request now today store = Some (r, store') ->
    Session.status_code r = 200 ->
    (forall record,
        In record (TestApp.login_records (Session.tables store)) ->
        TestApp.LoginRecord.login_timestamp record < now) ->
    exists (name roaming_id : string) (owner user : TestApp.User.t),
      r = Session.jsonify (JObj [("message", JStr "Access Granted");
                                 ("auth_username", JStr name)]) 200
      /\ Json.subscript "roaming_id" (Session.get_json request)
         = Py.Ok (JStr roaming_id)
      /\ Session.user_by_roaming_id roaming_id (Session.tables store)
         = Some owner
      /\ TestApp.User.id user = TestApp.User.id owner
      /\ In user (TestApp.users (Session.tables store'))
      /\ forall (f : TestApp.User.t -> Session.View)
                (request' : Session.Request) (now' : Z) (today' : string),
           Session.X_Auth_Username request' = Some name ->
           Session.require_auth f request' now' today' store'
           = f user request' now' today' store'.
Proof.
  intros request now today store store' r Hlogin H200 Hclock.
  destruct (SessionAuth.login_success _ _ _ _ _ _ Hlogin H200)
    as (rid & user & name & record & Hsub & Hu & Hname & Hr & Husers & Hrecs
        & Hrid & Hrname & Hrts).
  assert (Hin : In user (TestApp.users (Session.tables store)))
    by (unfold Session.user_by_roaming_id in Hu;
        exact (proj1 (find_some _ _ Hu))).
  destruct (SessionAuth.get_user_of_member user (Session.tables store) Hin)
    as [user' [Hget Hid]].
  exists name, rid, user, user'. split; [exact Hr|].
  split; [exact Hsub|]. split; [exact Hu|]. split; [exact Hid|]. split.
  { rewrite Husers. unfold TestApp.get_user in Hget.
    exact (proj1 (find_some _ _ Hget)). }
  intros f request' now' today' Hheader.
  apply (SessionAuth.resolves_require_auth name); [|exact Hheader].
  split; [exact (SessionAuth.daily_username_nonempty _ _ _ Hname)|].
  exists record. split.
  - unfold SessionAuth.records_of, Sql.first_by_desc.
    rewrite Hrecs, filter_snoc, Hrname, String.eqb_refl.
    rewrite order_by_desc_newest; [reflexivity|].
    intros y Hy. apply filter_In in Hy. destruct Hy as [Hy _].
    rewrite Hrts. now apply Hclock.
  - unfold TestApp.get_user. rewrite Husers, Hrid. exact Hget.
Qed.

Lemma login_then_authenticated_witness :
  exists store0 r store' body,
    Session.serve [DemoSession.register] Session.empty = Some store0
    /\ Session.login (Session.request DemoSession.login) 200 DemoSession.day
         store0 = Some (r, store')
    /\ Session.dispatch Session.GET_kones_balance
         (DemoSession.get "blue-2025-01-01-wave") 300 "2025-02-02" store'
       = Some (Session.jsonify body 200, store').
Proof.
  do 3 eexists.
  assert (Hlogin :
            Session.login (Session.request DemoSession.login) 200
              DemoSession.day
              {| Session.tables :=
                   {| TestApp.users :=
                        [ {| TestApp.User.id := 1;
                             TestApp.User.roaming_id := "blue  wave";
                             TestApp.User.registration_date := 100 |} ];
                      TestApp.login_records := [];
                      TestApp.kones_balance :=
                        [ {| TestApp.KonesBalance.user_id := 1;
                             TestApp.KonesBalance.balance := 0 |} ];
                      TestApp.kones_ledger := [] |};
                 Session.chrono_log :=
                   [ {| Session.ChronoLog.id := 1;
                        Session.ChronoLog.user_id := 1;
                        Session.ChronoLog.activity_type := "REGISTRATION";
                        Session.ChronoLog.content :=
                          JObj [("status", JStr "Account created.")];
                        Session.ChronoLog.timestamp := 100 |} ];
                 Session.reward_rule := [] |}
            = Some (_, _)) by reflexivity.
  destruct (login_then_authenticated _ _ _ _ _ _ Hlogin eq_refl)
    as (name & rid & owner & user & Hr & _ & _ & _ & Hin & Hauth).
  - intros record [].
  - injection Hr as <-. eexists.
    split; [reflexivity|]. split; [reflexivity|].
    cbn [Session.dispatch].
    rewrite (Hauth _ (DemoSession.get "blue-2025-01-01-wave") 300
               "2025-02-02" eq_refl).
    destruct Hin as [<- | []]. reflexivity.
Defined.

(** ** Sessions do not expire *)

Module SessionGrowth.
Import Session.

(** The users of [store'] are those of [store] with users appended, and
    its login records are those of [store], possibly with one record
    appended that belongs to a user of [store']. *)
Definition grows (store store' : Store) : Prop :=
  (exists us, TestApp.users (tables store')
              = (TestApp.users (tables store) ++ us)%list)
  /\ (TestApp.login_records (tables store')
      = TestApp.login_records (tables store)
      \/ exists l,
           TestApp.login_records (tables store')
           = (TestApp.login_records (tables store) ++ [l])%list
           /\ TestApp.get_user (TestApp.LoginRecord.user_id l) (tables store')
              <> None).

Lemma grows_refl store : grows store store.
Proof.
  split; [exists []; now rewrite app_nil_r | now left].
Qed.

Lemma grows_tables store store' :
  TestApp.users (tables store') = TestApp.users (tables store) ->
  TestApp.login_records (tables store')
  = TestApp.login_records (tables store) ->
  grows store store'.
Proof.
  intros Hu Hr. split; [exists []; now rewrite app_nil_r | now left].
Qed.

Lemma dispatch_grows route request now today store r store' :
  dispatch route request now today store = Some (r, store') ->
  grows store store'.
Proof.
  set (Q := fun out : option (Response * Store) =>
              forall r store', out = Some (r, store') -> grows store store').
  assert (Hearly : forall text st, st <> 200 -> Q (Some (error text st, store))).
  { intros text st _ r0 s0 [= _ <-]. apply grows_refl. }
  revert r store'. change (Q (dispatch route request now today store)).
  destruct route; cbn [dispatch].
  - intros r0 s0 H. rewrite SessionSpec.register_cases in H.
    destruct (SessionSpec.roaming_id_of request) as [roaming_id|];
      [|injection H as _ <-; apply grows_refl].
    destruct (negb _); [injection H as _ <-; apply grows_refl|].
    destruct (user_by_roaming_id _ _);
      [injection H as _ <-; apply grows_refl|].
    cbv zeta in H.
    destruct (TestApp.get_balance _ _); injection H as _ <-;
      (split; [eexists; reflexivity | now left]).
  - intros r0 s0 H.
    destruct (Z.eq_dec (status_code r0) 200) as [H200 | Hne].
    + destruct (SessionAuth.login_success _ _ _ _ _ _ H H200)
        as (rid & user & name & record & _ & Hu & _ & _ & Husers & Hrecs
            & Hrid & _).
      split; [exists []; now rewrite app_nil_r|].
      right. exists record. split; [exact Hrecs|].
      assert (Hin : In user (TestApp.users (tables store)))
        by (unfold user_by_roaming_id in Hu;
            exact (proj1 (find_some _ _ Hu))).
      destruct (SessionAuth.get_user_of_member user (tables store) Hin)
        as [u' [Hget _]].
      unfold TestApp.get_user in *. rewrite Husers, Hrid, Hget. discriminate.
    + unfold login in H.
      repeat match type of H with
             | context [match ?x with _ => _ end] => destruct x
             | context [if ?x then _ else _] => destruct x
             end;
        try discriminate; injection H as <- <-;
        try apply grows_refl; now elim Hne.
  - apply SessionSpec.session_gate_result; [exact Hearly|].
    intros u _ r0 s0 H. unfold get_user_profile in H.
    destruct (Py.split_ws _); injection H as _ <-; apply grows_refl.
  - apply SessionSpec.session_gate_result; [exact Hearly|].
    intros u _ r0 s0 [= _ <-]. apply grows_refl.
  - apply SessionSpec.session_gate_result; [exact Hearly|].
    intros u _ r0 s0 H. unfold lift, TestApp.get_kones_balance in H.
    destruct (TestApp.get_balance _ _); injection H as _ <-;
      now apply grows_tables.
  - apply SessionSpec.session_gate_result; [exact Hearly|].
    intros u _ r0 s0 H. unfold lift in H. cbn in H.
    injection H as _ <-. now apply grows_tables.
  - apply SessionSpec.session_gate_result; [exact Hearly|].
    intros u _ r0 s0 H. unfold set_reward_rule in H.
    repeat match type of H with
           | context [match ?x with _ => _ end] => destruct x
           end;
      try discriminate; injection H as _ <-; now apply grows_tables.
Qed.

Lemma first_by_desc_snoc {A : Type} (key : A -> Z) (rows : list A) (x y : A) :
  Sql.first_by_desc key rows = Some y ->
  Sql.first_by_desc key (rows ++ [x])%list = Some y
  \/ Sql.first_by_desc key (rows ++ [x])%list = Some x.
Proof.
  unfold Sql.first_by_desc. rewrite order_by_desc_snoc.
  destruct (Sql.order_by_desc key rows) as [|z l]; [discriminate|].
  intros [= ->]. cbn [Sql.insert_desc].
  destruct (key y <? key x); [now right | now left].
Qed.

Lemma grows_resolves name store store' user :
  grows store store' ->
  SessionAuth.resolves name store user ->
  exists user', SessionAuth.resolves name store' user'.
Proof.
  intros [[us Hus] Hrecs] (Hne & record & Hfirst & Hget).
  assert (Hkeep : forall i u,
             TestApp.get_user i (tables store) = Some u ->
             TestApp.get_user i (tables store') = Some u).
  { intros i u H. unfold TestApp.get_user in *. rewrite Hus.
    now apply SessionAuth.find_app_some. }
  destruct Hrecs as [Hsame | [l [Happ Hl]]].
  - exists user. split; [exact Hne|]. exists record.
    unfold SessionAuth.records_of in *. rewrite Hsame.
    split; [exact Hfirst | now apply Hkeep].
  - unfold SessionAuth.resolves, SessionAuth.records_of in *.
    rewrite Happ, filter_snoc.
    destruct (String.eqb (TestApp.LoginRecord.login_username l) name).
    + destruct (first_by_desc_snoc TestApp.LoginRecord.login_timestamp
                  _ l record Hfirst) as [H | H].
      * exists user. split; [exact Hne|]. exists record.
        split; [exact H | now apply Hkeep].
      * destruct (TestApp.get_user (TestApp.LoginRecord.user_id l)
                    (tables store')) as [u'|] eqn:Hu'; [|now elim Hl].
        exists u'. split; [exact Hne|]. exists l. now split.
    + rewrite app_nil_r. exists user. split; [exact Hne|]. exists record.
      split; [exact Hfirst | now apply Hkeep].
Qed.

End SessionGrowth.

(** X23.  A session name that [require_auth] resolves to a user is
    resolved to a user after any further requests, on any day: no login
    record and no user is ever removed, so a session does not expire
    (the name may come to resolve to the user of a newer login under
    the same name). *)
Theorem sessions_never_expire :
  forall (calls : list Session.Call) (store store' : Session.Store)
         (name : string) (user : TestApp.User.t),
    SessionAuth.resolves name store user ->
    Session.serve calls store = Some store' ->
    exists user' : TestApp.User.t,
      SessionAuth.resolves name store' user'
      /\ forall (f : TestApp.User.t -> Session.View)
                (request : Session.Request) (now : Z) (today : string),
           Session.X_Auth_Username request = Some name ->
           Session.require_auth f request now today store'
           = f user' request now today store'.
Proof.
  intros calls. induction calls as [|c calls IH];
    intros store store' name user Hres Hserve.
  - injection Hserve as <-. exists user. split; [exact Hres|].
    intros f request now today Hname.
    now apply (SessionAuth.resolves_require_auth name).
  - cbn [Session.serve] in Hserve.
    destruct (Session.dispatch (Session.route c) (Session.request c)
                (Session.clock c) (Session.today c) store)
      as [[r s1]|] eqn:Hd; [|discriminate].
    destruct (SessionGrowth.grows_resolves name store s1 user
                (SessionGrowth.dispatch_grows _ _ _ _ _ _ _ Hd) Hres)
      as [user1 Hres1].
    exact (IH s1 store' name user1 Hres1 Hserve).
Qed.

Lemma sessions_never_expire_witness :
  exists store' user',
    Session.serve
      [ {| Session.route := Session.POST_register;
           Session.request :=
             DemoSession.post (JObj [("roaming_id", JStr "red tide")]);
           Session.clock := 900;
           Session.today := "2026-06-06" |} ] DemoSession.after_login
    = Some store'
    /\ SessionAuth.resolves "blue-2025-01-01-wave" store' user'.
Proof.
  eassert (Hserve :
             Session.serve
               [ {| Session.route := Session.POST_register;
                    Session.request :=
                      DemoSession.post (JObj [("roaming_id", JStr "red tide")]);
                    Session.clock := 900;
                    Session.today := "2026-06-06" |} ] DemoSession.after_login
             = Some _) by (vm_compute; reflexivity).
  assert (Hres : SessionAuth.resolves "blue-2025-01-01-wave"
                   DemoSession.after_login DemoSession.blue_wave).
  { split; [discriminate|]. eexists. split; reflexivity. }
  destruct (sessions_never_expire _ _ _ _ _ Hres Hserve) as [user' [Hres' _]].
  eexists. exists user'. split; [exact Hserve | exact Hres'].
Defined.

(** ** Reward rules *)

Lemma rule_by_name_updated name f rules :
  (forall r, Session.RewardRule.rule_name (f r) = Session.RewardRule.rule_name r) ->
  Session.rule_by_name name (map f rules)
  = option_map f (Session.rule_by_name name rules).
Proof.
  intros Hf. unfold Session.rule_by_name.
  induction rules as [|x rules IH]; cbn [map find option_map];
    [reflexivity|].
  rewrite Hf.
  destruct (String.eqb (Session.RewardRule.rule_name x) name);
    [reflexivity | exact IH].
Qed.

(** X24.  [set_reward_rule] is an upsert by rule name.  For a body with
    a string [rule_name] and an integer [kone_amount] it answers 200;
    afterwards the rule of that name carries the amount, description and
    flag of the body ([is_active] is true when the body has none), the
    rule of every other name is as before, the table has one row more
    when the name was new and as many rows as before otherwise, and the
    other tables are as they were. *)
Theorem set_reward_rule_upsert :
  forall (user : TestApp.User.t) (request : Session.Request) (now : Z)
         (today : string) (store : Session.Store) (d : list (string * json))
         (name : string) (amount : Z) (description : option string)
         (is_active : option bool),
    Session.get_json request = JObj d ->
    Json.get "rule_name" d = Some (JStr name) ->
    Json.get "kone_amount" d = Some (JInt amount) ->
    Session.text_field (Json.get "description" d) = Some description ->
    Session.boolean_field (Json.get "is_active" d) = Some is_active ->
    NoDup (map Session.RewardRule.id (Session.reward_rule store)) ->
    exists (store' : Session.Store) (rule : Session.RewardRule.t),
      Session.set_reward_rule user request now today store
      = Some (Session.message
                ("Reward rule '" ++ name ++ "' has been saved.") 200,
              store')
      /\ Session.rule_by_name name (Session.reward_rule store') = Some rule
      /\ Session.RewardRule.kone_amount rule = amount
      /\ Session.RewardRule.description rule = description
      /\ Session.RewardRule.is_active rule = is_active
      /\ (forall other,
            other <> name ->
            Session.rule_by_name other (Session.reward_rule store')
            = Session.rule_by_name other (Session.reward_rule store))
      /\ List.length (Session.reward_rule store')
         = (List.length (Session.reward_rule store)
            + match Session.rule_by_name name (Session.reward_rule store) with
              | Some _ => 0
              | None => 1
              end)%nat
      /\ Session.tables store' = Session.tables store
      /\ Session.chrono_log store' = Session.chrono_log store.
Proof.
  intros user request now today store d name amount description is_active
         Hbody Hname Hamount Hdesc Hactive Hnd.
  unfold Session.set_reward_rule.
  rewrite Hbody, Hname, Hamount, Hdesc, Hactive.
  cbn [Session.text_field Session.integer_field].
  destruct (Session.rule_by_name name (Session.reward_rule store))
    as [rule|] eqn:Hfind.
  - set (upd := fun r : Session.RewardRule.t =>
                  if Session.RewardRule.id r =? Session.RewardRule.id rule
                  then {| Session.RewardRule.id := Session.RewardRule.id r;
                          Session.RewardRule.rule_name :=
                            Session.RewardRule.rule_name r;
                          Session.RewardRule.kone_amount := amount;
                          Session.RewardRule.description := description;
                          Session.RewardRule.is_active := is_active |}
                  else r).
    assert (Hupd : forall r, Session.RewardRule.rule_name (upd r)
                             = Session.RewardRule.rule_name r).
    { intros r. unfold upd.
      destruct (Session.RewardRule.id r =? Session.RewardRule.id rule);
        reflexivity. }
    eexists. exists (upd rule). split; [reflexivity|].
    cbn [Session.reward_rule Session.tables Session.chrono_log].
    fold upd.
    split; [now rewrite (rule_by_name_updated name upd _ Hupd), Hfind|].
    unfold upd at 1 2 3. rewrite Z.eqb_refl.
    split; [reflexivity|]. split; [reflexivity|]. split; [reflexivity|].
    split.
    + intros other Hne. rewrite (rule_by_name_updated other upd _ Hupd).
      destruct (Session.rule_by_name other (Session.reward_rule store))
        as [x|] eqn:Hx; [|reflexivity].
      cbn [option_map]. f_equal. unfold upd.
      destruct (Z.eqb_spec (Session.RewardRule.id x)
                           (Session.RewardRule.id rule)) as [Heq | _];
        [|reflexivity].
      exfalso. apply Hne. unfold Session.rule_by_name in *.
      destruct (find_some _ _ Hx) as [Hinx Hox].
      destruct (find_some _ _ Hfind) as [Hinr Hor].
      assert (x = rule) as -> by (eapply nodup_key_inj; eassumption).
      apply String.eqb_eq in Hox, Hor. congruence.
    + split; [now rewrite length_map, Nat.add_0_r|]. now split.
  - eexists. eexists. split; [reflexivity|].
    cbn [Session.reward_rule Session.tables Session.chrono_log].
    unfold Session.rule_by_name in *. rewrite find_snoc, Hfind.
    cbn [Session.RewardRule.rule_name]. rewrite String.eqb_refl.
    split; [reflexivity|].
    cbn [Session.RewardRule.kone_amount Session.RewardRule.description
         Session.RewardRule.is_active].
    split; [reflexivity|]. split; [reflexivity|]. split; [reflexivity|].
    split.
    + intros other Hne. rewrite find_snoc.
      match goal with
      | |- context [find ?p (Session.reward_rule store)] =>
          destruct (find p (Session.reward_rule store))
      end; [reflexivity|].
      cbn [Session.RewardRule.rule_name].
      destruct (String.eqb_spec name other) as [-> | _];
        [now elim Hne | reflexivity].
    + split; [now rewrite length_app|]. now split.
Qed.

Lemma set_reward_rule_upsert_witness :
  exists store' rule,
    Session.set_reward_rule DemoSession.blue_wave
      (DemoSession.post (JObj [("rule_name", JStr "DAILY_LOGIN");
                               ("kone_amount", JInt 10)]))
      300 DemoSession.day DemoSession.after_login
    = Some (Session.message "Reward rule 'DAILY_LOGIN' has been saved." 200,
            store')
    /\ Session.rule_by_name "DAILY_LOGIN" (Session.reward_rule store')
       = Some rule
    /\ Session.RewardRule.kone_amount rule = 10
    /\ Session.RewardRule.is_active rule = Some true.
Proof.
  destruct (set_reward_rule_upsert DemoSession.blue_wave
              (DemoSession.post (JObj [("rule_name", JStr "DAILY_LOGIN");
                                       ("kone_amount", JInt 10)]))
              300 DemoSession.day DemoSession.after_login
              [("rule_name", JStr "DAILY_LOGIN"); ("kone_amount", JInt 10)]
              "DAILY_LOGIN" 10 None (Some true)
              eq_refl eq_refl eq_refl eq_refl eq_refl)
    as (store' & rule & Hr & Hfind & Ha & _ & Hact & _).
  - constructor.
  - exists store', rule. auto.
Defined.

(** ** The address bar *)

(** X25.  The text that [navigate_to_url] hands to the view always
    starts with [http://] or [https://]: a text that has one of the two
    schemes is passed as it is, any other text gets [http://] in front;
    applying the rule to its own result changes nothing. *)
Theorem navigate_to_url_scheme :
  forall raw_url : string,
    Py.startswith_any (Koralai.navigate_to_url raw_url)
      ["http://"; "https://"] = true
    /\ (Py.startswith_any raw_url ["http://"; "https://"] = true ->
        Koralai.navigate_to_url raw_url = raw_url)
    /\ (Py.startswith_any raw_url ["http://"; "https://"] = false ->
        Koralai.navigate_to_url raw_url = "http://" ++ raw_url)
    /\ Koralai.navigate_to_url (Koralai.navigate_to_url raw_url)
       = Koralai.navigate_to_url raw_url.
Proof.
  intros raw_url.
  assert (Hpre : Py.startswith_any ("http://" ++ raw_url)
                   ["http://"; "https://"] = true).
  { unfold Py.startswith_any, Py.startswith. cbn [existsb].
    replace (String.prefix "http://" ("http://" ++ raw_url)) with true;
      [reflexivity|].
    cbn. destruct raw_url; reflexivity. }
  unfold Koralai.navigate_to_url.
  destruct (Py.startswith_any raw_url ["http://"; "https://"]) eqn:Hs;
    cbn [negb].
  - rewrite Hs. cbn [negb]. repeat split; try reflexivity; discriminate.
  - rewrite Hpre. cbn [negb]. repeat split; try reflexivity; discriminate.
Qed.

(** ** The bearer header *)

(** No character of the text is a space. *)
Definition no_space (s : string) : bool :=
  forallb (fun c => negb (Ascii.eqb c " "%char)) (list_ascii_of_string s).

Lemma append_empty_r (s : string) : (s ++ "")%string = s.
Proof. induction s as [|c s IH]; cbn; [reflexivity | now rewrite IH]. Qed.

Lemma append_assoc_char (a : string) (c : ascii) (b : string) :
  ((a ++ String c EmptyString) ++ b)%string = (a ++ String c b)%string.
Proof. induction a as [|x a IH]; cbn; [reflexivity | now rewrite IH]. Qed.

Lemma split_space_aux_word (cur tok : string) :
  no_space tok = true ->
  Py.split_space_aux cur tok = [(cur ++ tok)%string].
Proof.
  revert cur. induction tok as [|c tok IH]; intros cur H.
  - cbn. now rewrite append_empty_r.
  - unfold no_space in H. cbn [list_ascii_of_string forallb] in H.
    apply andb_true_iff in H. destruct H as [Hc Htok].
    cbn [Py.split_space_aux]. apply negb_true_iff in Hc. rewrite Hc.
    rewrite (IH _ Htok). now rewrite append_assoc_char.
Qed.

Lemma split_space_aux_first (cur tok rest : string) :
  no_space tok = true ->
  Py.split_space_aux cur (tok ++ String " " rest)
  = (cur ++ tok)%string :: Py.split_space_aux EmptyString rest.
Proof.
  revert cur. induction tok as [|c tok IH]; intros cur H.
  - cbn. now rewrite append_empty_r.
  - unfold no_space in H. cbn [list_ascii_of_string forallb] in H.
    apply andb_true_iff in H. destruct H as [Hc Htok].
    cbn [Py.split_space_aux append]. apply negb_true_iff in Hc. rewrite Hc.
    rewrite (IH _ Htok). now rewrite append_assoc_char.
Qed.

Lemma startswith_bearer (x : string) :
  Py.startswith ("Bearer " ++ x) "Bearer " = true.
Proof. destruct x; reflexivity. Qed.

Lemma gate_by_token jwt_decode config (f : User.t -> View)
    request1 request2 now db :
  bearer_token request1 = bearer_token request2 ->
  (forall u, f u request1 now db = f u request2 now db) ->
  get_user_from_auth_header jwt_decode config f request1 now db
  = get_user_from_auth_header jwt_decode config f request2 now db.
Proof.
  intros Hb Hf. rewrite !SecuredSpec.get_user_from_auth_header_cases, Hb.
  destruct (bearer_token request2) as [jwt|]; [|reflexivity].
  destruct (signing_secret config) as [key|]; [|reflexivity].
  destruct (jwt_decode jwt key now) as [[uid|]|e]; try reflexivity.
  destruct (falsy (Some uid)); [reflexivity|].
  destruct (get_user uid db); [apply Hf | reflexivity].
Qed.

(** X26.  The bearer gate takes as token the text between the first and
    the second space of the header: for a token without a space, the
    header [Bearer <token>] and every header [Bearer <token> <rest>]
    give that token, so whatever follows a second space is ignored and
    each route answers as if it were not there. *)
Theorem bearer_token_ignores_rest :
  forall (jwt_decode : string -> string -> Z -> Jwt.decoded) (config : Config)
         (route : Route) (token rest : string) (key : option string)
         (data : json) (now : Z) (db : Db),
    no_space token = true ->
    let short := {| Authorization := Some ("Bearer " ++ token);
                    X_Api_Key := key; get_json := data |} in
    let long := {| Authorization := Some ("Bearer " ++ token ++ " " ++ rest);
                   X_Api_Key := key; get_json := data |} in
    bearer_token short = Some token
    /\ bearer_token long = Some token
    /\ dispatch jwt_decode config route long now db
       = dispatch jwt_decode config route short now db.
Proof.
  intros jwt_decode config route token rest key data now db Htok short long.
  assert (Hshort : bearer_token short = Some token).
  { unfold bearer_token, short. cbn [Authorization].
    rewrite startswith_bearer.
    unfold Py.split_space. cbn [append Py.split_space_aux Ascii.eqb Bool.eqb].
    now rewrite (split_space_aux_word "" token Htok). }
  assert (Hlong : bearer_token long = Some token).
  { unfold bearer_token, long. cbn [Authorization].
    rewrite startswith_bearer.
    unfold Py.split_space. cbn [append Py.split_space_aux Ascii.eqb Bool.eqb].
    change (" " ++ rest)%string with (String " " rest).
    now rewrite (split_space_aux_first "" token rest Htok). }
  split; [exact Hshort|]. split; [exact Hlong|].
  destruct route; cbn [dispatch];
    unfold GET_posts, POST_earn_kones, POST_webhook_sync.
  - apply gate_by_token; [congruence | reflexivity].
  - apply SecuredSpec.trusted_service_required_ext; [reflexivity|].
    apply gate_by_token; [congruence | reflexivity].
  - apply SecuredSpec.trusted_service_required_ext; [reflexivity|].
    apply gate_by_token; [congruence | reflexivity].
Qed.

Lemma bearer_token_ignores_rest_witness :
  fst (GET_posts Demo.jwt_decode Demo.config
         {| Authorization := Some "Bearer u1.live and anything else";
            X_Api_Key := None; get_json := JNull |} Demo.t0 Demo.db0)
  = fst (GET_posts Demo.jwt_decode Demo.config
           {| Authorization := Some "Bearer u1.live";
              X_Api_Key := None; get_json := JNull |} Demo.t0 Demo.db0).
Proof.
  destruct (bearer_token_ignores_rest Demo.jwt_decode Demo.config posts
              "u1.live" "and anything else" None JNull Demo.t0 Demo.db0
              eq_refl) as (_ & _ & H).
  cbn [dispatch] in H. cbv zeta in H.
  exact (f_equal fst H).
Defined.

(** ** The refusals of the session gate *)

Lemma get_user_of_key i db :
  In i (map TestApp.User.id (TestApp.users db)) ->
  exists u, TestApp.get_user i db = Some u /\ In u (TestApp.users db).
Proof.
  intros Hin. apply in_map_iff in Hin. destruct Hin as [x [<- Hx]].
  destruct (SessionAuth.get_user_of_member x db Hx) as [u [Hu _]].
  exists u. split; [exact Hu|].
  unfold TestApp.get_user in Hu. exact (proj1 (find_some _ _ Hu)).
Qed.

(** X27.  [require_auth] answers 401 when the session header is missing
    or empty and 403 when no login record carries the name; in a
    well-formed store it never answers 404: a name with a login record
    is served as a user of the store. *)
Theorem session_gate_outcomes :
  forall (f : TestApp.User.t -> Session.View) (request : Session.Request)
         (now : Z) (today : string) (store : Session.Store),
    (Session.X_Auth_Username request = None
     \/ Session.X_Auth_Username request = Some "" ->
     Session.require_auth f request now today store
     = Some (Session.error "Authentication username required." 401, store))
    /\ (forall name,
          Session.X_Auth_Username request = Some name ->
          name <> "" ->
          SessionAuth.records_of name (Session.tables store) = [] ->
          Session.require_auth f request now today store
          = Some (Session.error "Invalid or expired session username." 403,
                  store))
    /\ (forall name,
          Session.well_formed store ->
          Session.X_Auth_Username request = Some name ->
          name <> "" ->
          SessionAuth.records_of name (Session.tables store) <> [] ->
          exists user,
            In user (TestApp.users (Session.tables store))
            /\ Session.require_auth f request now today store
               = f user request now today store).
Proof.
  intros f request now today store. split; [|split].
  - unfold Session.require_auth. intros [-> | ->]; reflexivity.
  - intros name Hname Hne Hrecs. unfold Session.require_auth.
    rewrite Hname. destruct (String.eqb_spec name ""); [contradiction|].
    unfold SessionAuth.records_of in Hrecs. rewrite Hrecs. reflexivity.
  - intros name Hwf Hname Hne Hrecs.
    destruct (Sql.first_by_desc TestApp.LoginRecord.login_timestamp
                (SessionAuth.records_of name (Session.tables store)))
      as [record|] eqn:Hfirst.
    2:{ exfalso. apply Hrecs. unfold Sql.first_by_desc in Hfirst.
        pose proof (order_by_desc_perm TestApp.LoginRecord.login_timestamp
                      (SessionAuth.records_of name (Session.tables store)))
          as Hperm.
        destruct (Sql.order_by_desc _ _); [|discriminate].
        now apply Permutation_nil in Hperm. }
    assert (Hin : In record (TestApp.login_records (Session.tables store))).
    { unfold Sql.first_by_desc in Hfirst.
      assert (In record
                (Sql.order_by_desc TestApp.LoginRecord.login_timestamp
                   (SessionAuth.records_of name (Session.tables store)))) as H.
      { destruct (Sql.order_by_desc _ _); [discriminate|].
        injection Hfirst as ->. now left. }
      apply order_by_desc_in in H. unfold SessionAuth.records_of in H.
      now apply filter_In in H. }
    destruct Hwf as (_ & _ & _ & _ & _ & Hrec & _).
    destruct (get_user_of_key _ _ (Hrec record Hin)) as [user [Hget Huser]].
    exists user. split; [exact Huser|].
    apply (SessionAuth.resolves_require_auth name); [|exact Hname].
    split; [exact Hne|]. exists record. now split.
Qed.

Lemma session_gate_outcomes_witness :
  exists user,
    In user (TestApp.users (Session.tables DemoSession.after_login))
    /\ Session.require_auth Session.get_user_profile
         (DemoSession.get "blue-2025-01-01-wave") 300 DemoSession.day
         DemoSession.after_login
       = Session.get_user_profile user
           (DemoSession.get "blue-2025-01-01-wave") 300 DemoSession.day
           DemoSession.after_login.
Proof.
  refine (proj2 (proj2 (session_gate_outcomes Session.get_user_profile
                          (DemoSession.get "blue-2025-01-01-wave") 300
                          DemoSession.day DemoSession.after_login))
            "blue-2025-01-01-wave" _ eq_refl _ _).
  - exact (SessionInv.serve_well_formed
             [DemoSession.register; DemoSession.login] Session.empty
             DemoSession.after_login SessionInv.well_formed_empty eq_refl).
  - discriminate.
  - discriminate.
Defined.
